(** * Timetable detail page and timetable grid: a shallow embedding

    The development follows the two TypeScript components of the
    front end,

    - [app/dashboard/timetables/[id]/page.tsx] (module [Page]):
      [processSections], [fetchTimetable], [handleSlotUpdate],
      [toggleEditMode];
    - [components/TimetableGrid.tsx] (module [Grid]): the effect that
      computes [timeSlots] and [courseLegend], the drag handlers and the
      table that is rendered;

    and, for the two back-end parts the properties speak of and whose
    code is not part of the sources at hand, models written from the
    specification: the single-slot editor (module [SlotEditor]) and the
    population engine (module [Engine]).

    Conventions.

    - A JavaScript string is a [string]; comparisons by code unit are
      [String.compare].
    - A plain object used as a record ([Record<string, V>]) is the list
      of its own enumerable properties in the order [Object.entries]
      enumerates them.  Reading a property by key looks at the own
      properties first and then at [Object.prototype]: see [readProp].
    - A [Map] and a [Set] are lists in insertion order.
    - A function that can throw returns an [Outcome]. *)

From Stdlib Require Import List String Ascii Bool ZArith Lia Arith.
From Stdlib Require Import Permutation Sorted.
Import ListNotations.
Local Open Scope string_scope.
Local Open Scope list_scope.

Set Implicit Arguments.
Local Set Warnings "-register-all".

(** ** A stable sort *)

Module Stable.

(** Insertion from the right end: an element goes before the first one it
    may precede, so elements that compare equal keep their order.  For an
    order that is total and transitive on the elements, every stable sort
    returns this list. *)
Fixpoint insert {A} (le : A -> A -> bool) (a : A) (sorted : list A) : list A :=
  match sorted with
  | [] => [a]
  | b :: rest => if le a b then a :: sorted else b :: insert le a rest
  end.

Definition sort {A} (le : A -> A -> bool) (l : list A) : list A :=
  fold_right (insert le) [] l.

End Stable.

(** ** JavaScript values and containers *)

Module JS.

(** How a call completes.  [LeavesModel] marks the executions that carry
    on with a built-in object shared by the whole page (a member inherited
    from [Object.prototype] taken for a record of the program, then read
    or written into): what follows them is not described here. *)
Inductive Outcome (A : Type) : Type :=
| Normal (a : A)
| ThrowsTypeError
| LeavesModel.

Arguments Normal {A} a.
Arguments ThrowsTypeError {A}.
Arguments LeavesModel {A}.

Definition bind {A B} (o : Outcome A) (k : A -> Outcome B) : Outcome B :=
  match o with
  | Normal a => k a
  | ThrowsTypeError => ThrowsTypeError
  | LeavesModel => LeavesModel
  end.

(** [forEach] with a callback that updates an accumulator and may
    complete abruptly. *)
Fixpoint forEach {A S} (step : S -> A -> Outcome S) (l : list A) (s : S)
  : Outcome S :=
  match l with
  | [] => Normal s
  | a :: l' => bind (step s a) (forEach step l')
  end.

(** [array.map] with a callback that may throw. *)
Fixpoint mapM {A B} (f : A -> Outcome B) (l : list A) : Outcome (list B) :=
  match l with
  | [] => Normal []
  | a :: l' =>
      bind (f a) (fun b => bind (mapM f l') (fun bs => Normal (b :: bs)))
  end.

(** Own properties of a plain object, in enumeration order. *)
Definition Obj (V : Type) : Type := list (string * V).

Fixpoint own {V} (k : string) (o : Obj V) : option V :=
  match o with
  | [] => None
  | (k', v) :: o' => if String.eqb k k' then Some v else own k o'
  end.

(** [o[k] = v]: an existing property keeps its place, a new one is
    enumerated last.  [Map.prototype.set] behaves the same way. *)
Fixpoint setProp {V} (k : string) (v : V) (o : Obj V) : Obj V :=
  match o with
  | [] => [(k, v)]
  | (k', v') :: o' =>
      if String.eqb k k' then (k', v) :: o' else (k', v') :: setProp k v o'
  end.

Definition keys {V} (o : Obj V) : list string := map fst o.
Definition values {V} (o : Obj V) : list V := map snd o.

(** The members every plain object inherits from [Object.prototype]. *)
Definition objectPrototypeKeys : list string :=
  [ "constructor"; "__defineGetter__"; "__defineSetter__"; "hasOwnProperty";
    "__lookupGetter__"; "__lookupSetter__"; "isPrototypeOf";
    "propertyIsEnumerable"; "toString"; "valueOf"; "__proto__";
    "toLocaleString" ].

Definition inherited (k : string) : bool :=
  existsb (String.eqb k) objectPrototypeKeys.

(** The result of [o[k]] on a plain object: an own property, a member of
    [Object.prototype] (a function or the prototype itself: truthy, and
    neither an array nor a record of the program), or [undefined]. *)
Inductive Prop_ (V : Type) : Type :=
| Own (v : V)
| Inherited
| Undefined.

Arguments Own {V} v.
Arguments Inherited {V}.
Arguments Undefined {V}.

Definition readProp {V} (k : string) (o : Obj V) : Prop_ V :=
  match own k o with
  | Some v => Own v
  | None => if inherited k then Inherited else Undefined
  end.

(** A [Map<string, V>]: no prototype is consulted. *)
Definition mapHas {V} (k : string) (m : Obj V) : bool :=
  match own k m with Some _ => true | None => false end.

(** A [Set<string>] in insertion order. *)
Definition setHas (x : string) (s : list string) : bool :=
  existsb (String.eqb x) s.

Definition setAdd (x : string) (s : list string) : list string :=
  if setHas x s then s else s ++ [x].

(** [s.startsWith(p)]. *)
Definition startsWith (p s : string) : bool := String.prefix p s.

(** [s.split('-')]: the pieces between the dashes; never empty. *)
Fixpoint splitDash (s : string) : list string :=
  match s with
  | EmptyString => [""]
  | String c r =>
      if Ascii.eqb c "-" then "" :: splitDash r
      else match splitDash r with
           | [] => [String c ""]
           | p :: ps => String c p :: ps
           end
  end.

(** [t.slice(0, 5)]. *)
Definition slice05 (t : string) : string := String.substring 0 5 t.

(** [array.join(sep)] on an array of strings. *)
Definition join (sep : string) (l : list string) : string :=
  String.concat sep l.

(** A value decoded from JSON, or [undefined].  The program never
    computes with a number: it tests one for truth and turns one into
    text.  A number is therefore carried as the text [Number::toString]
    gives for it ([0] for both zeros, [1e+21] for ten to the
    twenty-first); [JSON.parse] yields no [NaN].  An object decoded from
    JSON has [Object.prototype] as its prototype and data properties
    only, an array has its elements and nothing else of its own. *)
Inductive Val : Type :=
| VUndefined
| VNull
| VBool (b : bool)
| VNum (printed : string)
| VStr (s : string)
| VArr (items : list Val)
| VObj (fields : list (string * Val)).

(** [ToBoolean]. *)
Definition truthy (v : Val) : bool :=
  match v with
  | VUndefined | VNull => false
  | VBool b => b
  | VNum printed => negb (String.eqb printed "0")
  | VStr s => negb (String.eqb s "")
  | VArr _ | VObj _ => true
  end.

(** [ToString], as a template literal and [new Error(v)] apply it.  An
    array is joined by [Array.prototype.join].  An object is turned into
    a primitive by its [toString] member and then by [valueOf]: with no
    own [toString] the inherited one answers [[object Object]]; an own
    [toString] is a JSON value, which cannot be called, and [valueOf] is
    then either an own JSON value or the inherited one, which returns
    the object itself, so that no primitive is found and a [TypeError] is
    thrown. *)
Fixpoint toString (v : Val) : Outcome string :=
  match v with
  | VUndefined => Normal "undefined"
  | VNull => Normal "null"
  | VBool true => Normal "true"
  | VBool false => Normal "false"
  | VNum printed => Normal printed
  | VStr s => Normal s
  | VArr items =>
      bind (mapM (fun x => match x with
                           | VUndefined | VNull => Normal ""
                           | _ => toString x
                           end) items)
           (fun parts => Normal (join "," parts))
  | VObj fields =>
      match own "toString" fields with
      | Some _ => ThrowsTypeError
      | None => Normal "[object Object]"
      end
  end.

(** [v.k] for a key [k] that no built-in prototype defines (the keys read
    by the program are [error], [detail], [conflicts], [type] and
    [course]); reading a property of [undefined] or [null] throws. *)
Definition getField (k : string) (v : Val) : Outcome Val :=
  match v with
  | VUndefined | VNull => ThrowsTypeError
  | VObj fields =>
      match own k fields with Some x => Normal x | None => Normal VUndefined end
  | _ => Normal VUndefined
  end.

(** [new Set(array)], or one [add] per element: the elements in the
    order of their first occurrence. *)
Definition setFrom (l : list string) : list string :=
  fold_left (fun s x => setAdd x s) l [].

End JS.

(** ** Data shared by the page and the grid *)

Module Data.

(** [interface TimetableClass].  The grid declares the same interface
    without [class_id]; it never reads that field. *)
Record TimetableClass : Type := {
  class_id : string;
  course : string;
  course_id : string;
  instructor : string;
  room : string;
  section : string;
  course_type : string
}.

(** [Record<string, Record<string, TimetableClass[]>>]: day, then time
    slot, then the classes of that cell. *)
Definition DaySchedule : Type := JS.Obj (list TimetableClass).
Definition Schedule : Type := JS.Obj DaySchedule.

(** What the two components do to the outside: toasts, the console, HTTP
    requests, and a call of the [onSlotUpdate] property of a grid. *)
Inductive Effect : Type :=
| ToastError (message : string) (duration : option Z)
| ToastSuccess (message : string)
| ConsoleLog (message : string)
| ConsoleError (message : string)
| ApiGet (url : string)
| ApiPatch (url class_id day time_slot : string)
| InvokeOnSlotUpdate (classId newDay newTime : string).

Definition isInvokeOnSlotUpdate (e : Effect) : bool :=
  match e with InvokeOnSlotUpdate _ _ _ => true | _ => false end.

Definition isApiGet (e : Effect) : bool :=
  match e with ApiGet _ => true | _ => false end.

(** The own-property content of the cell [(day, timeSlot)]; an absent
    day or slot has no classes. *)
Definition cellAt (schedule : Schedule) (day timeSlot : string)
  : list TimetableClass :=
  match JS.own day schedule with
  | Some daySchedule =>
      match JS.own timeSlot daySchedule with
      | Some classes => classes
      | None => []
      end
  | None => []
  end.

End Data.

(** ** components/TimetableGrid.tsx *)

Module Grid.
Import JS Data.

(** The properties the page passes.  [TimetableGridProps] declares
    [schedule] and [title] only, and the component reads nothing else.
    The page also passes [editMode], carried here, and [onSlotUpdate]: a
    call of that function is the effect [InvokeOnSlotUpdate]. *)
Record Props : Type := {
  schedule : Schedule;
  title : option string;
  editMode : bool
}.

Definition days : list string :=
  ["Monday"; "Tuesday"; "Wednesday"; "Thursday"; "Friday"].

Definition LUNCH_START_PREFIX : string := "13:00".

(** [days.includes(day)]. *)
Definition isDay (day : string) : bool := existsb (String.eqb day) days.

(** One entry of [courseLegend]. *)
Record LegendEntry : Type := {
  legend_course_id : string;
  legend_course : string;
  instructors : list string
}.

(** [useState]: both start empty, the effect fills them. *)
Record State : Type := {
  timeSlots : list string;
  courseLegend : list LegendEntry
}.

Definition initialState : State :=
  {| timeSlots := []; courseLegend := [] |}.

Section Effect.

(** [String.prototype.localeCompare] belongs to the platform, not to the
    program: negative, zero or positive. *)
Variable localeCompare : string -> string -> Z.

(** Collect all time slots present in the schedule: the callback of
    the outer [forEach] (ignore Saturday, etc), then the loop. *)
Definition collectDay (allTimeSlots : list string)
  (entry : string * DaySchedule) : list string :=
  let (day, daySchedule) := entry in
  if negb (isDay day) then allTimeSlots
  else fold_left (fun acc timeSlot => setAdd timeSlot acc)
                 (keys daySchedule) allTimeSlots.

Definition collectTimeSlots (schedule : Schedule) : list string :=
  fold_left collectDay schedule [].

Definition isLunchSlot (slot : string) : bool :=
  startsWith LUNCH_START_PREFIX slot.

(** Inject a lunch row if not already present. *)
Definition injectLunch (slots : list string) : list string :=
  let hasLunch := existsb isLunchSlot slots in
  if negb hasLunch then slots ++ ["13:00:00-13:45:00"] else slots.

(** [a.split('-')[0]]. *)
Definition startOf (a : string) : string := hd "" (splitDash a).

Definition compareSlots (a b : string) : Z :=
  localeCompare (startOf a) (startOf b).

(** [slots.sort(compare)]: [a] may precede [b] when the comparator does
    not return a positive number; [Array.prototype.sort] is stable. *)
Definition mayPrecede (a b : string) : bool := (compareSlots a b <=? 0)%Z.

Definition sortSlots (slots : list string) : list string :=
  Stable.sort mayPrecede slots.

Definition computeTimeSlots (schedule : Schedule) : list string :=
  sortSlots (injectLunch (collectTimeSlots schedule)).

(** [cls.course_id || cls.course]. *)
Definition legendKey (cls : TimetableClass) : string :=
  if negb (String.eqb cls.(course_id) "") then cls.(course_id)
  else cls.(course).

(** The body of [classesAtSlot.forEach]; the [instructors] of a value of
    [legendMap] are its [Set]. *)
Definition legendAdd (legendMap : Obj LegendEntry) (cls : TimetableClass)
  : Obj LegendEntry :=
  let key := legendKey cls in
  match own key legendMap with
  | None =>
      setProp key {| legend_course_id := cls.(course_id);
                     legend_course := cls.(course);
                     instructors := [cls.(instructor)] |} legendMap
  | Some item =>
      setProp key {| legend_course_id := item.(legend_course_id);
                     legend_course := item.(legend_course);
                     instructors := setAdd cls.(instructor) item.(instructors) |}
              legendMap
  end.

(** Build the course legend (unique courses with instructors): the
    callback of the outer [forEach], then the loop. *)
Definition legendDay (legendMap : Obj LegendEntry)
  (entry : string * DaySchedule) : Obj LegendEntry :=
  let (day, daySchedule) := entry in
  if negb (isDay day) then legendMap
  else fold_left
         (fun acc classesAtSlot => fold_left legendAdd classesAtSlot acc)
         (values daySchedule) legendMap.

Definition buildLegendMap (schedule : Schedule) : Obj LegendEntry :=
  fold_left legendDay schedule [].

Definition computeLegend (schedule : Schedule) : list LegendEntry :=
  values (buildLegendMap schedule).

(** [item.course_id || item.course], the key under which an entry of the
    legend is rendered. *)
Definition entryKey (item : LegendEntry) : string :=
  if negb (String.eqb item.(legend_course_id) "") then item.(legend_course_id)
  else item.(legend_course).

(** The classes in the cells of Monday to Friday, in the order the loops
    of the effect visit them. *)
Definition weekdayClasses (schedule : Schedule) : list TimetableClass :=
  flat_map (fun entry : string * DaySchedule =>
              if isDay (fst entry) then List.concat (values (snd entry))
              else [])
           schedule.

(** The body of [useEffect(..., [schedule])]. *)
Definition runEffect (schedule : Schedule) : State :=
  {| timeSlots := computeTimeSlots schedule;
     courseLegend := computeLegend schedule |}.

End Effect.

(** *** Drag handlers *)

Record DragEvent : Type := {
  dataTransfer : list (string * TimetableClass);
  defaultPrevented : bool
}.

Definition preventDefault (event : DragEvent) : DragEvent :=
  {| dataTransfer := event.(dataTransfer); defaultPrevented := true |}.

(** [setData('text/plain', JSON.stringify(cls))]: the payload is kept as
    the class it serialises. *)
Definition handleDragStart (event : DragEvent) (cls : TimetableClass)
  : DragEvent :=
  {| dataTransfer := setProp "text/plain" cls event.(dataTransfer);
     defaultPrevented := event.(defaultPrevented) |}.

Definition handleDragOver (event : DragEvent) : DragEvent :=
  preventDefault event.

Definition fixedMessage : string :=
  "Timetable is fixed by the genetic algorithm. Manual changes are not allowed.".

(** Show message and do nothing else (no state change): neither setter
    of the component is called, so the state cells come out as they went
    in.  The handler reads neither the properties nor the cell it is
    attached to. *)
Definition handleDrop (state : State) (event : DragEvent)
  : State * DragEvent * list Effect :=
  (state, preventDefault event, [ToastError fixedMessage (Some 4000%Z)]).

(** *** The table *)

Inductive Cell : Type :=
| LunchBreak
| Classes (dayClasses : list TimetableClass).

Record Row : Type := {
  row_slot : string;
  row_label : string;
  row_lunch : bool;
  row_cells : list Cell
}.

Record View : Type := {
  view_title : option string;
  view_rows : list Row;
  view_noClasses : bool;
  view_legend : list LegendEntry
}.

(** [const [start, end] = slot.split('-')]; [end] is [undefined] when the
    slot has no dash, and [undefined.slice] throws. *)
Definition formatTimeSlotLabel (slot : string) : Outcome string :=
  match splitDash slot with
  | start :: end_ :: _ => Normal (slice05 start ++ " - " ++ slice05 end_)%string
  | _ => ThrowsTypeError
  end.

(** [schedule[day]?.[timeSlot] || []], then [dayClasses.map]: a member of
    [Object.prototype] found under [timeSlot] is truthy and has no
    [map]. *)
Definition dayClassesAt (schedule : Schedule) (day timeSlot : string)
  : Outcome (list TimetableClass) :=
  match readProp day schedule with
  | Own daySchedule =>
      match readProp timeSlot daySchedule with
      | Own classes => Normal classes
      | Inherited => ThrowsTypeError
      | Undefined => Normal []
      end
  | Inherited => LeavesModel
  | Undefined => Normal []
  end.

Definition renderCell (schedule : Schedule) (lunch : bool)
  (timeSlot day : string) : Outcome Cell :=
  if lunch then Normal LunchBreak
  else bind (dayClassesAt schedule day timeSlot)
            (fun dayClasses => Normal (Classes dayClasses)).

Definition renderRow (schedule : Schedule) (timeSlot : string) : Outcome Row :=
  let lunch := isLunchSlot timeSlot in
  bind (formatTimeSlotLabel timeSlot) (fun label =>
  bind (mapM (renderCell schedule lunch timeSlot) days) (fun cells =>
  Normal {| row_slot := timeSlot; row_label := label;
            row_lunch := lunch; row_cells := cells |})).

Definition render (props : Props) (state : State) : Outcome View :=
  bind (mapM (renderRow props.(schedule)) state.(timeSlots)) (fun rows =>
  Normal {| view_title :=
              match props.(title) with
              | Some t => if String.eqb t "" then None else Some t
              | None => None
              end;
            view_rows := rows;
            view_noClasses := Nat.eqb (List.length state.(timeSlots)) 0;
            view_legend := state.(courseLegend) |}).

(** What the grid shows once its effect has run for the current
    [schedule]. *)
Definition display (localeCompare : string -> string -> Z) (props : Props)
  : Outcome View :=
  render props (runEffect localeCompare props.(schedule)).

End Grid.

(** ** app/dashboard/timetables/[id]/page.tsx *)

Module Page.
Import JS Data.

(** [interface TimetableData]; [fitness] is a number the page only
    prints. *)
Record TimetableData : Type := {
  timetable_name : string;
  fitness : Z;
  td_schedule : Schedule
}.

Record SectionData : Type := {
  sd_section : string;
  sd_schedule : Schedule
}.

(** The four [useState] cells of [TimetableDetailPage]. *)
Record State : Type := {
  timetable : option TimetableData;
  sections : list SectionData;
  loading : bool;
  editMode : bool
}.

Definition initialState : State :=
  {| timetable := None; sections := []; loading := true; editMode := false |}.

(** *** processSections *)

(** [sectionMap]: a [Map] from section name to that section's record. *)
Definition SectionMap : Type := Obj Schedule.

(** [m.get(k)!] and [o[k]] where the property was just made sure of. *)
Definition getOr {V} (d : V) (k : string) (o : Obj V) : V :=
  match own k o with Some v => v | None => d end.

(** The body of [classes.forEach].  The three records it walks are
    mutated in place in the source; here each write is put back into the
    enclosing record. *)
Definition addClass (day timeSlot : string) (sectionMap : SectionMap)
  (classInfo : TimetableClass) : Outcome SectionMap :=
  let section := classInfo.(section) in
  let sectionMap :=
    if negb (mapHas section sectionMap) then setProp section [] sectionMap
    else sectionMap in
  let sectionSchedule := getOr [] section sectionMap in
  match readProp day sectionSchedule with
  | Inherited => LeavesModel
  | dayProp =>
      let sectionSchedule :=
        match dayProp with
        | Undefined => setProp day [] sectionSchedule
        | _ => sectionSchedule
        end in
      let daySchedule := getOr [] day sectionSchedule in
      match readProp timeSlot daySchedule with
      | Inherited => ThrowsTypeError
      | slotProp =>
          let daySchedule :=
            match slotProp with
            | Undefined => setProp timeSlot [] daySchedule
            | _ => daySchedule
            end in
          let classes := getOr [] timeSlot daySchedule in
          Normal
            (setProp section
               (setProp day
                  (setProp timeSlot (classes ++ [classInfo]) daySchedule)
                  sectionSchedule)
               sectionMap)
      end
  end.

(** The three writes of [addClass] taken together, for keys that are
    not inherited ([addClass_plain] below shows that the body above
    computes this). *)
Definition place (day timeSlot : string) (sectionMap : SectionMap)
  (classInfo : TimetableClass) : SectionMap :=
  let sectionSchedule := getOr [] classInfo.(section) sectionMap in
  let daySchedule := getOr [] day sectionSchedule in
  setProp classInfo.(section)
    (setProp day
       (setProp timeSlot (getOr [] timeSlot daySchedule ++ [classInfo])
                daySchedule)
       sectionSchedule)
    sectionMap.

(** The classes of a schedule with their day and slot, in the order the
    three nested loops visit them. *)
Definition visits (schedule : Schedule)
  : list (string * string * TimetableClass) :=
  flat_map (fun dayEntry : string * DaySchedule =>
              flat_map (fun slotEntry : string * list TimetableClass =>
                          map (fun classInfo =>
                                 (fst dayEntry, fst slotEntry, classInfo))
                              (snd slotEntry))
                       (snd dayEntry))
           schedule.

(** A visit is for the cell [(d, t)] of section [s]. *)
Definition hits (s d t : string) (x : string * string * TimetableClass)
  : bool :=
  String.eqb s (snd x).(section)
  && String.eqb d (fst (fst x)) && String.eqb t (snd (fst x)).

(** Group classes by section. *)
Definition groupBySection (schedule : Schedule) : Outcome SectionMap :=
  forEach
    (fun sectionMap (entry : string * DaySchedule) =>
       let (day, daySchedule) := entry in
       forEach
         (fun sectionMap (slotEntry : string * list TimetableClass) =>
            let (timeSlot, classes) := slotEntry in
            forEach (addClass day timeSlot) classes sectionMap)
         daySchedule sectionMap)
    schedule [].

(** A schedule as [view_schedule] delivers it: the keys of each record are
    pairwise distinct, as the properties of an object are, and none of
    them is the name of a member of [Object.prototype]. *)
Definition wellFormed (schedule : Schedule) : Prop :=
  NoDup (keys schedule)
  /\ forall day daySchedule,
       In (day, daySchedule) schedule ->
       inherited day = false
       /\ NoDup (keys daySchedule)
       /\ forall timeSlot, In timeSlot (keys daySchedule) ->
                           inherited timeSlot = false.

(** A record of section [s] without idle parts: it has a day, every day
    has a slot, every cell has a class, and every class names [s]. *)
Definition compact (s : string) (sectionSchedule : Schedule) : Prop :=
  sectionSchedule <> []
  /\ forall day daySchedule,
       In (day, daySchedule) sectionSchedule ->
       daySchedule <> []
       /\ forall timeSlot classes,
            In (timeSlot, classes) daySchedule ->
            classes <> []
            /\ forall c, In c classes -> c.(section) = s.

Definition toSectionData (entry : string * Schedule) : SectionData :=
  {| sd_section := fst entry; sd_schedule := snd entry |}.

(** The array handed to [setSections]. *)
Definition processSections (schedule : Schedule) : Outcome (list SectionData) :=
  bind (groupBySection schedule) (fun sectionMap =>
  Normal (map toSectionData sectionMap)).

(** *** Requests *)

(** What [api.get] of the schedule resolves to, or that it rejected. *)
Inductive GetReply : Type :=
| GetOk (data : TimetableData)
| GetFails.

(** The error [api.patch] rejects with.  [response_data] is
    [error.response?.data]: absent when no answer came back. *)
Record AxiosError : Type := {
  response_data : option Val
}.

Inductive PatchReply : Type :=
| PatchOk
| PatchFails (error : AxiosError).

Section WithParams.

(** [params.id]. *)
Variable id : string.

Definition viewScheduleUrl : string :=
  ("/timetables/" ++ id ++ "/view_schedule/")%string.

(** [fetchTimetable]: the [try], the [catch] and the [finally]. *)
Definition fetchTimetable (reply : GetReply) (st : State)
  : Outcome (State * list Effect) :=
  match reply with
  | GetFails =>
      Normal ({| timetable := st.(timetable); sections := st.(sections);
                 loading := false; editMode := st.(editMode) |},
              [ApiGet viewScheduleUrl;
               ToastError "Failed to fetch timetable details" None])
  | GetOk data =>
      match processSections data.(td_schedule) with
      | Normal sectionData =>
          Normal ({| timetable := Some data; sections := sectionData;
                     loading := false; editMode := st.(editMode) |},
                  [ApiGet viewScheduleUrl])
      | ThrowsTypeError =>
          Normal ({| timetable := Some data; sections := st.(sections);
                     loading := false; editMode := st.(editMode) |},
                  [ApiGet viewScheduleUrl;
                   ToastError "Failed to fetch timetable details" None])
      | LeavesModel => LeavesModel
      end
  end.

(** *** handleSlotUpdate *)

(** One item of [conflicts.map(...)]. *)
Definition describeConflict (c : Val) : Outcome string :=
  bind (getField "type" c) (fun type_ =>
  bind (toString type_) (fun typeText =>
  bind (getField "course" c) (fun course_ =>
  bind (toString course_) (fun courseText =>
  Normal (typeText ++ " conflict for " ++ courseText)%string)))).

(** Extract a meaningful error message from the API response: the value
    of [errorMessage] when [new Error] is reached. *)
Definition extractErrorMessage (error : AxiosError) : Outcome Val :=
  let errorMessage := VStr "Failed to move class" in
  match error.(response_data) with
  | None => Normal errorMessage
  | Some data =>
      if truthy data then
        bind (getField "error" data) (fun error_ =>
        if truthy error_ then Normal error_
        else
          bind (getField "detail" data) (fun detail =>
          if truthy detail then Normal detail
          else
            bind (getField "conflicts" data) (fun conflicts =>
            if truthy conflicts then
              match conflicts with
              | VArr items =>
                  bind (mapM describeConflict items) (fun parts =>
                  Normal (VStr ("Conflict detected: " ++ join ", " parts)%string))
              | _ => ThrowsTypeError
              end
            else Normal errorMessage)))
      else Normal errorMessage
  end.

(** What an [async] function settles with. *)
Inductive Thrown : Type :=
| ErrorObject (message : string)
| TypeError.

Inductive Completion : Type :=
| Fulfilled
| Rejected (reason : Thrown).

Record Run : Type := {
  run_state : State;
  run_effects : list Effect;
  run_completion : Completion
}.

Definition handleSlotUpdate (patchReply : PatchReply) (getReply : GetReply)
  (classId newDay newTime : string) (st : State) : Outcome Run :=
  let request :=
    [ConsoleLog "Updating class slot:";
     ApiPatch "/classes/update_slot/" classId newDay newTime] in
  match patchReply with
  | PatchOk =>
      bind (fetchTimetable getReply st) (fun refreshed =>
      Normal {| run_state := fst refreshed;
                run_effects :=
                  request ++ [ConsoleLog "API call successful"] ++ snd refreshed;
                run_completion := Fulfilled |})
  | PatchFails error =>
      let effects := request ++ [ConsoleError "Failed to update class slot:"] in
      match bind (extractErrorMessage error) toString with
      | Normal message =>
          Normal {| run_state := st; run_effects := effects;
                    run_completion := Rejected (ErrorObject message) |}
      | ThrowsTypeError =>
          Normal {| run_state := st; run_effects := effects;
                    run_completion := Rejected TypeError |}
      | LeavesModel => LeavesModel
      end
  end.

Definition toggleEditMode (st : State) : State * list Effect :=
  ({| timetable := st.(timetable); sections := st.(sections);
      loading := st.(loading); editMode := negb st.(editMode) |},
   if negb st.(editMode) then
     [ToastSuccess "Edit mode enabled. Click on a class to select it, then click on an empty slot to move it."]
   else [ToastSuccess "Edit mode disabled."]).

(** The grids of the page, one per section, with the properties the page
    passes to each. *)
Definition grids (st : State) : list Grid.Props :=
  map (fun sectionData =>
         {| Grid.schedule := sectionData.(sd_schedule);
            Grid.title :=
              Some ("Timetable for " ++ sectionData.(sd_section))%string;
            Grid.editMode := st.(editMode) |})
      st.(sections).

(** A drop on a cell of one grid of the page: the grid's handler runs,
    and every call of [onSlotUpdate] it makes reaches
    [handleSlotUpdate]. *)
Definition dropOnGrid (patchReply : PatchReply) (getReply : GetReply)
  (gridState : Grid.State) (event : Grid.DragEvent) (st : State)
  : Outcome (State * list Effect) :=
  let effects := snd (Grid.handleDrop gridState event) in
  forEach
    (fun (acc : State * list Effect) e =>
       match e with
       | InvokeOnSlotUpdate classId newDay newTime =>
           bind (handleSlotUpdate patchReply getReply classId newDay newTime
                                  (fst acc))
                (fun r => Normal (r.(run_state),
                                  snd acc ++ [e] ++ r.(run_effects)))
       | _ => Normal (fst acc, snd acc ++ [e])
       end)
    effects (st, []).

(** *** The first load, and what the page returns *)

(** [useEffect(() => { if (params.id) fetchTimetable() }, [params.id])]. *)
Definition mount (reply : GetReply) (st : State)
  : Outcome (State * list Effect) :=
  if negb (String.eqb id "") then fetchTimetable reply st
  else Normal (st, []).

(** The three returns of the component: the skeleton while loading, the
    "Timetable not found" card, or the timetable with its heading, the
    edit banner and one grid per section.  The fitness line and the
    suggestions card, which print and compare a number with a fraction,
    are left out. *)
Inductive Screen : Type :=
| Skeleton
| NotFound
| Timetable (name : string) (editBanner : bool) (sectionGrids : list Grid.Props).

Definition screen (st : State) : Screen :=
  if st.(loading) then Skeleton
  else match st.(timetable) with
       | None => NotFound
       | Some t => Timetable t.(timetable_name) st.(editMode) (grids st)
       end.

(** *** exportPDF and exportExcel *)

(** The steps of an export: the request for the file as a blob, the
    download through a temporary anchor, and the toast. *)
Inductive ExportStep : Type :=
| RequestBlob (url : string)
| CreateObjectURL (mimeType : string)
| CreateAnchor
| SetHref
| SetDownload (fileName : string)
| AppendToBody
| Click
| RevokeObjectURL
| RemoveFromBody
| Notify (toast : Effect).

(** [timetable?.timetable_name || 'timetable']. *)
Definition exportBaseName (st : State) : string :=
  match st.(timetable) with
  | Some t =>
      if negb (String.eqb t.(timetable_name) "") then t.(timetable_name)
      else "timetable"
  | None => "timetable"
  end.

(** [exportPDF]; [ok] tells whether [api.get] resolved. *)
Definition exportPDF (ok : bool) (st : State) : list ExportStep :=
  RequestBlob ("/timetables/" ++ id ++ "/export_pdf/")%string
  :: if ok then
       [CreateObjectURL "application/pdf";
        CreateAnchor;
        SetHref;
        SetDownload (exportBaseName st ++ ".pdf")%string;
        AppendToBody;
        Click;
        RevokeObjectURL;
        RemoveFromBody;
        Notify (ToastSuccess "PDF exported successfully")]
     else [Notify (ToastError "Failed to export PDF" None)].

(** [exportExcel]. *)
Definition exportExcel (ok : bool) (st : State) : list ExportStep :=
  RequestBlob ("/timetables/" ++ id ++ "/export_excel/")%string
  :: if ok then
       [CreateObjectURL
          "application/vnd.openxmlformats-officedocument.spreadsheetml.sheet";
        CreateAnchor;
        SetHref;
        SetDownload (exportBaseName st ++ ".xlsx")%string;
        AppendToBody;
        Click;
        RevokeObjectURL;
        RemoveFromBody;
        Notify (ToastSuccess "Excel exported successfully")]
     else [Notify (ToastError "Failed to export Excel" None)].

(** The requests among the effects of a run. *)
Definition isRequest (e : Effect) : bool :=
  match e with
  | ApiGet _ | ApiPatch _ _ _ _ => true
  | _ => false
  end.

Definition isToast (e : Effect) : bool :=
  match e with
  | ToastError _ _ | ToastSuccess _ => true
  | _ => false
  end.

End WithParams.

End Page.

(** ** The single-slot editor, as the specification words it *)

Module SlotEditor.
Import JS Data.

(** Modelled from the spec: the point query of the conflict evaluator on
    one section's record, "a violation is raised whenever two Assignments
    place the same instructor, room, or section's section-id in the same
    slot", together with "no class in the lunch slot".  The editor is
    back-end code that is not among the sources; these two definitions
    only say what an applied move would be. *)
Definition conflictFree (schedule : Schedule) (cls : TimetableClass)
  (newDay newSlot : string) : bool :=
  negb (Grid.isLunchSlot newSlot)
  && forallb
       (fun other =>
          String.eqb other.(class_id) cls.(class_id)
          || negb (String.eqb other.(instructor) cls.(instructor)
                   || String.eqb other.(room) cls.(room)
                   || String.eqb other.(section) cls.(section)))
       (cellAt schedule newDay newSlot).

(** Modelled from the spec: the rest of the schedule, "excluding the
    class being moved". *)
Definition without (classId : string) (schedule : Schedule) : Schedule :=
  map (fun dayEntry : string * DaySchedule =>
         (fst dayEntry,
          map (fun slotEntry : string * list TimetableClass =>
                 (fst slotEntry,
                  filter (fun c => negb (String.eqb c.(class_id) classId))
                         (snd slotEntry)))
              (snd dayEntry)))
      schedule.

(** Modelled from the spec: "a new Schedule value with only that one
    Assignment replaced". *)
Definition moveClass (schedule : Schedule) (cls : TimetableClass)
  (newDay newSlot : string) : Schedule :=
  let rest := without cls.(class_id) schedule in
  let daySchedule := Page.getOr [] newDay rest in
  let classes := Page.getOr [] newSlot daySchedule in
  setProp newDay (setProp newSlot (classes ++ [cls]) daySchedule) rest.

End SlotEditor.

(** ** A collation by code unit *)

(** One function the platform's [localeCompare] can be; on time slots
    written [HH:MM:SS] it is the usual one. *)
Definition codeUnitCompare (a b : string) : Z :=
  match String.compare a b with
  | Lt => (-1)%Z
  | Eq => 0%Z
  | Gt => 1%Z
  end.

(** ** A collation that puts punctuation first *)

(** How the default collation of a browser weighs the characters of a
    time: the colon, a punctuation mark, comes before every digit, and
    the digits follow in their order.  Other characters are weighed by
    their code unit here; nothing below depends on them. *)
Definition collationWeight (c : ascii) : N :=
  if Ascii.eqb c ":" then 0%N else N.succ (N_of_ascii c).

(** The comparison character by character under these weights: another
    function the platform's [localeCompare] can be.  It puts "1:00:00"
    before "10:00:00", which the code units put after it. *)
Fixpoint punctuationFirstCompare (a b : string) : Z :=
  match a, b with
  | EmptyString, EmptyString => 0%Z
  | EmptyString, String _ _ => (-1)%Z
  | String _ _, EmptyString => 1%Z
  | String c a', String d b' =>
      match N.compare (collationWeight c) (collationWeight d) with
      | Lt => (-1)%Z
      | Gt => 1%Z
      | Eq => punctuationFirstCompare a' b'
      end
  end.

(** ** Times written HH:MM:SS *)

Definition isDigit (c : ascii) : bool :=
  (N.leb 48 (N_of_ascii c) && N.leb (N_of_ascii c) 57)%bool.

(** Two digits, a colon, two digits, a colon, two digits. *)
Definition isTime (s : string) : bool :=
  match s with
  | String h1 (String h2 (String c1 (String m1 (String m2 (String c2
      (String s1 (String s2 EmptyString))))))) =>
      (isDigit h1 && isDigit h2 && Ascii.eqb c1 ":"
       && isDigit m1 && isDigit m2 && Ascii.eqb c2 ":"
       && isDigit s1 && isDigit s2)%bool
  | _ => false
  end.

(** ** The population engine *)

Module Engine.
Local Open Scope nat_scope.

(** Modelled from the spec: the population engine of the optimiser (the
    genetic algorithm runs in the back end, whose code is not among the
    sources).  A candidate maps every required class, in a fixed order, to
    one assignment; the conflict evaluator ranks candidates by fewer hard
    violations first and soft penalty next; a generation is made of the
    top [eliteCount] candidates of the previous one, copied unchanged,
    followed by offspring obtained by tournament selection, single-point
    crossover and per-gene mutation. *)
Record Assignment : Type := {
  instructor : nat;
  room : nat;
  startSlot : nat
}.

(** Modelled from the spec: a RequiredClass with its "eligible-instructor
    set", its "eligible-room set" and the start slots of the runs it may
    occupy. *)
Record RequiredClass : Type := {
  eligibleInstructors : list nat;
  eligibleRooms : list nat;
  validStarts : list nat
}.

(** Modelled from the spec: a Schedule (candidate), "a mapping from every
    RequiredClass to exactly one Assignment", in the order of the
    catalog. *)
Definition Candidate : Type := list Assignment.

(** Modelled from the spec: the FitnessReport, "hard-violation count
    (drives rejection), soft penalty score (drives ranking among
    otherwise-valid candidates)". *)
Record FitnessReport : Type := {
  hardViolations : nat;
  softPenalty : nat
}.

(** Modelled from the spec: gaConfig, "population size, generation
    budget, tournament size k, crossover probability, per-gene mutation
    probability, elite count, fitness threshold for early stop".
    Probabilities are in percent. *)
Record GaConfig : Type := {
  populationSize : nat;
  generationBudget : nat;
  tournamentSize : nat;
  crossoverProbability : nat;
  mutationProbability : nat;
  eliteCount : nat;
  fitnessThreshold : nat
}.

(** Modelled from the spec: the total order on fitness reports, "fewer
    hard violations always ranks better; soft penalty breaks ties".
    [atLeastAsGood a b] reads: [a] ranks no worse than [b]. *)
Definition atLeastAsGood (a b : FitnessReport) : bool :=
  (a.(hardViolations) <? b.(hardViolations))
  || ((a.(hardViolations) =? b.(hardViolations))
      && (a.(softPenalty) <=? b.(softPenalty))).

Section Run.

(** The conflict evaluator, a pure function of the candidate. *)
Variable evaluate : Candidate -> FitnessReport.

(** The random source: [random n] is its [n]-th draw.  Every operator
    below takes the index of the next draw and returns the index after
    its last one. *)
Variable random : nat -> nat.

Variable catalog : list RequiredClass.
Variable config : GaConfig.

(** Modelled from the spec: a uniform choice among [choices], and an
    event of the given probability, each from one draw. *)
Definition pick (choices : list nat) (n : nat) : nat :=
  nth (random n mod List.length choices) choices 0.

Definition chance (percent n : nat) : bool := random n mod 100 <? percent.

(** Modelled from the spec: initialisation, "for every RequiredClass in
    deterministic order, picking a random eligible instructor, random
    eligible room, and a random valid start slot". *)
Fixpoint randomCandidate (classes : list RequiredClass) (n : nat)
  : Candidate * nat :=
  match classes with
  | [] => ([], n)
  | rc :: rest =>
      let gene := {| instructor := pick rc.(eligibleInstructors) n;
                     room := pick rc.(eligibleRooms) (n + 1);
                     startSlot := pick rc.(validStarts) (n + 2) |} in
      let (genes, n') := randomCandidate rest (n + 3) in
      (gene :: genes, n')
  end.

(** Modelled from the spec: "for each of N population slots, produce one
    candidate". *)
Fixpoint initialPopulation (size n : nat) : list Candidate * nat :=
  match size with
  | 0 => ([], n)
  | S size' =>
      let (c, n1) := randomCandidate catalog n in
      let (cs, n2) := initialPopulation size' n1 in
      (c :: cs, n2)
  end.

(** Modelled from the spec: candidates are compared by their
    FitnessReport. *)
Definition ranksNoWorse (a b : Candidate) : bool :=
  atLeastAsGood (evaluate a) (evaluate b).

(** Modelled from the spec: "keep the one with the best FitnessReport";
    the first one on a tie. *)
Definition better (a b : Candidate) : Candidate :=
  if ranksNoWorse a b then a else b.

(** Modelled from the spec: tournament selection, "sample k candidates
    uniformly without replacement from the current population and keep the
    one with the best FitnessReport". *)
Fixpoint sample (k : nat) (pool : list Candidate) (n : nat)
  : list Candidate * nat :=
  match k with
  | 0 => ([], n)
  | S k' =>
      match pool with
      | [] => ([], n)
      | _ =>
          let i := random n mod List.length pool in
          let (others, n') :=
            sample k' (firstn i pool ++ skipn (S i) pool) (S n) in
          (nth i pool [] :: others, n')
      end
  end.

(** Modelled from the spec: one tournament of the selection, repeated
    "until a mating pool of population size is filled". *)
Definition tournament (population : list Candidate) (n : nat)
  : Candidate * nat :=
  let (drawn, n') := sample config.(tournamentSize) population n in
  (fold_left better drawn (hd [] drawn), n').

(** Modelled from the spec: the mating pool, one tournament per
    population slot. *)
Fixpoint matingPool (size : nat) (population : list Candidate) (n : nat)
  : list Candidate * nat :=
  match size with
  | 0 => ([], n)
  | S size' =>
      let (winner, n1) := tournament population n in
      let (winners, n2) := matingPool size' population n1 in
      (winner :: winners, n2)
  end.

(** Modelled from the spec: single-point crossover, applied "to each
    consecutive pair in the mating pool with configured crossover
    probability; otherwise the pair passes through unchanged". *)
Definition crossPair (p1 p2 : Candidate) (n : nat)
  : Candidate * Candidate * nat :=
  if chance config.(crossoverProbability) n then
    let cut := random (n + 1) mod (List.length p1 + 1) in
    (firstn cut p1 ++ skipn cut p2, firstn cut p2 ++ skipn cut p1, n + 2)
  else (p1, p2, n + 1).

(** Modelled from the spec: crossover over the consecutive pairs of the
    pool; [fuel] bounds the number of pairs. *)
Fixpoint crossover (fuel : nat) (pool : list Candidate) (n : nat)
  : list Candidate * nat :=
  match fuel, pool with
  | S fuel', p1 :: p2 :: rest =>
      let '(a, b, n1) := crossPair p1 p2 n in
      let (cs, n2) := crossover fuel' rest n1 in
      (a :: b :: cs, n2)
  | _, _ => (pool, n)
  end.

(** Modelled from the spec: mutation, "resample exactly one of
    {instructor, room, time-slot} for that Assignment". *)
Definition mutateGene (rc : RequiredClass) (gene : Assignment) (n : nat)
  : Assignment * nat :=
  if chance config.(mutationProbability) n then
    match random (n + 1) mod 3 with
    | 0 => ({| instructor := pick rc.(eligibleInstructors) (n + 2);
               room := gene.(room); startSlot := gene.(startSlot) |}, n + 3)
    | 1 => ({| instructor := gene.(instructor);
               room := pick rc.(eligibleRooms) (n + 2);
               startSlot := gene.(startSlot) |}, n + 3)
    | _ => ({| instructor := gene.(instructor); room := gene.(room);
               startSlot := pick rc.(validStarts) (n + 2) |}, n + 3)
    end
  else (gene, n + 1).

(** Modelled from the spec: mutation "for each class in each
    offspring". *)
Fixpoint mutate (classes : list RequiredClass) (c : Candidate) (n : nat)
  : Candidate * nat :=
  match classes, c with
  | rc :: classes', gene :: genes =>
      let (gene', n1) := mutateGene rc gene n in
      let (genes', n2) := mutate classes' genes n1 in
      (gene' :: genes', n2)
  | _, _ => (c, n)
  end.

(** Modelled from the spec: mutation of every offspring. *)
Fixpoint mutateAll (offspring : list Candidate) (n : nat)
  : list Candidate * nat :=
  match offspring with
  | [] => ([], n)
  | c :: rest =>
      let (c', n1) := mutate catalog c n in
      let (rest', n2) := mutateAll rest n1 in
      (c' :: rest', n2)
  end.

(** Modelled from the spec: elitism, "the top-E candidates by
    FitnessReport from the current generation are copied unchanged into
    the next generation, bypassing crossover/mutation". *)
Definition elites (population : list Candidate) : list Candidate :=
  firstn config.(eliteCount) (Stable.sort ranksNoWorse population).

(** Modelled from the spec: one step of the state machine over
    generations; the elites come first, offspring fill the remaining
    population slots. *)
Definition nextGeneration (population : list Candidate) (n : nat)
  : list Candidate * nat :=
  let kept := elites population in
  let (pool, n1) := matingPool config.(populationSize) population n in
  let (crossed, n2) := crossover (List.length pool) pool n1 in
  let (offspring, n3) := mutateAll crossed n2 in
  (kept ++ firstn (config.(populationSize) - List.length kept) offspring, n3).

(** Modelled from the spec: generation [g] of a run, with the index of
    the next random draw. *)
Fixpoint generation (g : nat) : list Candidate * nat :=
  match g with
  | 0 => initialPopulation config.(populationSize) 0
  | S g' => let (population, n) := generation g' in nextGeneration population n
  end.

(** Modelled from the spec: best-fitness(g), the best fitness report of
    a population; none when it is empty. *)
Definition bestFitness (population : list Candidate) : option FitnessReport :=
  match population with
  | [] => None
  | c :: rest => Some (evaluate (fold_left better rest c))
  end.

End Run.

End Engine.

(** ** Sample data *)

Module Sample.
Import JS Data.

(** A section with one class on Monday morning, and the same class
    dragged towards Tuesday morning. *)
Definition class1 : TimetableClass :=
  {| class_id := "c1"; course := "Databases"; course_id := "CS301";
     instructor := "Rao"; room := "R1"; section := "A";
     course_type := "Theory" |}.

Definition schedule1 : Schedule :=
  [("Monday", [("09:00:00-10:00:00", [class1])])].

Definition props1 : Grid.Props :=
  {| Grid.schedule := schedule1; Grid.title := Some "Timetable for A";
     Grid.editMode := true |}.

Definition event1 : Grid.DragEvent :=
  Grid.handleDragStart
    {| Grid.dataTransfer := []; Grid.defaultPrevented := false |} class1.

(** A week with two courses, a class put into the lunch slot on
    Wednesday, and a Saturday that the grid leaves out. *)
Definition class2 : TimetableClass :=
  {| class_id := "c2"; course := "Databases"; course_id := "CS301";
     instructor := "Iyer"; room := "R2"; section := "B";
     course_type := "Theory" |}.

Definition class3 : TimetableClass :=
  {| class_id := "c3"; course := "Algebra"; course_id := "";
     instructor := "Rao"; room := "R3"; section := "A";
     course_type := "Theory" |}.

Definition class4 : TimetableClass :=
  {| class_id := "c4"; course := "Networks Lab"; course_id := "CS351";
     instructor := "Khan"; room := "L1"; section := "B";
     course_type := "Lab" |}.

Definition schedule2 : Schedule :=
  [("Monday", [("10:00:00-11:00:00", [class1; class2]);
               ("09:00:00-10:00:00", [class3])]);
   ("Wednesday", [("13:00:00-14:00:00", [class2])]);
   ("Saturday", [("08:00:00-09:00:00", [class4])])].

Definition props2 : Grid.Props :=
  {| Grid.schedule := schedule2; Grid.title := None; Grid.editMode := false |}.

(** A small run of the population engine: two required classes, a
    population of three, one elite; the evaluator counts the classes put
    in slot 0 as hard violations and the rooms used as penalty. *)
Definition catalog1 : list Engine.RequiredClass :=
  [{| Engine.eligibleInstructors := [1; 2]; Engine.eligibleRooms := [10; 11];
      Engine.validStarts := [0; 1; 2] |};
   {| Engine.eligibleInstructors := [2; 3]; Engine.eligibleRooms := [10];
      Engine.validStarts := [1; 2] |}].

Definition config1 : Engine.GaConfig :=
  {| Engine.populationSize := 3; Engine.generationBudget := 5;
     Engine.tournamentSize := 2; Engine.crossoverProbability := 70;
     Engine.mutationProbability := 10; Engine.eliteCount := 1;
     Engine.fitnessThreshold := 90 |}.

Definition evaluate1 (c : Engine.Candidate) : Engine.FitnessReport :=
  {| Engine.hardViolations :=
       List.length (filter (fun g => Nat.eqb g.(Engine.startSlot) 0) c);
     Engine.softPenalty :=
       fold_left (fun acc g => acc + g.(Engine.room)) c 0 |}.

Definition random1 (n : nat) : nat :=
  nth (n mod 43)
      [83; 12; 47; 95; 6; 71; 28; 64; 39; 50; 17; 92; 3; 58; 76; 21; 44; 89;
       10; 67; 35; 98; 2; 53; 79; 26; 61; 14; 87; 40; 73; 8; 55; 31; 96; 19;
       68; 42; 85; 24; 0; 77; 33] 0.

(** A Monday with a lab and a lecture that start together, the lab
    first. *)
Definition schedule3 : Schedule :=
  [("Monday", [("09:00:00-11:00:00", [class4]);
               ("09:00:00-10:00:00", [class1]);
               ("08:00:00-09:00:00", [class3])]);
   ("Tuesday", [("09:00:00-10:00:00", [class2])])].

Definition props3 : Grid.Props :=
  {| Grid.schedule := schedule3; Grid.title := Some "Timetable for A";
     Grid.editMode := false |}.

(** A schedule with classes on Saturday only. *)
Definition scheduleSaturday : Schedule :=
  [("Saturday", [("08:00:00-09:00:00", [class4])]); ("Monday", [])].

(** What [view_schedule] answered for a timetable named "Autumn". *)
Definition data2 : Page.TimetableData :=
  {| Page.timetable_name := "Autumn"; Page.fitness := 92%Z;
     Page.td_schedule := schedule2 |}.

(** Two classes that share the course id "CS301" under different
    names. *)
Definition class5 : TimetableClass :=
  {| class_id := "c5"; course := "Database Systems"; course_id := "CS301";
     instructor := "Iyer"; room := "R2"; section := "A";
     course_type := "Theory" |}.

Definition schedule4 : Schedule :=
  [("Monday", [("09:00:00-10:00:00", [class1; class5])]);
   ("Tuesday", [("09:00:00-10:00:00", [class2; class1])])].

(** A Monday whose early class is written without the leading zero of
    its hour. *)
Definition scheduleUnpadded : Schedule :=
  [("Monday", [("10:00:00-11:00:00", [class1]);
               ("1:00:00-2:00:00", [class3])])].

Definition propsUnpadded : Grid.Props :=
  {| Grid.schedule := scheduleUnpadded; Grid.title := None;
     Grid.editMode := false |}.

(** A rejection of [update_slot] that names two conflicts. *)
Definition conflictItems : list Val :=
  [VObj [("type", VStr "instructor"); ("course", VStr "CS301");
         ("day", VStr "Tuesday"); ("slot", VStr "09:00:00-10:00:00")];
   VObj [("type", VStr "room"); ("course", VStr "MA201");
         ("day", VStr "Tuesday"); ("slot", VStr "09:00:00-10:00:00")]].

Definition conflictReply : Val := VObj [("conflicts", VArr conflictItems)].

End Sample.

(** * Properties *)

Import JS Data.

(** ** The drop handler *)

Section Drop.

Variable id : string.

Lemma dropOnGrid_toast patchReply getReply gridState event st :
  Page.dropOnGrid id patchReply getReply gridState event st
  = Normal (st, [ToastError Grid.fixedMessage (Some 4000%Z)]).
Proof. reflexivity. Qed.

(** C2.  A drop on any cell of a grid, edit mode on or off, changes no
    state and calls no update function: the state cells of the grid and of
    the page come out unchanged, the only effect is the warning toast, no
    call of [onSlotUpdate] is among the effects, and what the grid shows
    after the drop is what it showed before. *)
Theorem C2_drop_changes_nothing :
  forall (patchReply : Page.PatchReply) (getReply : Page.GetReply)
         (props : Grid.Props) (gridState : Grid.State)
         (event : Grid.DragEvent) (st : Page.State),
    let after := Grid.handleDrop gridState event in
    fst (fst after) = gridState
    /\ snd after = [ToastError Grid.fixedMessage (Some 4000%Z)]
    /\ existsb isInvokeOnSlotUpdate (snd after) = false
    /\ Page.dropOnGrid id patchReply getReply gridState event st
       = Normal (st, snd after)
    /\ Grid.render props (fst (fst after)) = Grid.render props gridState.
Proof.
  intros patchReply getReply props gridState event st after.
  subst after; cbn [Grid.handleDrop fst snd].
  repeat split; try reflexivity.
Qed.

(** C1, as amended.  With edit mode enabled, a class dropped onto a slot
    where it conflicts with nothing is not moved: the grid calls no
    [onSlotUpdate], sends no request, keeps its state and the page's, and
    goes on showing the schedule it showed; the drop only prevents the
    default action of the event and raises the warning toast. *)
Theorem C1_drop_in_edit_mode_moves_nothing :
  forall (patchReply : Page.PatchReply) (getReply : Page.GetReply)
         (props : Grid.Props) (gridState : Grid.State)
         (event : Grid.DragEvent) (st : Page.State)
         (cls : TimetableClass) (newDay newSlot : string),
    props.(Grid.editMode) = true ->
    own "text/plain" event.(Grid.dataTransfer) = Some cls ->
    SlotEditor.conflictFree props.(Grid.schedule) cls newDay newSlot = true ->
    let after := Grid.handleDrop gridState event in
    ~ In (InvokeOnSlotUpdate cls.(class_id) newDay newSlot) (snd after)
    /\ snd after = [ToastError Grid.fixedMessage (Some 4000%Z)]
    /\ Page.dropOnGrid id patchReply getReply gridState event st
       = Normal (st, snd after)
    /\ Grid.render props (fst (fst after)) = Grid.render props gridState
    /\ (snd (fst after)).(Grid.defaultPrevented) = true
    /\ (snd (fst after)).(Grid.dataTransfer) = event.(Grid.dataTransfer).
Proof.
  intros patchReply getReply props gridState event st cls newDay newSlot
         _ _ _ after.
  subst after; cbn [Grid.handleDrop fst snd].
  repeat split; try reflexivity.
  intros [H | []]; discriminate H.
Qed.

End Drop.

Lemma C1_drop_in_edit_mode_moves_nothing_witness :
  Sample.props1.(Grid.editMode) = true
  /\ own "text/plain" Sample.event1.(Grid.dataTransfer) = Some Sample.class1
  /\ SlotEditor.conflictFree Sample.props1.(Grid.schedule) Sample.class1
       "Tuesday" "09:00:00-10:00:00" = true
  /\ ~ In (InvokeOnSlotUpdate "c1" "Tuesday" "09:00:00-10:00:00")
          (snd (Grid.handleDrop
                  (Grid.runEffect codeUnitCompare Sample.schedule1)
                  Sample.event1)).
Proof.
  split; [reflexivity | split; [reflexivity | split; [reflexivity | ]]].
  exact (proj1 (@C1_drop_in_edit_mode_moves_nothing "7" Page.PatchOk
                  Page.GetFails Sample.props1
                  (Grid.runEffect codeUnitCompare Sample.schedule1)
                  Sample.event1 Page.initialState Sample.class1
                  "Tuesday" "09:00:00-10:00:00"
                  eq_refl eq_refl eq_refl)).
Defined.

(** C1 as the claim words it fails: edit mode is on, the target slot is
    free of conflicts, and yet the drop calls no [onSlotUpdate], leaves the
    page as it was, and the grid does not show the schedule with the class
    moved. *)
Lemma C1_counterexample :
  Sample.props1.(Grid.editMode) = true
  /\ SlotEditor.conflictFree Sample.schedule1 Sample.class1
       "Tuesday" "09:00:00-10:00:00" = true
  /\ ~ In (InvokeOnSlotUpdate "c1" "Tuesday" "09:00:00-10:00:00")
          (snd (Grid.handleDrop
                  (Grid.runEffect codeUnitCompare Sample.schedule1)
                  Sample.event1))
  /\ Grid.render Sample.props1
       (fst (fst (Grid.handleDrop
                    (Grid.runEffect codeUnitCompare Sample.schedule1)
                    Sample.event1)))
     <> Grid.display codeUnitCompare
          {| Grid.schedule :=
               SlotEditor.moveClass Sample.schedule1 Sample.class1
                 "Tuesday" "09:00:00-10:00:00";
             Grid.title := Some "Timetable for A";
             Grid.editMode := true |}.
Proof.
  split; [reflexivity | split; [reflexivity | split]].
  - intros [H | []]; discriminate H.
  - vm_compute. intros H; discriminate H.
Qed.

(** ** handleSlotUpdate *)

Section SlotUpdate.

Variable id : string.

Lemma getField_no_leave k v : getField k v <> LeavesModel.
Proof.
  destruct v; cbn; try discriminate.
  destruct (own k fields); discriminate.
Qed.

Lemma Val_nested_ind (P : Val -> Prop) :
  P VUndefined -> P VNull -> (forall b, P (VBool b)) ->
  (forall printed, P (VNum printed)) -> (forall s, P (VStr s)) ->
  (forall items, Forall P items -> P (VArr items)) ->
  (forall fields, P (VObj fields)) ->
  forall v, P v.
Proof.
  intros Hu Hn Hb Hz Hs Ha Ho.
  fix IH 1. intros [| | b | printed | s | items | fields].
  - exact Hu.
  - exact Hn.
  - apply Hb.
  - apply Hz.
  - apply Hs.
  - apply Ha. induction items as [| x items IHitems]; constructor.
    + apply IH.
    + exact IHitems.
  - apply Ho.
Qed.

Lemma mapM_no_leave_on {A B} (f : A -> Outcome B) (l : list A) :
  Forall (fun a => f a <> LeavesModel) l -> mapM f l <> LeavesModel.
Proof.
  induction 1 as [| a l Ha _ IH]; cbn; [discriminate |].
  destruct (f a); cbn; [| discriminate | congruence].
  destruct (mapM f l); cbn; [discriminate | discriminate | congruence].
Qed.

Lemma toString_no_leave v : toString v <> LeavesModel.
Proof.
  induction v as [| | [|] | printed | s | items IH | fields]
    using Val_nested_ind; cbn [toString]; try discriminate.
  - match goal with
    | |- bind (mapM ?f items) _ <> _ =>
        assert (Hparts : mapM f items <> LeavesModel)
    end.
    { apply mapM_no_leave_on. revert IH. apply Forall_impl.
      intros x Hx. destruct x; solve [discriminate | exact Hx]. }
    destruct (mapM _ items); cbn; [discriminate | discriminate | congruence].
  - destruct (own "toString" fields); discriminate.
Qed.

Lemma describeConflict_no_leave c : Page.describeConflict c <> LeavesModel.
Proof.
  unfold Page.describeConflict.
  destruct (getField "type" c) as [t | |] eqn:Ht; cbn;
    [| discriminate | now apply getField_no_leave in Ht].
  destruct (toString t) as [tt | |] eqn:Htt; cbn;
    [| discriminate | now apply toString_no_leave in Htt].
  destruct (getField "course" c) as [k | |] eqn:Hc; cbn;
    [| discriminate | now apply getField_no_leave in Hc].
  destruct (toString k) as [kt | |] eqn:Hkt; cbn;
    [discriminate | discriminate | now apply toString_no_leave in Hkt].
Qed.

Lemma mapM_no_leave {A B} (f : A -> Outcome B) (l : list A) :
  (forall a, f a <> LeavesModel) -> mapM f l <> LeavesModel.
Proof.
  intros Hf. induction l as [| a l IH]; cbn; [discriminate |].
  destruct (f a) eqn:Ha; cbn; try discriminate.
  - destruct (mapM f l); cbn; try discriminate. now apply IH.
  - now apply Hf in Ha.
Qed.

Lemma extractErrorMessage_no_leave error :
  Page.extractErrorMessage error <> LeavesModel.
Proof.
  unfold Page.extractErrorMessage.
  destruct (Page.response_data error) as [data |]; [| discriminate].
  destruct (truthy data); [| discriminate].
  destruct (getField "error" data) as [e | |] eqn:He; cbn;
    [| discriminate | now apply getField_no_leave in He].
  destruct (truthy e); [discriminate |].
  destruct (getField "detail" data) as [d | |] eqn:Hd; cbn;
    [| discriminate | now apply getField_no_leave in Hd].
  destruct (truthy d); [discriminate |].
  destruct (getField "conflicts" data) as [c | |] eqn:Hc; cbn;
    [| discriminate | now apply getField_no_leave in Hc].
  destruct (truthy c); [| discriminate].
  destruct c; try discriminate.
  destruct (mapM Page.describeConflict items) eqn:Hm; cbn; try discriminate.
  apply mapM_no_leave in Hm; [contradiction | apply describeConflict_no_leave].
Qed.

Lemma handleSlotUpdate_failure error getReply classId newDay newTime st :
  exists reason,
    Page.handleSlotUpdate id (Page.PatchFails error) getReply
                          classId newDay newTime st
    = Normal {| Page.run_state := st;
                Page.run_effects :=
                  [ConsoleLog "Updating class slot:";
                   ApiPatch "/classes/update_slot/" classId newDay newTime;
                   ConsoleError "Failed to update class slot:"];
                Page.run_completion := Page.Rejected reason |}.
Proof.
  unfold Page.handleSlotUpdate.
  destruct (Page.extractErrorMessage error) as [m | |] eqn:Hm; cbn [bind].
  - destruct (toString m) as [message | |] eqn:Ht.
    + now exists (Page.ErrorObject message).
    + now exists Page.TypeError.
    + now apply toString_no_leave in Ht.
  - now exists Page.TypeError.
  - now apply extractErrorMessage_no_leave in Hm.
Qed.

(** C3.  A move is never applied in part.  Whatever makes the
    [update_slot] request fail, [handleSlotUpdate] rejects and leaves the
    state of the page (the timetable and the sections with their
    schedules) exactly as it was, without asking for the timetable again;
    and a run of [handleSlotUpdate] that does ask for it is one whose
    request succeeded. *)
Theorem C3_failed_update_keeps_schedule :
  forall (getReply : Page.GetReply) (classId newDay newTime : string)
         (st : Page.State),
    (forall error : Page.AxiosError,
        exists reason effects,
          Page.handleSlotUpdate id (Page.PatchFails error) getReply
                                classId newDay newTime st
          = Normal {| Page.run_state := st;
                      Page.run_effects := effects;
                      Page.run_completion := Page.Rejected reason |}
          /\ existsb isApiGet effects = false)
    /\ (forall (patchReply : Page.PatchReply) (r : Page.Run),
           Page.handleSlotUpdate id patchReply getReply
                                 classId newDay newTime st = Normal r ->
           existsb isApiGet r.(Page.run_effects) = true ->
           patchReply = Page.PatchOk).
Proof.
  intros getReply classId newDay newTime st; split.
  - intros error.
    destruct (handleSlotUpdate_failure error getReply classId newDay newTime st)
      as [reason Hrun].
    eexists reason, _. split; [exact Hrun | reflexivity].
  - intros [| error] r Hrun Hget; [reflexivity |].
    destruct (handleSlotUpdate_failure error getReply classId newDay newTime st)
      as [reason Hfail].
    rewrite Hfail in Hrun. injection Hrun as <-.
    cbn in Hget. discriminate Hget.
Qed.

(** The texts of the conflict branch, for items that name their type and
    their course. *)
Lemma mapM_describeConflict items (conflicts : list (string * string)) :
  Forall2 (fun item (tc : string * string) =>
             exists f, item = VObj f
                       /\ own "type" f = Some (VStr (fst tc))
                       /\ own "course" f = Some (VStr (snd tc)))
          items conflicts ->
  mapM Page.describeConflict items
  = Normal (map (fun tc : string * string =>
                   (fst tc ++ " conflict for " ++ snd tc)%string) conflicts).
Proof.
  induction 1 as [| item tc items conflicts (f & -> & Ht & Hc) _ IH];
    [reflexivity |].
  cbn [mapM map]. rewrite IH.
  unfold Page.describeConflict, getField. rewrite Ht, Hc. reflexivity.
Qed.

End SlotUpdate.

(** C5.  When the failed [update_slot] response carries a [conflicts]
    list and neither an [error] nor a [detail] field, [handleSlotUpdate]
    rejects with an error whose message is the text "Conflict detected: "
    followed by one "<type> conflict for <course>" per conflict, in the
    order of the list, joined by a comma and a space. *)
Theorem C5_conflict_message :
  forall (id : string) (fields : list (string * Val)) (items : list Val)
         (conflicts : list (string * string))
         (getReply : Page.GetReply) (classId newDay newTime : string)
         (st : Page.State),
    own "error" fields = None ->
    own "detail" fields = None ->
    own "conflicts" fields = Some (VArr items) ->
    Forall2 (fun item (tc : string * string) =>
               exists f, item = VObj f
                         /\ own "type" f = Some (VStr (fst tc))
                         /\ own "course" f = Some (VStr (snd tc)))
            items conflicts ->
    exists effects,
      Page.handleSlotUpdate id
        (Page.PatchFails {| Page.response_data := Some (VObj fields) |})
        getReply classId newDay newTime st
      = Normal
          {| Page.run_state := st;
             Page.run_effects := effects;
             Page.run_completion :=
               Page.Rejected
                 (Page.ErrorObject
                    ("Conflict detected: "
                     ++ join ", "
                          (map (fun tc : string * string =>
                                  fst tc ++ " conflict for " ++ snd tc)
                               conflicts))%string) |}.
Proof.
  intros id fields items conflicts getReply classId newDay newTime st
         Herr Hdet Hconf Hitems.
  eexists.
  unfold Page.handleSlotUpdate, Page.extractErrorMessage.
  cbn [Page.response_data truthy getField bind].
  rewrite Herr, Hdet, Hconf. cbn [truthy bind].
  rewrite (mapM_describeConflict Hitems).
  reflexivity.
Qed.

Lemma C5_conflict_message_witness :
  exists effects,
    Page.handleSlotUpdate "7"
      (Page.PatchFails {| Page.response_data := Some Sample.conflictReply |})
      Page.GetFails "c1" "Tuesday" "09:00:00-10:00:00" Page.initialState
    = Normal
        {| Page.run_state := Page.initialState;
           Page.run_effects := effects;
           Page.run_completion :=
             Page.Rejected
               (Page.ErrorObject
                  "Conflict detected: instructor conflict for CS301, room conflict for MA201") |}.
Proof.
  refine (@C5_conflict_message "7"
            [("conflicts", VArr Sample.conflictItems)] Sample.conflictItems
            [("instructor", "CS301"); ("room", "MA201")]
            Page.GetFails "c1" "Tuesday" "09:00:00-10:00:00" Page.initialState
            eq_refl eq_refl eq_refl _).
  repeat constructor; eexists; repeat split; reflexivity.
Defined.

(** ** Records, maps and sets as lists *)

Section ObjFacts.

Context {V : Type}.
Implicit Types (k : string) (v : V) (o : Obj V).

Lemma own_setProp_same k v o : own k (setProp k v o) = Some v.
Proof.
  induction o as [| [k' v'] o IH]; cbn.
  - now rewrite String.eqb_refl.
  - destruct (String.eqb k k') eqn:E; cbn; rewrite E; auto.
Qed.

Lemma own_setProp_other k k' v o :
  k' <> k -> own k' (setProp k v o) = own k' o.
Proof.
  intros Hne. induction o as [| [k0 v0] o IH]; cbn.
  - apply String.eqb_neq in Hne. now rewrite Hne.
  - destruct (String.eqb k k0) eqn:E; cbn.
    + apply String.eqb_eq in E; subst k0.
      apply String.eqb_neq in Hne. now rewrite Hne.
    + now rewrite IH.
Qed.

Lemma own_In k v o : own k o = Some v -> In (k, v) o.
Proof.
  induction o as [| [k' v'] o IH]; cbn; [discriminate |].
  destruct (String.eqb k k') eqn:E.
  - apply String.eqb_eq in E; subst k'. intros [= ->]. now left.
  - intros H; right; auto.
Qed.

Lemma own_None k o : own k o = None <-> ~ In k (keys o).
Proof.
  induction o as [| [k' v'] o IH]; cbn; [tauto |].
  destruct (String.eqb k k') eqn:E.
  - apply String.eqb_eq in E; subst k'.
    split; [discriminate | intros H; exfalso; apply H; now left].
  - apply String.eqb_neq in E. rewrite IH. split.
    + intros H [H' | H']; [congruence | contradiction].
    + intros H H'; apply H; now right.
Qed.

Lemma In_own k v o : NoDup (keys o) -> In (k, v) o -> own k o = Some v.
Proof.
  induction o as [| [k' v'] o IH]; cbn; [contradiction |].
  intros Hnd [H | H]; inversion Hnd as [| ? ? Hnotin Hnd']; subst.
  - injection H as -> ->. now rewrite String.eqb_refl.
  - destruct (String.eqb k k') eqn:E; [| auto].
    apply String.eqb_eq in E; subst k'.
    exfalso; apply Hnotin. unfold keys. now apply (in_map fst) in H.
Qed.

Lemma keys_setProp k v o :
  keys (setProp k v o) = if mapHas k o then keys o else keys o ++ [k].
Proof.
  unfold mapHas, keys. induction o as [| [k' v'] o IH]; cbn; [reflexivity |].
  destruct (String.eqb k k') eqn:E; cbn; [reflexivity |].
  rewrite IH. now destruct (own k o).
Qed.

Lemma mapHas_In k o : mapHas k o = true <-> In k (keys o).
Proof.
  unfold mapHas. destruct (own k o) eqn:E.
  - split; [intros _ | reflexivity].
    apply own_In in E. unfold keys. now apply (in_map fst) in E.
  - apply own_None in E. split; [discriminate | contradiction].
Qed.

Lemma NoDup_keys_setProp k v o :
  NoDup (keys o) -> NoDup (keys (setProp k v o)).
Proof.
  intros Hnd. rewrite keys_setProp.
  destruct (mapHas k o) eqn:E; [exact Hnd |].
  apply NoDup_app; [exact Hnd | repeat constructor; intros [] | ].
  intros x Hx [<- | []].
  apply mapHas_In in Hx. congruence.
Qed.

Lemma In_keys_setProp k k' v o :
  In k' (keys (setProp k v o)) <-> k' = k \/ In k' (keys o).
Proof.
  rewrite keys_setProp. destruct (mapHas k o) eqn:E.
  - apply mapHas_In in E. split; [now right | intros [-> | H]; auto].
  - rewrite in_app_iff; cbn. intuition congruence.
Qed.

Lemma In_values_own o (x : V) :
  NoDup (keys o) -> In x (values o) -> exists k, own k o = Some x.
Proof.
  intros Hnd Hx. unfold values in Hx. apply in_map_iff in Hx.
  destruct Hx as ([k v] & <- & Hin). exists k. now apply In_own.
Qed.

End ObjFacts.

Lemma setHas_In x s : setHas x s = true <-> In x s.
Proof.
  unfold setHas. rewrite existsb_exists. split.
  - intros (y & Hy & E). apply String.eqb_eq in E. now subst.
  - intros H. exists x. split; [exact H | apply String.eqb_refl].
Qed.

Lemma In_setAdd x y s : In y (setAdd x s) <-> y = x \/ In y s.
Proof.
  unfold setAdd. destruct (setHas x s) eqn:E.
  - apply setHas_In in E. split; [now right | intros [-> | H]; auto].
  - rewrite in_app_iff; cbn. intuition congruence.
Qed.

Lemma NoDup_setAdd x s : NoDup s -> NoDup (setAdd x s).
Proof.
  intros Hnd. unfold setAdd. destruct (setHas x s) eqn:E; [exact Hnd |].
  apply NoDup_app; [exact Hnd | repeat constructor; intros [] | ].
  intros y Hy [<- | []]. apply setHas_In in Hy. congruence.
Qed.

(** ** The stable sort *)

Section SortFacts.

Context {A : Type} (le : A -> A -> bool).

Lemma insert_perm a l : Permutation (Stable.insert le a l) (a :: l).
Proof.
  induction l as [| b l IH]; cbn; [reflexivity |].
  destruct (le a b); [reflexivity |].
  rewrite IH. apply perm_swap.
Qed.

Lemma sort_perm l : Permutation (Stable.sort le l) l.
Proof.
  induction l as [| a l IH]; cbn; [reflexivity |].
  rewrite insert_perm. now constructor.
Qed.

Lemma In_sort a l : In a (Stable.sort le l) <-> In a l.
Proof.
  split; apply Permutation_in; [| symmetry]; apply sort_perm.
Qed.

Lemma insert_sorted a l :
  (forall b, In b l -> le a b = false -> le b a = true) ->
  Sorted (fun x y => le x y = true) l ->
  Sorted (fun x y => le x y = true) (Stable.insert le a l).
Proof.
  intros Htot Hs. induction Hs as [| b l Hs IH Hhd]; cbn.
  - repeat constructor.
  - destruct (le a b) eqn:E.
    + repeat constructor; assumption.
    + constructor.
      * apply IH. intros c Hc. apply Htot. now right.
      * destruct l as [| c l]; cbn.
        -- constructor. apply Htot; [now left | exact E].
        -- destruct (le a c); constructor.
           ++ apply Htot; [now left | exact E].
           ++ now inversion Hhd.
Qed.

Lemma sort_sorted l :
  (forall a b, In a l -> In b l -> le a b = false -> le b a = true) ->
  Sorted (fun x y => le x y = true) (Stable.sort le l).
Proof.
  induction l as [| a l IH]; intros Htot; [constructor |].
  change (Stable.sort le (a :: l)) with (Stable.insert le a (Stable.sort le l)).
  apply insert_sorted.
  - intros b Hb. apply (proj1 (In_sort b l)) in Hb.
    apply Htot; [now left | now right].
  - apply IH. intros x y Hx Hy. apply Htot; now right.
Qed.

End SortFacts.

Lemma Sorted_adjacent {A} (R : A -> A -> Prop) (l : list A) :
  Sorted R l ->
  forall i a b, nth_error l i = Some a -> nth_error l (S i) = Some b -> R a b.
Proof.
  induction 1 as [| x l Hs IH Hhd]; intros i a b Ha Hb.
  - destruct i; discriminate.
  - destruct i as [| i]; cbn in Ha, Hb.
    + injection Ha as <-. destruct l as [| y l]; [discriminate |].
      injection Hb as <-. now inversion Hhd.
    + eapply IH; eassumption.
Qed.

(** ** The effect of the grid *)

#[local] Arguments Grid.isDay : simpl never.
#[local] Arguments Grid.isLunchSlot : simpl never.
#[local] Arguments inherited : simpl never.

Lemma isDay_In day : Grid.isDay day = true <-> In day Grid.days.
Proof.
  unfold Grid.isDay. rewrite existsb_exists. split.
  - intros (d & Hd & E). apply String.eqb_eq in E. now subst.
  - intros H. exists day. split; [exact H | apply String.eqb_refl].
Qed.

(** The entries of a record that the grid looks at. *)
Lemma own_filter_isDay (schedule : Schedule) day :
  Grid.isDay day = true ->
  own day (filter (fun e => Grid.isDay (fst e)) schedule) = own day schedule.
Proof.
  intros Hday. induction schedule as [| [d ds] schedule IH]; [reflexivity |].
  cbn [filter fst]. destruct (Grid.isDay d) eqn:Ed; cbn [own].
  - now rewrite IH.
  - destruct (String.eqb day d) eqn:E; [| exact IH].
    apply String.eqb_eq in E; subst d. congruence.
Qed.

Lemma mapM_ext_in {A B} (f g : A -> Outcome B) (l : list A) :
  (forall a, In a l -> f a = g a) -> mapM f l = mapM g l.
Proof.
  induction l as [| a l IH]; intros H; cbn; [reflexivity |].
  rewrite (H a (or_introl eq_refl)), IH; [reflexivity |].
  intros b Hb. apply H. now right.
Qed.

Lemma addSlots_In slot (ks acc : list string) :
  In slot (fold_left (fun acc timeSlot => setAdd timeSlot acc) ks acc)
  <-> In slot acc \/ In slot ks.
Proof.
  revert acc. induction ks as [| k ks IH]; intros acc; cbn; [tauto |].
  rewrite IH, In_setAdd. intuition congruence.
Qed.

Lemma collectFrom_In (schedule : Schedule) acc slot :
  In slot (fold_left Grid.collectDay schedule acc)
  <-> In slot acc
      \/ exists day daySchedule,
           In (day, daySchedule) schedule /\ Grid.isDay day = true
           /\ In slot (keys daySchedule).
Proof.
  revert acc. induction schedule as [| [d ds] schedule IH]; intros acc.
  - cbn. split; [now left | intros [H | (? & ? & [] & _)]; exact H].
  - cbn [fold_left]. rewrite IH. unfold Grid.collectDay.
    destruct (Grid.isDay d) eqn:Ed; cbn [negb].
    + rewrite addSlots_In. split.
      * intros [[H | H] | (day & ds' & Hin & Hd & Hs)]; auto.
        -- right. exists d, ds. split; [now left | auto].
        -- right. exists day, ds'. split; [now right | auto].
      * intros [H | (day & ds' & [Heq | Hin] & Hd & Hs)]; auto.
        -- injection Heq as -> ->. auto.
        -- right. exists day, ds'. auto.
    + split.
      * intros [H | (day & ds' & Hin & Hd & Hs)]; auto.
        right. exists day, ds'. split; [now right | auto].
      * intros [H | (day & ds' & [Heq | Hin] & Hd & Hs)]; auto.
        -- injection Heq as -> ->. congruence.
        -- right. exists day, ds'. auto.
Qed.

Lemma collectTimeSlots_In (schedule : Schedule) slot :
  In slot (Grid.collectTimeSlots schedule)
  <-> exists day daySchedule,
        In (day, daySchedule) schedule /\ Grid.isDay day = true
        /\ In slot (keys daySchedule).
Proof.
  unfold Grid.collectTimeSlots. rewrite collectFrom_In.
  split; [intros [[] | H]; exact H | now right].
Qed.

(** A day the grid ignores adds nothing to a loop over the days. *)
Lemma fold_filter_isDay {S} (step : S -> string * DaySchedule -> S)
  (schedule : Schedule) (acc : S) :
  (forall s e, Grid.isDay (fst e) = false -> step s e = s) ->
  fold_left step (filter (fun e => Grid.isDay (fst e)) schedule) acc
  = fold_left step schedule acc.
Proof.
  intros Hskip. revert acc.
  induction schedule as [| e schedule IH]; intros acc; [reflexivity |].
  cbn [filter fold_left]. destruct (Grid.isDay (fst e)) eqn:Ed.
  - cbn [fold_left]. apply IH.
  - rewrite IH. now rewrite Hskip.
Qed.

Lemma collectTimeSlots_filter (schedule : Schedule) :
  Grid.collectTimeSlots (filter (fun e => Grid.isDay (fst e)) schedule)
  = Grid.collectTimeSlots schedule.
Proof.
  apply fold_filter_isDay. intros s [d ds] Hd. cbn in Hd.
  unfold Grid.collectDay. now rewrite Hd.
Qed.

Lemma buildLegendMap_filter (schedule : Schedule) :
  Grid.buildLegendMap (filter (fun e => Grid.isDay (fst e)) schedule)
  = Grid.buildLegendMap schedule.
Proof.
  apply fold_filter_isDay. intros s [d ds] Hd. cbn in Hd.
  unfold Grid.legendDay. now rewrite Hd.
Qed.

Lemma In_injectLunch slot slots :
  In slot (Grid.injectLunch slots)
  <-> In slot slots
      \/ (slot = "13:00:00-13:45:00"
          /\ existsb Grid.isLunchSlot slots = false).
Proof.
  unfold Grid.injectLunch. destruct (existsb Grid.isLunchSlot slots); cbn.
  - split; [now left | intros [H | [_ H]]; [exact H | discriminate]].
  - rewrite in_app_iff; cbn. split.
    + intros [H | [H | []]]; [now left | right; now split].
    + intros [H | [-> _]]; [now left | right; now left].
Qed.

Lemma injectLunch_hasLunch slots :
  existsb Grid.isLunchSlot (Grid.injectLunch slots) = true.
Proof.
  unfold Grid.injectLunch. destruct (existsb Grid.isLunchSlot slots) eqn:E; cbn.
  - exact E.
  - rewrite existsb_app, E. reflexivity.
Qed.

Lemma computeTimeSlots_In localeCompare (schedule : Schedule) slot :
  In slot (Grid.computeTimeSlots localeCompare schedule)
  <-> In slot (Grid.injectLunch (Grid.collectTimeSlots schedule)).
Proof. apply In_sort. Qed.

Lemma runEffect_filter localeCompare (schedule : Schedule) :
  Grid.runEffect localeCompare (filter (fun e => Grid.isDay (fst e)) schedule)
  = Grid.runEffect localeCompare schedule.
Proof.
  unfold Grid.runEffect, Grid.computeTimeSlots, Grid.computeLegend.
  now rewrite collectTimeSlots_filter, buildLegendMap_filter.
Qed.

Lemma render_filter (schedule : Schedule) title_ editMode_ state :
  Grid.render {| Grid.schedule := filter (fun e => Grid.isDay (fst e)) schedule;
                 Grid.title := title_; Grid.editMode := editMode_ |} state
  = Grid.render {| Grid.schedule := schedule;
                   Grid.title := title_; Grid.editMode := editMode_ |} state.
Proof.
  unfold Grid.render; cbn [Grid.schedule Grid.title].
  replace (mapM (Grid.renderRow (filter _ schedule)) (Grid.timeSlots state))
    with (mapM (Grid.renderRow schedule) (Grid.timeSlots state));
    [reflexivity |].
  apply mapM_ext_in. intros slot _. unfold Grid.renderRow.
  replace (mapM (Grid.renderCell (filter _ schedule) _ slot) Grid.days)
    with (mapM (Grid.renderCell schedule (Grid.isLunchSlot slot) slot) Grid.days);
    [reflexivity |].
  apply mapM_ext_in. intros day Hday. apply isDay_In in Hday.
  unfold Grid.renderCell, Grid.dayClassesAt, readProp.
  now rewrite own_filter_isDay.
Qed.

(** ** The rows of the table *)

Lemma startOf_cons c r :
  Grid.startOf (String c r)
  = if Ascii.eqb c "-" then "" else String c (Grid.startOf r).
Proof.
  unfold Grid.startOf. cbn [splitDash].
  destruct (Ascii.eqb c "-"); [reflexivity |].
  now destruct (splitDash r).
Qed.

(** A prefix without a dash is a prefix of the slot exactly when it is a
    prefix of its start time. *)
Lemma prefix_startOf p s :
  forallb (fun a => negb (Ascii.eqb a "-")) (list_ascii_of_string p) = true ->
  String.prefix p (Grid.startOf s) = String.prefix p s.
Proof.
  revert s. induction p as [| a p IH]; intros s Hp.
  - destruct (Grid.startOf s); destruct s; reflexivity.
  - cbn in Hp. apply andb_true_iff in Hp. destruct Hp as [Ha Hp].
    destruct s as [| c s]; [reflexivity |].
    rewrite startOf_cons. destruct (Ascii.eqb c "-") eqn:Ec.
    + apply Ascii.eqb_eq in Ec; subst c. cbn [String.prefix].
      destruct (ascii_dec a "-") as [-> | _]; [discriminate Ha | reflexivity].
    + cbn [String.prefix]. destruct (ascii_dec a c); [now apply IH | reflexivity].
Qed.

Lemma isLunchSlot_startOf slot :
  startsWith "13:00" (Grid.startOf slot) = Grid.isLunchSlot slot.
Proof. apply prefix_startOf. reflexivity. Qed.

Lemma inherited_no_dash k :
  inherited k = true -> List.length (splitDash k) = 1.
Proof.
  unfold inherited. rewrite existsb_exists. intros (y & Hy & E).
  apply String.eqb_eq in E; subst y.
  unfold objectPrototypeKeys in Hy.
  repeat (destruct Hy as [<- | Hy]; [reflexivity |]). destruct Hy.
Qed.

Lemma mapM_Normal {A B} (f : A -> Outcome B) (l : list A) (bs : list B) :
  mapM f l = Normal bs <-> Forall2 (fun a b => f a = Normal b) l bs.
Proof.
  revert bs. induction l as [| a l IH]; intros bs; cbn.
  - split; [intros [= <-]; constructor | now inversion 1].
  - destruct (f a) as [b | |] eqn:Ha; cbn.
    + destruct (mapM f l) as [bs' | |] eqn:Hl; cbn.
      * split.
        -- intros [= <-]. constructor; [exact Ha | now apply IH].
        -- inversion 1 as [| ? b0 ? bs0 Hb Hrest]; subst.
           rewrite Ha in Hb. injection Hb as <-.
           apply IH in Hrest. now injection Hrest as <-.
      * split; [discriminate |].
        inversion 1 as [| ? b0 ? bs0 Hb Hrest]; subst.
        apply IH in Hrest. discriminate.
      * split; [discriminate |].
        inversion 1 as [| ? b0 ? bs0 Hb Hrest]; subst.
        apply IH in Hrest. discriminate.
    + split; [discriminate | inversion 1; congruence].
    + split; [discriminate | inversion 1; congruence].
Qed.

Lemma mapM_pure {A B} (f : A -> Outcome B) (g : A -> B) (l : list A) :
  (forall a, In a l -> f a = Normal (g a)) -> mapM f l = Normal (map g l).
Proof.
  induction l as [| a l IH]; intros H; cbn; [reflexivity |].
  rewrite (H a (or_introl eq_refl)), IH; [reflexivity |].
  intros x Hx. apply H. now right.
Qed.

Lemma mapM_total {A B} (f : A -> Outcome B) (l : list A) :
  (forall a, In a l -> exists b, f a = Normal b) ->
  exists bs, mapM f l = Normal bs.
Proof.
  induction l as [| a l IH]; intros H; cbn; [eauto |].
  destruct (H a (or_introl eq_refl)) as [b ->].
  destruct IH as [bs ->]; [intros x Hx; apply H; now right |].
  cbn. eauto.
Qed.

Lemma dayClassesAt_own (schedule : Schedule) day slot :
  inherited day = false -> inherited slot = false ->
  Grid.dayClassesAt schedule day slot = Normal (cellAt schedule day slot).
Proof.
  intros Hd Hs. unfold Grid.dayClassesAt, cellAt, readProp.
  destruct (own day schedule) as [ds |]; [| now rewrite Hd].
  destruct (own slot ds); [reflexivity | now rewrite Hs].
Qed.

Lemma days_not_inherited day : In day Grid.days -> inherited day = false.
Proof.
  unfold Grid.days. intros H.
  repeat (destruct H as [<- | H]; [reflexivity |]). destruct H.
Qed.

Lemma renderRow_total (schedule : Schedule) slot :
  2 <= List.length (splitDash slot) ->
  exists row, Grid.renderRow schedule slot = Normal row.
Proof.
  intros Hdash. unfold Grid.renderRow, Grid.formatTimeSlotLabel.
  destruct (splitDash slot) as [| start [| end_ rest]] eqn:Hsplit;
    cbn in Hdash; try lia.
  cbn [bind].
  destruct (mapM_total (Grid.renderCell schedule (Grid.isLunchSlot slot) slot)
                       Grid.days) as [cells ->]; [| cbn; eauto].
  intros day Hday. unfold Grid.renderCell.
  destruct (Grid.isLunchSlot slot); [eauto |].
  rewrite dayClassesAt_own; cbn; eauto using days_not_inherited.
  destruct (inherited slot) eqn:E; [| reflexivity].
  apply inherited_no_dash in E. rewrite Hsplit in E. discriminate.
Qed.

Lemma renderRow_inv (schedule : Schedule) slot row :
  Grid.renderRow schedule slot = Normal row ->
  row.(Grid.row_slot) = slot
  /\ row.(Grid.row_lunch) = Grid.isLunchSlot slot
  /\ (Grid.isLunchSlot slot = true ->
      row.(Grid.row_cells) = map (fun _ => Grid.LunchBreak) Grid.days)
  /\ (Grid.isLunchSlot slot = false ->
      row.(Grid.row_cells)
      = map (fun day => Grid.Classes (cellAt schedule day slot)) Grid.days).
Proof.
  unfold Grid.renderRow.
  destruct (Grid.formatTimeSlotLabel slot) as [label | |] eqn:Hl;
    cbn [bind]; try discriminate.
  destruct (mapM _ Grid.days) as [cells | |] eqn:Hc; cbn [bind]; try discriminate.
  intros [= <-]; cbn. repeat split.
  - intros Hlunch. rewrite Hlunch in Hc. cbn in Hc. now injection Hc as <-.
  - intros Hlunch. rewrite Hlunch in Hc.
    unfold Grid.formatTimeSlotLabel in Hl.
    assert (Hs : inherited slot = false).
    { destruct (inherited slot) eqn:E; [| reflexivity].
      apply inherited_no_dash in E.
      destruct (splitDash slot) as [| ? [| ? ?]]; discriminate. }
    rewrite (@mapM_pure _ _ _
               (fun day => Grid.Classes (cellAt schedule day slot))) in Hc.
    + now injection Hc as <-.
    + intros day Hday. unfold Grid.renderCell.
      rewrite dayClassesAt_own by eauto using days_not_inherited.
      reflexivity.
Qed.

Lemma rows_slots (schedule : Schedule) slots rows :
  mapM (Grid.renderRow schedule) slots = Normal rows ->
  map Grid.row_slot rows = slots.
Proof.
  intros H. apply mapM_Normal in H.
  induction H as [| slot row slots rows Hrow _ IH]; cbn; [reflexivity |].
  apply renderRow_inv in Hrow. destruct Hrow as [-> _]. now rewrite IH.
Qed.

Lemma render_rows props state view :
  Grid.render props state = Normal view ->
  mapM (Grid.renderRow props.(Grid.schedule)) state.(Grid.timeSlots)
  = Normal view.(Grid.view_rows)
  /\ view.(Grid.view_legend) = state.(Grid.courseLegend).
Proof.
  unfold Grid.render.
  destruct (mapM _ _) as [rows | |]; cbn [bind]; try discriminate.
  intros [= <-]. split; reflexivity.
Qed.

Lemma codeUnitCompare_leb a b :
  (codeUnitCompare a b <= 0)%Z <-> String.leb a b = true.
Proof.
  unfold codeUnitCompare, String.leb.
  destruct (String.compare a b); split; intros H;
    try reflexivity; try discriminate H; try lia.
Qed.

Lemma splitDash_plain a :
  ~ In "-"%char (list_ascii_of_string a) -> splitDash a = [a].
Proof.
  induction a as [| c a IH]; intros H; [reflexivity |].
  cbn [splitDash]. cbn in H.
  destruct (Ascii.eqb_spec c "-") as [-> | _]; [exfalso; apply H; now left |].
  rewrite IH; [reflexivity | intros H'; apply H; now right].
Qed.

Lemma splitDash_piece a r :
  ~ In "-"%char (list_ascii_of_string a) ->
  splitDash (a ++ String "-" r) = a :: splitDash r.
Proof.
  induction a as [| c a IH]; intros H; [reflexivity |].
  cbn [String.append splitDash]. cbn in H.
  destruct (Ascii.eqb_spec c "-") as [-> | _]; [exfalso; apply H; now left |].
  rewrite IH; [reflexivity | intros H'; apply H; now right].
Qed.

Lemma startOf_piece start rest :
  ~ In "-"%char (list_ascii_of_string start) ->
  Grid.startOf (start ++ "-" ++ rest) = start.
Proof.
  intros H. unfold Grid.startOf.
  change (start ++ "-" ++ rest)%string with (start ++ String "-" rest)%string.
  now rewrite splitDash_piece.
Qed.

(** *** Times and the two collations *)

Lemma isDigit_not_colon c : isDigit c = true -> Ascii.eqb c ":" = false.
Proof.
  intros H. destruct (Ascii.eqb_spec c ":") as [-> | _]; [| reflexivity].
  discriminate H.
Qed.

Lemma isDigit_not_dash c : isDigit c = true -> c <> "-"%char.
Proof. intros H ->. discriminate H. Qed.

Lemma isTime_inv s :
  isTime s = true ->
  exists h1 h2 m1 m2 s1 s2,
    s = String h1 (String h2 (String ":" (String m1 (String m2 (String ":"
          (String s1 (String s2 EmptyString)))))))
    /\ isDigit h1 = true /\ isDigit h2 = true /\ isDigit m1 = true
    /\ isDigit m2 = true /\ isDigit s1 = true /\ isDigit s2 = true.
Proof.
  destruct s as [| h1 [| h2 [| c1 [| m1 [| m2 [| c2 [| s1 [| s2 [| ? ?]]]]]]]]];
    try discriminate.
  cbn [isTime]. rewrite !andb_true_iff.
  intros [[[[[[[H1 H2] C1] M1] M2] C2] S1] S2].
  apply Ascii.eqb_eq in C1, C2. subst c1 c2.
  exists h1, h2, m1, m2, s1, s2. repeat split; assumption.
Qed.

Lemma isTime_no_dash s :
  isTime s = true -> ~ In "-"%char (list_ascii_of_string s).
Proof.
  intros H. apply isTime_inv in H.
  destruct H as (h1 & h2 & m1 & m2 & s1 & s2 & -> & H1 & H2 & M1 & M2 & S1 & S2).
  cbn [list_ascii_of_string In].
  intros [E | [E | [E | [E | [E | [E | [E | [E | []]]]]]]]];
    try discriminate E; revert E; now apply isDigit_not_dash.
Qed.

Lemma collationWeight_compare c d :
  Ascii.eqb c ":" = Ascii.eqb d ":" ->
  N.compare (collationWeight c) (collationWeight d) = Ascii.compare c d.
Proof.
  unfold collationWeight, Ascii.compare. intros H. rewrite <- H.
  destruct (Ascii.eqb_spec c ":") as [-> | _].
  - symmetry in H. apply Ascii.eqb_eq in H. subst d. reflexivity.
  - destruct (N.compare_spec (N_of_ascii c) (N_of_ascii d)) as [E | E | E].
    + rewrite E. apply N.compare_refl.
    + apply N.compare_lt_iff. lia.
    + apply N.compare_gt_iff. lia.
Qed.

(** On times the collation that puts punctuation first orders as the
    code units do. *)
Lemma punctuationFirstCompare_time a b :
  isTime a = true -> isTime b = true ->
  punctuationFirstCompare a b = codeUnitCompare a b.
Proof.
  intros Ha Hb. apply isTime_inv in Ha, Hb.
  destruct Ha as (a1 & a2 & a3 & a4 & a5 & a6 & -> & A1 & A2 & A3 & A4 & A5 & A6).
  destruct Hb as (b1 & b2 & b3 & b4 & b5 & b6 & -> & B1 & B2 & B3 & B4 & B5 & B6).
  apply isDigit_not_colon in A1, A2, A3, A4, A5, A6, B1, B2, B3, B4, B5, B6.
  unfold codeUnitCompare. cbn [punctuationFirstCompare String.compare].
  rewrite !collationWeight_compare by congruence.
  repeat match goal with
         | |- context [Ascii.compare ?x ?y] => destruct (Ascii.compare x y)
         end; reflexivity.
Qed.

Lemma punctuationFirstCompare_consistent a b :
  (0 < punctuationFirstCompare a b)%Z -> (punctuationFirstCompare b a <= 0)%Z.
Proof.
  revert b. induction a as [| c a IH]; intros [| d b]; cbn; try lia.
  rewrite (N.compare_antisym (collationWeight c) (collationWeight d)).
  destruct (N.compare (collationWeight c) (collationWeight d)); cbn;
    [apply IH | lia | lia].
Qed.

Lemma time_rows localeCompare (schedule : Schedule) :
  (forall day daySchedule slot,
      In (day, daySchedule) schedule -> In day Grid.days ->
      In slot (keys daySchedule) ->
      exists start rest,
        slot = (start ++ "-" ++ rest)%string /\ isTime start = true) ->
  forall row,
    In row (Grid.computeTimeSlots localeCompare schedule) ->
    exists start rest,
      row = (start ++ "-" ++ rest)%string /\ isTime start = true.
Proof.
  intros Hinput row Hrow.
  apply (proj1 (computeTimeSlots_In _ _ _)) in Hrow.
  apply (proj1 (In_injectLunch _ _)) in Hrow.
  destruct Hrow as [Hrow | [-> _]].
  - apply (proj1 (collectTimeSlots_In _ _)) in Hrow.
    destruct Hrow as (day & ds & Hday & Hwd & Hslot).
    apply (proj1 (isDay_In _)) in Hwd. eauto.
  - exists "13:00:00", "13:45:00". split; reflexivity.
Qed.

Lemma rows_sorted localeCompare (schedule : Schedule) :
  (forall a b,
      In a (Grid.computeTimeSlots localeCompare schedule) ->
      In b (Grid.computeTimeSlots localeCompare schedule) ->
      (0 < localeCompare (Grid.startOf a) (Grid.startOf b))%Z ->
      (localeCompare (Grid.startOf b) (Grid.startOf a) <= 0)%Z) ->
  forall i a b,
    nth_error (Grid.computeTimeSlots localeCompare schedule) i = Some a ->
    nth_error (Grid.computeTimeSlots localeCompare schedule) (S i) = Some b ->
    (localeCompare (Grid.startOf a) (Grid.startOf b) <= 0)%Z.
Proof.
  intros Htot i a b Ha Hb. apply Z.leb_le.
  refine (Sorted_adjacent
            (R := fun x y => Grid.mayPrecede localeCompare x y = true)
            _ i Ha Hb).
  apply sort_sorted. intros x y Hx Hy Hxy.
  unfold Grid.mayPrecede, Grid.compareSlots in *.
  apply Z.leb_gt in Hxy. apply Z.leb_le.
  apply Htot; [apply computeTimeSlots_In; assumption .. | lia].
Qed.

(** C7.  The rows are ordered by start time, in the order of
    [localeCompare], the comparison the grid sorts with.  The start time
    of a row written start, dash, rest is the text before the first
    dash.  For a comparison that never puts each of two texts after the
    other, every two adjacent rows have start times the comparison does
    not put in the opposite order.  On times written [HH:MM:SS] the
    platform's comparison orders as the code units do; then, for a
    schedule whose weekday slots all start with such a time, every row
    starts with such a time and every two adjacent rows have start times
    in lexicographic order.  The rows that are rendered are the sorted
    slots, in that order. *)
Theorem C7_rows_ordered_by_start :
  forall (localeCompare : string -> string -> Z) (props : Grid.Props),
    let rows := Grid.computeTimeSlots localeCompare props.(Grid.schedule) in
    ((forall a b, (0 < localeCompare a b)%Z -> (localeCompare b a <= 0)%Z) ->
     forall i startA restA startB restB,
       nth_error rows i = Some (startA ++ "-" ++ restA)%string ->
       nth_error rows (S i) = Some (startB ++ "-" ++ restB)%string ->
       ~ In "-"%char (list_ascii_of_string startA) ->
       ~ In "-"%char (list_ascii_of_string startB) ->
       (localeCompare startA startB <= 0)%Z)
    /\ ((forall a b, isTime a = true -> isTime b = true ->
                     (localeCompare a b <= 0)%Z <-> String.leb a b = true) ->
        (forall day daySchedule slot,
            In (day, daySchedule) props.(Grid.schedule) -> In day Grid.days ->
            In slot (keys daySchedule) ->
            exists start rest,
              slot = (start ++ "-" ++ rest)%string /\ isTime start = true) ->
        (forall row, In row rows ->
                     exists start rest,
                       row = (start ++ "-" ++ rest)%string
                       /\ isTime start = true)
        /\ (forall i startA restA startB restB,
               nth_error rows i = Some (startA ++ "-" ++ restA)%string ->
               nth_error rows (S i) = Some (startB ++ "-" ++ restB)%string ->
               ~ In "-"%char (list_ascii_of_string startA) ->
               ~ In "-"%char (list_ascii_of_string startB) ->
               String.leb startA startB = true))
    /\ (forall view,
           Grid.display localeCompare props = Normal view ->
           map Grid.row_slot view.(Grid.view_rows) = rows).
Proof.
  intros lc props rows. subst rows. split; [| split].
  - intros Htot i startA restA startB restB Ha Hb HnA HnB.
    pose proof (@rows_sorted lc props.(Grid.schedule)
                  (fun a b _ _ => Htot _ _) i _ _ Ha Hb) as H.
    now rewrite !startOf_piece in H.
  - intros Hagree Hinput.
    pose proof (@time_rows lc props.(Grid.schedule) Hinput) as Hrows.
    split; [exact Hrows |].
    assert (Hstart : forall i start rest,
               nth_error (Grid.computeTimeSlots lc props.(Grid.schedule)) i
               = Some (start ++ "-" ++ rest)%string ->
               ~ In "-"%char (list_ascii_of_string start) ->
               isTime start = true).
    { intros i start rest Hi Hn. apply nth_error_In, Hrows in Hi.
      destruct Hi as (s & r & E & Ht).
      apply (f_equal Grid.startOf) in E.
      rewrite !startOf_piece in E by auto using isTime_no_dash.
      now subst s. }
    intros i startA restA startB restB Ha Hb HnA HnB.
    apply Hagree; [eapply Hstart; eassumption .. |].
    assert (Htot : forall a b,
               In a (Grid.computeTimeSlots lc props.(Grid.schedule)) ->
               In b (Grid.computeTimeSlots lc props.(Grid.schedule)) ->
               (0 < lc (Grid.startOf a) (Grid.startOf b))%Z ->
               (lc (Grid.startOf b) (Grid.startOf a) <= 0)%Z).
    { intros a b Hina Hinb Hab.
      apply Hrows in Hina, Hinb.
      destruct Hina as (sa & ra & -> & Hta). destruct Hinb as (sb & rb & -> & Htb).
      rewrite !startOf_piece in * by auto using isTime_no_dash.
      apply Hagree; [assumption .. |].
      destruct (String.leb_total sa sb) as [H | H]; [| exact H].
      apply Hagree in H; [lia | assumption ..]. }
    pose proof (@rows_sorted lc props.(Grid.schedule) Htot i _ _ Ha Hb) as H.
    now rewrite !startOf_piece in H.
  - intros view Hview. apply render_rows in Hview.
    destruct Hview as [Hrows _]. now apply rows_slots in Hrows.
Qed.

Lemma C7_rows_ordered_by_start_witness :
  (punctuationFirstCompare "10:00:00" "13:00:00" <= 0)%Z
  /\ String.leb "10:00:00" "13:00:00" = true.
Proof.
  split.
  - exact (proj1 (@C7_rows_ordered_by_start punctuationFirstCompare
                    Sample.props2)
             punctuationFirstCompare_consistent
             1 "10:00:00" "11:00:00" "13:00:00" "14:00:00" eq_refl eq_refl
             (isTime_no_dash "10:00:00" eq_refl)
             (isTime_no_dash "13:00:00" eq_refl)).
  - refine (proj2 (proj1 (proj2 (@C7_rows_ordered_by_start
                                   punctuationFirstCompare Sample.props2))
                     _ _)
              1 "10:00:00" "11:00:00" "13:00:00" "14:00:00" eq_refl eq_refl
              (isTime_no_dash "10:00:00" eq_refl)
              (isTime_no_dash "13:00:00" eq_refl)).
    + intros a b Ha Hb. rewrite (punctuationFirstCompare_time _ _ Ha Hb).
      apply codeUnitCompare_leb.
    + intros day daySchedule slot Hday _ Hslot.
      exists (String.substring 0 8 slot),
             (String.substring 9 (String.length slot - 9) slot).
      cbn in Hday.
      destruct Hday as [[= <- <-] | [[= <- <-] | [[= <- <-] | []]]];
        cbn in Hslot;
        repeat (destruct Hslot as [<- | Hslot]; [split; reflexivity |]);
        destruct Hslot.
Defined.

(** C7 as the claim words it fails for some schedules: with the
    collation that puts punctuation first, a class at one o'clock written
    "1:00:00" is shown above the class at ten, and "1:00:00" comes after
    "10:00:00" in lexicographic order. *)
Lemma C7_counterexample :
  exists view,
    Grid.display punctuationFirstCompare Sample.propsUnpadded = Normal view
    /\ map Grid.row_slot view.(Grid.view_rows)
       = ["1:00:00-2:00:00"; "10:00:00-11:00:00"; "13:00:00-13:45:00"]
    /\ Grid.startOf "1:00:00-2:00:00" = "1:00:00"
    /\ Grid.startOf "10:00:00-11:00:00" = "10:00:00"
    /\ String.leb (Grid.startOf "1:00:00-2:00:00")
                  (Grid.startOf "10:00:00-11:00:00") = false.
Proof.
  eexists. split; [reflexivity |]. repeat split.
Qed.

(** C4.  The grid has a lunch row, and the lunch row shows no class.
    For a schedule whose weekday slots are written with a dash (those the
    table can label), the grid renders; among its rows is one whose start
    time begins with "13:00"; every such row shows the lunch break in each
    of the five day columns, whatever the schedule holds at that slot; and
    when no weekday slot of the schedule begins with "13:00" the row
    "13:00:00-13:45:00" is there. *)
Theorem C4_lunch_row :
  forall (localeCompare : string -> string -> Z) (props : Grid.Props),
    (forall day daySchedule slot,
        In (day, daySchedule) props.(Grid.schedule) ->
        In day Grid.days ->
        In slot (keys daySchedule) ->
        2 <= List.length (splitDash slot)) ->
    exists view,
      Grid.display localeCompare props = Normal view
      /\ (exists row,
             In row view.(Grid.view_rows)
             /\ startsWith "13:00" (Grid.startOf row.(Grid.row_slot)) = true)
      /\ (forall row,
             In row view.(Grid.view_rows) ->
             startsWith "13:00" (Grid.startOf row.(Grid.row_slot)) = true ->
             row.(Grid.row_cells)
             = [Grid.LunchBreak; Grid.LunchBreak; Grid.LunchBreak;
                Grid.LunchBreak; Grid.LunchBreak])
      /\ ((forall day daySchedule slot,
              In (day, daySchedule) props.(Grid.schedule) ->
              In day Grid.days ->
              In slot (keys daySchedule) ->
              startsWith "13:00" (Grid.startOf slot) = false) ->
          In "13:00:00-13:45:00" (map Grid.row_slot view.(Grid.view_rows))).
Proof.
  intros lc props Hdash.
  set (schedule := props.(Grid.schedule)) in *.
  set (slots := Grid.computeTimeSlots lc schedule).
  assert (Hslots : forall slot, In slot slots ->
                                2 <= List.length (splitDash slot)).
  { intros slot Hslot.
    apply (proj1 (computeTimeSlots_In lc schedule slot)) in Hslot.
    apply (proj1 (In_injectLunch _ _)) in Hslot.
    destruct Hslot as [Hslot | [-> _]]; [| cbn; lia].
    apply (proj1 (collectTimeSlots_In _ _)) in Hslot.
    destruct Hslot as (day & ds & Hin & Hday & Hkey).
    apply isDay_In in Hday. eauto. }
  destruct (mapM_total (Grid.renderRow schedule) slots) as [rows Hrows].
  { intros slot Hslot. apply renderRow_total. auto. }
  assert (Hmap : map Grid.row_slot rows = slots) by now apply rows_slots in Hrows.
  eexists. split.
  { unfold Grid.display, Grid.render, Grid.runEffect.
    cbn [Grid.timeSlots Grid.courseLegend]. fold schedule. fold slots.
    rewrite Hrows. reflexivity. }
  cbn [Grid.view_rows]. split; [| split].
  - assert (Hlunch : existsb Grid.isLunchSlot slots = true).
    { destruct (existsb Grid.isLunchSlot slots) eqn:E; [reflexivity |].
      pose proof (injectLunch_hasLunch (Grid.collectTimeSlots schedule)) as H.
      apply existsb_exists in H. destruct H as (slot & Hin & Hl).
      apply (proj2 (computeTimeSlots_In lc schedule slot)) in Hin.
      assert (existsb Grid.isLunchSlot slots = true); [| congruence].
      apply existsb_exists. eauto. }
    apply existsb_exists in Hlunch. destruct Hlunch as (slot & Hin & Hl).
    rewrite <- Hmap in Hin. apply in_map_iff in Hin.
    destruct Hin as (row & <- & Hrow).
    exists row. split; [exact Hrow | now rewrite isLunchSlot_startOf].
  - intros row Hrow Hl. rewrite isLunchSlot_startOf in Hl.
    apply mapM_Normal in Hrows.
    assert (Hex : exists slot, Grid.renderRow schedule slot = Normal row).
    { clear - Hrows Hrow.
      induction Hrows as [| s r ss rs Hr _ IH]; [contradiction |].
      destruct Hrow as [<- | Hrow]; eauto. }
    destruct Hex as [slot Hr]. apply renderRow_inv in Hr.
    destruct Hr as (Hs & _ & Hcells & _). rewrite Hs in Hl.
    now rewrite (Hcells Hl).
  - intros Hnone. rewrite Hmap.
    apply (proj2 (computeTimeSlots_In lc schedule _)).
    apply (proj2 (In_injectLunch _ _)). right. split; [reflexivity |].
    destruct (existsb Grid.isLunchSlot (Grid.collectTimeSlots schedule)) eqn:E;
      [| reflexivity].
    apply existsb_exists in E. destruct E as (slot & Hin & Hl).
    apply (proj1 (collectTimeSlots_In _ _)) in Hin.
    destruct Hin as (day & ds & Hin & Hday & Hkey).
    apply isDay_In in Hday.
    rewrite <- isLunchSlot_startOf, (Hnone day ds slot Hin Hday Hkey) in Hl.
    discriminate.
Qed.

Lemma C4_lunch_row_witness :
  exists view,
    Grid.display codeUnitCompare Sample.props2 = Normal view
    /\ exists row,
         In row view.(Grid.view_rows)
         /\ startsWith "13:00" (Grid.startOf row.(Grid.row_slot)) = true.
Proof.
  destruct (@C4_lunch_row codeUnitCompare Sample.props2) as (view & Hv & Hrow & _).
  - intros day ds slot Hin _ Hkey. cbn in Hin.
    repeat (destruct Hin as [Hin | Hin];
            [injection Hin as <- <-; cbn in Hkey;
             repeat (destruct Hkey as [<- | Hkey]; [cbn; lia |]);
             destruct Hkey |]).
    destruct Hin.
  - exists view. split; assumption.
Defined.

(** ** The course legend *)

Lemma weekdayClasses_In (schedule : Schedule) cls :
  In cls (Grid.weekdayClasses schedule)
  <-> exists day daySchedule slot classes,
        In (day, daySchedule) schedule /\ In day Grid.days
        /\ In (slot, classes) daySchedule /\ In cls classes.
Proof.
  unfold Grid.weekdayClasses. rewrite in_flat_map. split.
  - intros ([day ds] & Hin & Hcls). cbn [fst snd] in Hcls.
    destruct (Grid.isDay day) eqn:Ed; [| contradiction].
    apply in_concat in Hcls. destruct Hcls as (classes & Hcl & Hcls).
    unfold values in Hcl. apply in_map_iff in Hcl.
    destruct Hcl as ([slot classes'] & Heq & Hs). cbn in Heq; subst classes'.
    exists day, ds, slot, classes. apply isDay_In in Ed. auto.
  - intros (day & ds & slot & classes & Hin & Hday & Hs & Hcls).
    exists (day, ds). split; [exact Hin |]. cbn [fst snd].
    apply isDay_In in Hday. rewrite Hday.
    apply in_concat. exists classes. split; [| exact Hcls].
    unfold values. now apply (in_map snd) in Hs.
Qed.

Lemma fold_left_flat_map {S A B} (f : S -> B -> S) (g : A -> list B)
  (l : list A) (acc : S) :
  fold_left f (flat_map g l) acc
  = fold_left (fun acc a => fold_left f (g a) acc) l acc.
Proof.
  revert acc. induction l as [| a l IH]; intros acc; cbn; [reflexivity |].
  now rewrite fold_left_app, IH.
Qed.

Lemma fold_left_concat {S B} (f : S -> B -> S) (ls : list (list B)) (acc : S) :
  fold_left f (List.concat ls) acc
  = fold_left (fun acc l => fold_left f l acc) ls acc.
Proof.
  revert acc. induction ls as [| l ls IH]; intros acc; cbn; [reflexivity |].
  now rewrite fold_left_app, IH.
Qed.

Lemma fold_left_ext {S A} (f g : S -> A -> S) (l : list A) (acc : S) :
  (forall s a, f s a = g s a) -> fold_left f l acc = fold_left g l acc.
Proof.
  intros H. revert acc. induction l as [| a l IH]; intros acc; cbn;
    [reflexivity |].
  now rewrite H, IH.
Qed.

Lemma buildLegendMap_flat (schedule : Schedule) :
  Grid.buildLegendMap schedule
  = fold_left Grid.legendAdd (Grid.weekdayClasses schedule) [].
Proof.
  unfold Grid.buildLegendMap, Grid.weekdayClasses.
  rewrite fold_left_flat_map. apply fold_left_ext.
  intros m [day ds]. unfold Grid.legendDay. cbn [fst snd].
  destruct (Grid.isDay day); cbn [negb]; [| reflexivity].
  now rewrite fold_left_concat.
Qed.

(** What the legend map holds after the classes of [l] went in. *)
Lemma legendMap_invariant (l : list TimetableClass) :
  let m := fold_left Grid.legendAdd l [] in
  NoDup (keys m)
  /\ (forall k, In k (keys m) <-> exists cls, In cls l /\ Grid.legendKey cls = k)
  /\ (forall k e,
         own k m = Some e ->
         Grid.entryKey e = k
         /\ NoDup e.(Grid.instructors)
         /\ (forall i, In i e.(Grid.instructors)
                       <-> exists cls, In cls l /\ Grid.legendKey cls = k
                                       /\ cls.(instructor) = i)
         /\ (exists cls, In cls l /\ Grid.legendKey cls = k
                         /\ e.(Grid.legend_course_id) = cls.(course_id)
                         /\ e.(Grid.legend_course) = cls.(course))).
Proof.
  induction l as [| x l IH] using rev_ind; cbn zeta.
  - cbn. split; [constructor | split].
    + intros k. split; [contradiction | intros (? & [] & _)].
    + discriminate.
  - rewrite fold_left_app. cbn [fold_left].
    set (m0 := fold_left Grid.legendAdd l []) in *. cbn zeta in IH.
    destruct IH as (Hnd & Hkeys & Hown).
    set (k0 := Grid.legendKey x).
    assert (Hkeys' : forall v k,
               In k (keys (setProp k0 v m0))
               <-> exists cls, In cls (l ++ [x]) /\ Grid.legendKey cls = k).
    { intros v k. rewrite In_keys_setProp, Hkeys. split.
      - intros [-> | (cls & Hin & Hk)].
        + exists x. split; [apply in_or_app; right; now left | reflexivity].
        + exists cls. split; [apply in_or_app; now left | exact Hk].
      - intros (cls & Hin & Hk). apply in_app_or in Hin.
        destruct Hin as [Hin | [<- | []]]; [right; eauto | now left]. }
    assert (Hother : forall k e,
               k <> k0 -> own k m0 = Some e ->
               Grid.entryKey e = k
               /\ NoDup e.(Grid.instructors)
               /\ (forall i, In i e.(Grid.instructors)
                             <-> exists cls, In cls (l ++ [x])
                                             /\ Grid.legendKey cls = k
                                             /\ cls.(instructor) = i)
               /\ (exists cls, In cls (l ++ [x]) /\ Grid.legendKey cls = k
                               /\ e.(Grid.legend_course_id) = cls.(course_id)
                               /\ e.(Grid.legend_course) = cls.(course))).
    { intros k e Hne He. destruct (Hown k e He) as (Hk & Hnd' & Hins & Hfirst).
      split; [exact Hk | split; [exact Hnd' | split]].
      - intros i. rewrite Hins. split.
        + intros (cls & Hin & Hc). exists cls.
          split; [apply in_or_app; now left | exact Hc].
        + intros (cls & Hin & Hc & Hi). apply in_app_or in Hin.
          destruct Hin as [Hin | [<- | []]]; [eauto |].
          exfalso. apply Hne. now rewrite <- Hc.
      - destruct Hfirst as (cls & Hin & Hc). exists cls.
        split; [apply in_or_app; now left | exact Hc]. }
    unfold Grid.legendAdd. fold k0.
    destruct (own k0 m0) as [item |] eqn:Hitem.
    + split; [now apply NoDup_keys_setProp | split; [apply Hkeys' |]].
      intros k e He. destruct (String.eqb_spec k k0) as [-> | Hne].
      * rewrite own_setProp_same in He. injection He as <-.
        destruct (Hown k0 item Hitem) as (Hk & Hnd' & Hins & Hfirst).
        split; [exact Hk | split; [now apply NoDup_setAdd | split]].
        -- intros i. cbn [Grid.instructors]. rewrite In_setAdd, Hins. split.
           ++ intros [-> | (cls & Hin & Hc)].
              ** exists x. split; [apply in_or_app; right; now left |].
                 split; reflexivity.
              ** exists cls. split; [apply in_or_app; now left | exact Hc].
           ++ intros (cls & Hin & Hc & Hi). apply in_app_or in Hin.
              destruct Hin as [Hin | [<- | []]]; [right; eauto | now left].
        -- destruct Hfirst as (cls & Hin & Hc). exists cls.
           split; [apply in_or_app; now left | exact Hc].
      * rewrite own_setProp_other in He by exact Hne. now apply Hother.
    + split; [now apply NoDup_keys_setProp | split; [apply Hkeys' |]].
      intros k e He. destruct (String.eqb_spec k k0) as [-> | Hne].
      * rewrite own_setProp_same in He. injection He as <-.
        split; [reflexivity | split; [repeat constructor; intros [] | split]].
        -- intros i. cbn [Grid.instructors]. split.
           ++ intros [<- | []]. exists x.
              split; [apply in_or_app; right; now left | split; reflexivity].
           ++ intros (cls & Hin & Hc & Hi). apply in_app_or in Hin.
              destruct Hin as [Hin | [<- | []]]; [| now left].
              exfalso. apply own_None in Hitem. apply Hitem, Hkeys. eauto.
        -- exists x. split; [apply in_or_app; right; now left |].
           repeat split; reflexivity.
      * rewrite own_setProp_other in He by exact Hne. now apply Hother.
Qed.

Lemma entryKeys_keys (m : Obj Grid.LegendEntry) :
  (forall k e, In (k, e) m -> Grid.entryKey e = k) ->
  map Grid.entryKey (values m) = keys m.
Proof.
  induction m as [| [k e] m IH]; intros H; cbn; [reflexivity |].
  rewrite (H k e (or_introl eq_refl)).
  f_equal. apply IH. intros k' e' Hin. apply H. now right.
Qed.

Lemma computeLegend_keys (schedule : Schedule) :
  map Grid.entryKey (Grid.computeLegend schedule)
  = keys (Grid.buildLegendMap schedule).
Proof.
  unfold Grid.computeLegend. apply entryKeys_keys. intros k e Hin.
  rewrite buildLegendMap_flat in *.
  destruct (legendMap_invariant (Grid.weekdayClasses schedule))
    as (Hnd & _ & Hown).
  now apply Hown, In_own.
Qed.


(** C8.  Only Monday to Friday are rendered.  The slots and the legend
    the effect computes, and the whole table, are those of the schedule
    with every entry of another day removed; every row is a slot of some
    weekday entry or the injected lunch row; and every legend entry has the
    course of a class found on a weekday. *)
Theorem C8_only_weekdays :
  forall (localeCompare : string -> string -> Z) (props : Grid.Props),
    let weekdays :=
      {| Grid.schedule :=
           filter (fun e => Grid.isDay (fst e)) props.(Grid.schedule);
         Grid.title := props.(Grid.title);
         Grid.editMode := props.(Grid.editMode) |} in
    Grid.runEffect localeCompare props.(Grid.schedule)
    = Grid.runEffect localeCompare weekdays.(Grid.schedule)
    /\ Grid.display localeCompare props = Grid.display localeCompare weekdays
    /\ (forall slot,
           In slot (Grid.computeTimeSlots localeCompare props.(Grid.schedule)) ->
           slot = "13:00:00-13:45:00"
           \/ exists day daySchedule,
                In (day, daySchedule) props.(Grid.schedule)
                /\ In day Grid.days /\ In slot (keys daySchedule))
    /\ (forall entry,
           In entry (Grid.computeLegend props.(Grid.schedule)) ->
           exists day daySchedule slot classes cls,
             In (day, daySchedule) props.(Grid.schedule)
             /\ In day Grid.days
             /\ In (slot, classes) daySchedule /\ In cls classes
             /\ entry.(Grid.legend_course_id) = cls.(course_id)
             /\ entry.(Grid.legend_course) = cls.(course)).
Proof.
  intros lc [schedule title_ editMode_] weekdays. subst weekdays.
  cbn [Grid.schedule Grid.title Grid.editMode].
  split; [now rewrite runEffect_filter | split; [| split]].
  - unfold Grid.display. cbn [Grid.schedule].
    now rewrite runEffect_filter, render_filter.
  - intros slot Hslot.
    apply (proj1 (computeTimeSlots_In lc schedule slot)) in Hslot.
    apply (proj1 (In_injectLunch _ _)) in Hslot.
    destruct Hslot as [Hslot | [-> _]]; [right | now left].
    apply (proj1 (collectTimeSlots_In _ _)) in Hslot.
    destruct Hslot as (day & ds & Hin & Hday & Hkey).
    apply isDay_In in Hday. eauto.
  - intros entry Hin. unfold Grid.computeLegend in Hin.
    rewrite buildLegendMap_flat in Hin.
    destruct (legendMap_invariant (Grid.weekdayClasses schedule))
      as (Hnd & _ & Hown).
    apply (In_values_own _ _ Hnd) in Hin. destruct Hin as [k Hk].
    destruct (Hown k entry Hk) as (_ & _ & _ & cls & Hcls & _ & Hid & Hname).
    apply (proj1 (weekdayClasses_In _ _)) in Hcls.
    destruct Hcls as (day & ds & slot & classes & H1 & H2 & H3 & H4).
    exists day, ds, slot, classes, cls. auto 7.
Qed.

(** ** processSections *)

Lemma setProp_setProp {V} k (v v0 : V) (o : Obj V) :
  setProp k v (setProp k v0 o) = setProp k v o.
Proof.
  induction o as [| [k' v'] o IH]; cbn.
  - now rewrite String.eqb_refl.
  - destruct (String.eqb k k') eqn:E; cbn; rewrite E; [reflexivity |].
    now rewrite IH.
Qed.

Lemma getOr_setProp_same {V} (d : V) k v o :
  Page.getOr d k (setProp k v o) = v.
Proof. unfold Page.getOr. now rewrite own_setProp_same. Qed.

Lemma getOr_setProp_other {V} (d : V) k k' v o :
  k' <> k -> Page.getOr d k' (setProp k v o) = Page.getOr d k' o.
Proof. intros H. unfold Page.getOr. now rewrite own_setProp_other. Qed.

Lemma getOr_ensured {V} (d : V) k o :
  Page.getOr d k (if negb (mapHas k o) then setProp k d o else o)
  = Page.getOr d k o.
Proof.
  unfold mapHas, Page.getOr.
  destruct (own k o) eqn:E; cbn [negb]; [now rewrite E |].
  now rewrite own_setProp_same.
Qed.

Lemma setProp_ensured {V} (v v0 : V) k o :
  setProp k v (if negb (mapHas k o) then setProp k v0 o else o)
  = setProp k v o.
Proof.
  destruct (mapHas k o); cbn [negb]; [reflexivity | apply setProp_setProp].
Qed.

Lemma getOr_own {V} (d : V) k o v : own k o = Some v -> Page.getOr d k o = v.
Proof. unfold Page.getOr. now intros ->. Qed.

Lemma getOr_absent {V} (d : V) k o : own k o = None -> Page.getOr d k o = d.
Proof. unfold Page.getOr. now intros ->. Qed.

(** On keys that are not inherited, [addClass] completes, and all its
    writes amount to one write per level. *)
Lemma addClass_plain day timeSlot (m : Page.SectionMap) (c : TimetableClass) :
  inherited day = false -> inherited timeSlot = false ->
  Page.addClass day timeSlot m c = Normal (Page.place day timeSlot m c).
Proof.
  intros Hday Hslot. unfold Page.addClass, Page.place.
  generalize (section c). intros s.
  rewrite getOr_ensured, !setProp_ensured.
  generalize (Page.getOr [] s m). intros sched.
  unfold readProp at 1. rewrite Hday.
  destruct (own day sched) as [ds |] eqn:Eday.
  - rewrite (getOr_own _ _ _ Eday).
    unfold readProp. rewrite Hslot.
    destruct (own timeSlot ds) as [classes |] eqn:Eslot; [reflexivity |].
    now rewrite getOr_setProp_same, setProp_setProp, (getOr_absent _ _ _ Eslot).
  - rewrite getOr_setProp_same, (getOr_absent _ _ _ Eday).
    unfold readProp. cbn [own]. rewrite Hslot.
    now rewrite getOr_setProp_same, !setProp_setProp.
Qed.

Lemma forEach_pure {A S} (step : S -> A -> Outcome S) (g : S -> A -> S)
  (l : list A) (s : S) :
  (forall s a, In a l -> step s a = Normal (g s a)) ->
  forEach step l s = Normal (fold_left g l s).
Proof.
  revert s. induction l as [| a l IH]; intros s H; cbn; [reflexivity |].
  rewrite (H s a (or_introl eq_refl)). cbn [bind].
  apply IH. intros s' a' Ha'. apply H. now right.
Qed.

Lemma fold_left_map {S A B} (f : S -> B -> S) (g : A -> B) (l : list A)
  (acc : S) :
  fold_left f (map g l) acc = fold_left (fun s a => f s (g a)) l acc.
Proof.
  revert acc. induction l as [| a l IH]; intros acc; cbn; [reflexivity |].
  apply IH.
Qed.

Lemma fold_left_ext_in {S A} (f g : S -> A -> S) (l : list A) (acc : S) :
  (forall s a, In a l -> f s a = g s a) ->
  fold_left f l acc = fold_left g l acc.
Proof.
  revert acc. induction l as [| a l IH]; intros acc H; cbn; [reflexivity |].
  rewrite (H acc a (or_introl eq_refl)).
  apply IH. intros s a' Ha'. apply H. now right.
Qed.

(** The loops of [processSections] on a well-formed schedule: one [place]
    per class, in the order of the visits. *)
Lemma groupBySection_plain (schedule : Schedule) :
  Page.wellFormed schedule ->
  Page.groupBySection schedule
  = Normal
      (fold_left (fun m x => Page.place (fst (fst x)) (snd (fst x)) m (snd x))
                 (Page.visits schedule) []).
Proof.
  intros [_ Hwf]. unfold Page.groupBySection, Page.visits.
  rewrite fold_left_flat_map.
  apply forEach_pure. intros m [day ds] Hday.
  destruct (Hwf day ds Hday) as (Hd & _ & Hslots). cbn [fst snd].
  rewrite fold_left_flat_map.
  apply forEach_pure. intros m' [slot classes] Hslot. cbn [fst snd].
  rewrite fold_left_map. cbn [fst snd].
  apply forEach_pure. intros m'' c _.
  apply addClass_plain; [exact Hd |].
  apply Hslots. unfold keys. now apply (in_map fst) in Hslot.
Qed.

Lemma getOr_setProp {V} (d : V) k k' v o :
  Page.getOr d k' (setProp k v o)
  = if String.eqb k' k then v else Page.getOr d k' o.
Proof.
  destruct (String.eqb_spec k' k) as [-> | Hne].
  - apply getOr_setProp_same.
  - now apply getOr_setProp_other.
Qed.

Lemma cellAt_getOr (schedule : Schedule) day slot :
  cellAt schedule day slot
  = Page.getOr [] slot (Page.getOr [] day schedule).
Proof.
  unfold cellAt.
  destruct (own day schedule) as [ds |] eqn:E.
  - now rewrite (getOr_own _ _ _ E).
  - now rewrite (getOr_absent _ _ _ E).
Qed.

Lemma place_cell day slot (m : Page.SectionMap) c s d t :
  cellAt (Page.getOr [] s (Page.place day slot m c)) d t
  = cellAt (Page.getOr [] s m) d t
    ++ (if Page.hits s d t (day, slot, c) then [c] else []).
Proof.
  unfold Page.place, Page.hits. rewrite !cellAt_getOr, !getOr_setProp. cbn [fst snd].
  destruct (String.eqb_spec s (section c)) as [-> | Hs]; cbn [andb];
    [| now rewrite app_nil_r].
  rewrite getOr_setProp.
  destruct (String.eqb_spec d day) as [-> | Hd]; cbn [andb];
    [| now rewrite app_nil_r].
  rewrite getOr_setProp.
  destruct (String.eqb_spec t slot) as [-> | Ht]; [reflexivity |].
  now rewrite app_nil_r.
Qed.

Lemma visits_cell (l : list (string * string * TimetableClass))
  (m : Page.SectionMap) s d t :
  cellAt (Page.getOr [] s
            (fold_left (fun m x => Page.place (fst (fst x)) (snd (fst x)) m
                                              (snd x)) l m)) d t
  = cellAt (Page.getOr [] s m) d t ++ map snd (filter (Page.hits s d t) l).
Proof.
  revert m. induction l as [| [[day slot] c] l IH]; intros m.
  - cbn. now rewrite app_nil_r.
  - cbn [fold_left]. rewrite IH. cbn [fst snd]. rewrite place_cell.
    rewrite <- app_assoc. f_equal. cbn [filter fst snd].
    destruct (Page.hits s d t (day, slot, c)); reflexivity.
Qed.

Lemma visits_keys (l : list (string * string * TimetableClass))
  (m : Page.SectionMap) :
  NoDup (keys m) ->
  NoDup (keys (fold_left (fun m x => Page.place (fst (fst x)) (snd (fst x)) m
                                                (snd x)) l m)).
Proof.
  revert m. induction l as [| x l IH]; intros m Hnd; cbn [fold_left];
    [exact Hnd |].
  apply IH. unfold Page.place. now apply NoDup_keys_setProp.
Qed.

Lemma hits_cell s d t day slot (classes : list TimetableClass) :
  map snd (filter (Page.hits s d t) (map (fun c => (day, slot, c)) classes))
  = if String.eqb d day && String.eqb t slot
    then filter (fun c => String.eqb s c.(section)) classes
    else [].
Proof.
  induction classes as [| c classes IH]; cbn [map filter].
  - now destruct (String.eqb d day && String.eqb t slot).
  - unfold Page.hits at 1. cbn [fst snd].
    destruct (String.eqb s (section c)), (String.eqb d day),
      (String.eqb t slot); cbn [andb] in *; cbn [map]; now rewrite IH.
Qed.

Lemma hits_day s d t day (ds : DaySchedule) :
  NoDup (keys ds) ->
  map snd
    (filter (Page.hits s d t)
       (flat_map (fun slotEntry : string * list TimetableClass =>
                    map (fun c => (day, fst slotEntry, c)) (snd slotEntry))
                 ds))
  = if String.eqb d day
    then filter (fun c => String.eqb s c.(section)) (Page.getOr [] t ds)
    else [].
Proof.
  induction ds as [| [slot classes] ds IH]; intros Hnd.
  - cbn. now destruct (String.eqb d day).
  - inversion Hnd as [| ? ? Hnotin Hnd']; subst.
    cbn [flat_map fst snd]. rewrite filter_app, map_app, hits_cell, (IH Hnd').
    unfold Page.getOr at 2. cbn [own].
    destruct (String.eqb d day); cbn [andb]; [| reflexivity].
    destruct (String.eqb_spec t slot) as [-> | Hne].
    + apply own_None in Hnotin. rewrite (getOr_absent _ _ _ Hnotin).
      cbn [filter]. apply app_nil_r.
    + reflexivity.
Qed.

Lemma hits_schedule s d t (schedule : Schedule) :
  Page.wellFormed schedule ->
  map snd (filter (Page.hits s d t) (Page.visits schedule))
  = filter (fun c => String.eqb s c.(section)) (cellAt schedule d t).
Proof.
  intros [Hnd Hwf]. unfold Page.visits.
  induction schedule as [| [day ds] schedule IH]; [reflexivity |].
  inversion Hnd as [| ? ? Hnotin Hnd']; subst.
  cbn [flat_map fst snd]. rewrite filter_app, map_app.
  rewrite hits_day by (apply (Hwf day ds); now left).
  rewrite IH; [| exact Hnd' | intros day' ds' Hin; apply Hwf; now right].
  unfold cellAt at 2. cbn [own].
  destruct (String.eqb_spec d day) as [-> | Hne].
  - apply own_None in Hnotin. unfold cellAt. rewrite Hnotin.
    cbn [filter]. rewrite app_nil_r. unfold Page.getOr.
    now destruct (own t ds).
  - reflexivity.
Qed.

(** Cutting a list by a key: the pieces for distinct keys that cover the
    list make the list up again. *)
Lemma filter_split {A} (p : A -> bool) (l : list A) :
  Permutation (filter p l ++ filter (fun a => negb (p a)) l) l.
Proof.
  induction l as [| a l IH]; cbn; [constructor |].
  destruct (p a); cbn.
  - now constructor.
  - rewrite <- Permutation_middle. now constructor.
Qed.

Lemma pieces_perm (names : list string) (l : list TimetableClass) :
  NoDup names ->
  (forall c, In c l -> In c.(section) names) ->
  Permutation
    (List.concat
       (map (fun s => filter (fun c => String.eqb s c.(section)) l) names))
    l.
Proof.
  intros Hnd. revert l. induction Hnd as [| s names Hnotin Hnd IH];
    intros l Hcover.
  - destruct l as [| c l]; [constructor |].
    destruct (Hcover c (or_introl eq_refl)).
  - cbn [map List.concat].
    set (rest := filter (fun c => negb (String.eqb s c.(section))) l).
    replace (map (fun s' => filter (fun c => String.eqb s' c.(section)) l) names)
      with (map (fun s' => filter (fun c => String.eqb s' c.(section)) rest)
                names).
    + rewrite IH; [apply filter_split |].
      intros c Hc. apply filter_In in Hc. destruct Hc as [Hc Hne].
      destruct (Hcover c Hc) as [E | H]; [| exact H].
      rewrite E, String.eqb_refl in Hne. discriminate Hne.
    + apply map_ext_in. intros s' Hs'. subst rest.
      induction l as [| c l IHl]; [reflexivity |].
      cbn [filter].
      destruct (String.eqb_spec s (section c)) as [-> | Hne]; cbn [negb].
      * destruct (String.eqb_spec s' (section c)) as [-> | _];
          [contradiction |].
        apply IHl. intros c' Hc'. apply Hcover. now right.
      * cbn [filter]. rewrite IHl; [reflexivity |].
        intros c' Hc'. apply Hcover. now right.
Qed.

Lemma In_setProp {V} k k' (v v' : V) (o : Obj V) :
  In (k', v') (setProp k v o) -> (k' = k /\ v' = v) \/ In (k', v') o.
Proof.
  induction o as [| [k0 v0] o IH]; cbn.
  - intros [[= <- <-] | []]. now left.
  - destruct (String.eqb_spec k k0) as [-> | Hne]; cbn.
    + intros [[= <- <-] | H]; [now left | right; now right].
    + intros [H | H]; [right; now left |].
      destruct (IH H) as [H' | H']; [now left | right; now right].
Qed.

Lemma getOr_cases {V} (d : V) k (o : Obj V) :
  Page.getOr d k o = d \/ In (k, Page.getOr d k o) o.
Proof.
  unfold Page.getOr. destruct (own k o) eqn:E; [right | now left].
  now apply own_In.
Qed.

(** The records [place] builds are records again: distinct keys, none of
    them inherited. *)
Lemma place_wellFormed day slot (m : Page.SectionMap) c :
  inherited day = false -> inherited slot = false ->
  (forall s sched, In (s, sched) m -> Page.wellFormed sched) ->
  forall s sched, In (s, sched) (Page.place day slot m c) ->
                  Page.wellFormed sched.
Proof.
  intros Hday Hslot Hm s sched Hin. unfold Page.place in Hin.
  apply In_setProp in Hin. destruct Hin as [[_ ->] | Hin]; [| eauto].
  set (sched0 := Page.getOr [] (section c) m).
  assert (H0 : Page.wellFormed sched0).
  { destruct (getOr_cases [] (section c) m) as [E | Hin]; [| eauto].
    subst sched0. rewrite E. split; [constructor | intros ? ? []]. }
  destruct H0 as [Hnd Hdays].
  split; [now apply NoDup_keys_setProp |].
  intros d ds Hd. apply In_setProp in Hd.
  destruct Hd as [[-> ->] | Hd]; [| now apply Hdays].
  set (ds0 := Page.getOr [] day sched0).
  assert (H1 : NoDup (keys ds0)
               /\ forall t, In t (keys ds0) -> inherited t = false).
  { destruct (getOr_cases [] day sched0) as [E | Hin].
    - subst ds0. rewrite E. split; [constructor | intros ? []].
    - apply (Hdays day ds0 Hin). }
  destruct H1 as [Hnd1 Hslots].
  split; [exact Hday | split; [now apply NoDup_keys_setProp |]].
  intros t Ht. apply In_keys_setProp in Ht.
  destruct Ht as [-> | Ht]; [exact Hslot | now apply Hslots].
Qed.

Lemma visits_wellFormed (schedule : Schedule) :
  Page.wellFormed schedule ->
  forall s sched,
    In (s, sched)
       (fold_left (fun m x => Page.place (fst (fst x)) (snd (fst x)) m (snd x))
                  (Page.visits schedule) []) ->
    Page.wellFormed sched.
Proof.
  intros [_ Hwf].
  assert (Hplain : forall x, In x (Page.visits schedule) ->
                             inherited (fst (fst x)) = false
                             /\ inherited (snd (fst x)) = false).
  { intros x Hx. unfold Page.visits in Hx. apply in_flat_map in Hx.
    destruct Hx as ([day ds] & Hday & Hx). apply in_flat_map in Hx.
    destruct Hx as ([slot classes] & Hslot & Hx). apply in_map_iff in Hx.
    destruct Hx as (c & <- & _). cbn [fst snd].
    destruct (Hwf day ds Hday) as (Hd & _ & Hslots). split; [exact Hd |].
    apply Hslots. unfold keys. now apply (in_map fst) in Hslot. }
  revert Hplain. generalize (Page.visits schedule). intros l Hplain.
  assert (Hgen : forall m : Page.SectionMap,
             (forall s sched, In (s, sched) m -> Page.wellFormed sched) ->
             forall s sched,
               In (s, sched)
                  (fold_left (fun m x => Page.place (fst (fst x)) (snd (fst x))
                                                    m (snd x)) l m) ->
               Page.wellFormed sched).
  { induction l as [| x l IH]; intros m Hm; cbn [fold_left]; [exact Hm |].
    apply IH; [intros y Hy; apply Hplain; now right |].
    destruct (Hplain x (or_introl eq_refl)) as [Hd Hs].
    now apply place_wellFormed. }
  apply Hgen. intros ? ? [].
Qed.

Lemma sections_of_map (m : Page.SectionMap) :
  map Page.sd_section (map Page.toSectionData m) = keys m.
Proof. unfold keys. rewrite map_map. reflexivity. Qed.

Lemma NoDup_map_eq {A B} (f : A -> B) (l : list A) x y :
  NoDup (map f l) -> In x l -> In y l -> f x = f y -> x = y.
Proof.
  induction l as [| a l IH]; cbn; [contradiction |].
  intros Hnd Hx Hy Hf. inversion Hnd as [| ? ? Hnotin Hnd']; subst.
  destruct Hx as [-> | Hx], Hy as [-> | Hy]; auto.
  - exfalso. apply Hnotin. rewrite Hf. now apply in_map.
  - exfalso. apply Hnotin. rewrite <- Hf. now apply in_map.
Qed.

(** C9.  [processSections] cuts the schedule by section and neither
    loses nor repeats a class.  On a well-formed schedule it completes; no
    section gets two records, and each record is well formed; the cell
    [(day, slot)] of a section's record holds the classes of the input cell
    [(day, slot)] that name this section, in their order; hence every
    class of an input cell is in the record of the section it names, at
    the same day and slot, and in no other record; and the cells
    [(day, slot)] of all the records put together are the input cell,
    rearranged. *)
Theorem C9_processSections_partition :
  forall schedule : Schedule,
    Page.wellFormed schedule ->
    exists sectionData,
      Page.processSections schedule = Normal sectionData
      /\ NoDup (map Page.sd_section sectionData)
      /\ (forall sd, In sd sectionData ->
                     Page.wellFormed sd.(Page.sd_schedule))
      /\ (forall sd day slot,
             In sd sectionData ->
             cellAt sd.(Page.sd_schedule) day slot
             = filter (fun c => String.eqb sd.(Page.sd_section) c.(section))
                      (cellAt schedule day slot))
      /\ (forall day slot c,
             In c (cellAt schedule day slot) ->
             exists sd,
               In sd sectionData
               /\ sd.(Page.sd_section) = c.(section)
               /\ In c (cellAt sd.(Page.sd_schedule) day slot)
               /\ forall sd' day' slot',
                    In sd' sectionData ->
                    In c (cellAt sd'.(Page.sd_schedule) day' slot') ->
                    sd' = sd)
      /\ (forall day slot,
             Permutation
               (List.concat
                  (map (fun sd => cellAt sd.(Page.sd_schedule) day slot)
                       sectionData))
               (cellAt schedule day slot)).
Proof.
  intros schedule Hwf.
  set (m := fold_left
              (fun m x => Page.place (fst (fst x)) (snd (fst x)) m (snd x))
              (Page.visits schedule) []).
  assert (Hnd : NoDup (keys m)) by (apply visits_keys; constructor).
  assert (Hcell : forall s d t,
             cellAt (Page.getOr [] s m) d t
             = filter (fun c => String.eqb s c.(section)) (cellAt schedule d t)).
  { intros s d t. subst m. rewrite visits_cell. now rewrite hits_schedule. }
  assert (Hsd : forall sd d t,
             In sd (map Page.toSectionData m) ->
             cellAt sd.(Page.sd_schedule) d t
             = filter (fun c => String.eqb sd.(Page.sd_section) c.(section))
                      (cellAt schedule d t)).
  { intros sd d t Hin. apply in_map_iff in Hin.
    destruct Hin as ([s sched] & <- & Hin). cbn [Page.toSectionData fst snd
      Page.sd_section Page.sd_schedule].
    rewrite <- Hcell. now rewrite (getOr_own _ _ _ (In_own _ _ _ Hnd Hin)). }
  assert (Hfind : forall d t c,
             In c (cellAt schedule d t) ->
             exists sd, In sd (map Page.toSectionData m)
                        /\ sd.(Page.sd_section) = c.(section)
                        /\ In c (cellAt sd.(Page.sd_schedule) d t)).
  { intros d t c Hc.
    assert (Hc' : In c (cellAt (Page.getOr [] c.(section) m) d t)).
    { rewrite Hcell. apply filter_In. split; [exact Hc | apply String.eqb_refl]. }
    destruct (own c.(section) m) as [sched |] eqn:E.
    - rewrite (getOr_own _ _ _ E) in Hc'.
      exists (Page.toSectionData (c.(section), sched)).
      split; [apply in_map, own_In, E | split; [reflexivity | exact Hc']].
    - rewrite (getOr_absent _ _ _ E) in Hc'. destruct Hc'. }
  exists (map Page.toSectionData m).
  split; [| split; [| split; [| split; [| split]]]].
  - unfold Page.processSections. now rewrite groupBySection_plain.
  - now rewrite sections_of_map.
  - intros sd Hin. apply in_map_iff in Hin.
    destruct Hin as ([s sched] & <- & Hin). cbn [Page.toSectionData snd
      Page.sd_schedule].
    now apply (visits_wellFormed Hwf s sched).
  - intros sd day slot. apply Hsd.
  - intros day slot c Hc.
    destruct (Hfind day slot c Hc) as (sd & Hin & Hname & Hat).
    exists sd. repeat split; try assumption.
    intros sd' day' slot' Hin' Hat'.
    rewrite (Hsd sd' day' slot' Hin') in Hat'. apply filter_In in Hat'.
    destruct Hat' as [_ Heq]. apply String.eqb_eq in Heq.
    apply (NoDup_map_eq Page.sd_section (map Page.toSectionData m));
      [now rewrite sections_of_map | assumption .. | congruence].
  - intros day slot.
    replace (map (fun sd => cellAt sd.(Page.sd_schedule) day slot)
                 (map Page.toSectionData m))
      with (map (fun s => filter (fun c => String.eqb s c.(section))
                                 (cellAt schedule day slot))
                (keys m)).
    + apply pieces_perm; [exact Hnd |].
      intros c Hc. destruct (Hfind day slot c Hc) as (sd & Hin & <- & _).
      rewrite <- sections_of_map. now apply in_map.
    + rewrite <- sections_of_map, map_map. apply map_ext_in.
      intros sd Hin. now rewrite Hsd.
Qed.

Lemma C9_processSections_partition_witness :
  exists sectionData,
    Page.processSections Sample.schedule2 = Normal sectionData
    /\ NoDup (map Page.sd_section sectionData).
Proof.
  destruct (C9_processSections_partition (schedule := Sample.schedule2))
    as (sectionData & Hrun & Hnd & _).
  - split.
    + repeat constructor; cbn; intuition discriminate.
    + intros day ds Hin. cbn in Hin.
      repeat (destruct Hin as [Hin | Hin];
              [injection Hin as <- <-;
               split; [reflexivity |
                       split; [repeat constructor; cbn; intuition discriminate |
                               intros slot Hslot; cbn in Hslot;
                               repeat (destruct Hslot as [<- | Hslot];
                                       [reflexivity |]);
                               destruct Hslot]] |]).
      destruct Hin.
  - exists sectionData. split; assumption.
Defined.

(** ** Elitism *)

Section Elitism.

Local Open Scope nat_scope.

Lemma atLeastAsGood_refl a : Engine.atLeastAsGood a a = true.
Proof.
  unfold Engine.atLeastAsGood.
  rewrite Nat.eqb_refl, (proj2 (Nat.leb_le _ _) (Nat.le_refl _)).
  apply orb_true_r.
Qed.

Lemma atLeastAsGood_spec a b :
  Engine.atLeastAsGood a b = true
  <-> a.(Engine.hardViolations) < b.(Engine.hardViolations)
      \/ (a.(Engine.hardViolations) = b.(Engine.hardViolations)
          /\ a.(Engine.softPenalty) <= b.(Engine.softPenalty)).
Proof.
  unfold Engine.atLeastAsGood.
  rewrite orb_true_iff, andb_true_iff, Nat.ltb_lt, Nat.eqb_eq, Nat.leb_le.
  reflexivity.
Qed.

Lemma atLeastAsGood_trans a b c :
  Engine.atLeastAsGood a b = true -> Engine.atLeastAsGood b c = true ->
  Engine.atLeastAsGood a c = true.
Proof. rewrite !atLeastAsGood_spec. lia. Qed.

Lemma atLeastAsGood_total a b :
  Engine.atLeastAsGood a b = false -> Engine.atLeastAsGood b a = true.
Proof.
  intros H. apply atLeastAsGood_spec.
  destruct (Engine.atLeastAsGood a b) eqn:E; [discriminate |].
  assert (Hn : ~ (a.(Engine.hardViolations) < b.(Engine.hardViolations)
                  \/ (a.(Engine.hardViolations) = b.(Engine.hardViolations)
                      /\ a.(Engine.softPenalty) <= b.(Engine.softPenalty)))).
  { intros Hs. apply atLeastAsGood_spec in Hs. congruence. }
  lia.
Qed.

Variable evaluate : Engine.Candidate -> Engine.FitnessReport.

(** The fold that keeps the better candidate ends on a member of the
    population that ranks no worse than any other. *)
Lemma best_of_fold (rest : list Engine.Candidate) (c : Engine.Candidate) :
  In (fold_left (Engine.better evaluate) rest c) (c :: rest)
  /\ forall x, In x (c :: rest) ->
               Engine.ranksNoWorse evaluate
                 (fold_left (Engine.better evaluate) rest c) x = true.
Proof.
  revert c. induction rest as [| y rest IH]; intros c; cbn [fold_left].
  - split; [now left |]. intros x [<- | []]. apply atLeastAsGood_refl.
  - destruct (IH (Engine.better evaluate c y)) as [Hin Hbest]. split.
    + destruct Hin as [Hin | Hin]; [| right; now right].
      rewrite <- Hin. unfold Engine.better.
      destruct (Engine.ranksNoWorse evaluate c y);
        [left | right; left]; reflexivity.
    + intros x Hx.
      assert (Hcy : Engine.ranksNoWorse evaluate (Engine.better evaluate c y) c
                    = true
                    /\ Engine.ranksNoWorse evaluate
                         (Engine.better evaluate c y) y = true).
      { unfold Engine.better.
        destruct (Engine.ranksNoWorse evaluate c y) eqn:E; split.
        - apply atLeastAsGood_refl.
        - exact E.
        - now apply atLeastAsGood_total.
        - apply atLeastAsGood_refl. }
      destruct Hx as [<- | [<- | Hx]].
      * eapply atLeastAsGood_trans; [apply Hbest; now left | apply Hcy].
      * eapply atLeastAsGood_trans; [apply Hbest; now left | apply Hcy].
      * apply Hbest. now right.
Qed.

Lemma bestFitness_spec (population : list Engine.Candidate) b :
  Engine.bestFitness evaluate population = Some b ->
  (exists c, In c population /\ evaluate c = b)
  /\ forall x, In x population -> Engine.atLeastAsGood b (evaluate x) = true.
Proof.
  destruct population as [| c rest]; [discriminate |].
  cbn [Engine.bestFitness]. intros [= <-].
  destruct (best_of_fold rest c) as [Hin Hbest]. split; [eauto |].
  exact Hbest.
Qed.

Lemma bestFitness_some (population : list Engine.Candidate) :
  population <> [] -> exists b, Engine.bestFitness evaluate population = Some b.
Proof.
  destruct population as [| c rest]; [congruence |]. cbn. eauto.
Qed.

(** The first candidate of the ranking ranks no worse than any member of
    the population. *)
Lemma ranking_head (population : list Engine.Candidate) h rest :
  Stable.sort (Engine.ranksNoWorse evaluate) population = h :: rest ->
  In h population
  /\ forall x, In x population -> Engine.ranksNoWorse evaluate h x = true.
Proof.
  intros Hsort.
  assert (Hperm := sort_perm (Engine.ranksNoWorse evaluate) population).
  assert (Hs : Sorted (fun x y => Engine.ranksNoWorse evaluate x y = true)
                      (Stable.sort (Engine.ranksNoWorse evaluate) population)).
  { apply sort_sorted. intros a b _ _. apply atLeastAsGood_total. }
  apply Sorted_StronglySorted in Hs.
  - rewrite Hsort in Hs, Hperm. inversion Hs as [| ? ? _ Hall]; subst. split.
    + eapply Permutation_in; [exact Hperm | now left].
    + intros x Hx. apply Permutation_sym in Hperm.
      apply (Permutation_in _ Hperm) in Hx. destruct Hx as [<- | Hx].
      * apply atLeastAsGood_refl.
      * rewrite Forall_forall in Hall. now apply Hall.
  - intros x y z. apply atLeastAsGood_trans.
Qed.

Variable random : nat -> nat.
Variable catalog : list Engine.RequiredClass.
Variable config : Engine.GaConfig.

Lemma nextGeneration_elites (population : list Engine.Candidate) n :
  exists offspring,
    fst (Engine.nextGeneration evaluate random catalog config population n)
    = Engine.elites evaluate config population ++ offspring.
Proof.
  unfold Engine.nextGeneration.
  destruct (Engine.matingPool _ _ _ _ _ _) as [pool n1].
  destruct (Engine.crossover _ _ _ _ _) as [crossed n2].
  destruct (Engine.mutateAll _ _ _ _ _) as [offspring n3].
  cbn [fst]. eauto.
Qed.

Lemma elites_head (population : list Engine.Candidate) :
  1 <= config.(Engine.eliteCount) -> population <> [] ->
  exists h, In h (Engine.elites evaluate config population)
            /\ forall x, In x population ->
                         Engine.ranksNoWorse evaluate h x = true.
Proof.
  intros He Hne. unfold Engine.elites.
  destruct (Stable.sort (Engine.ranksNoWorse evaluate) population)
    as [| h rest] eqn:Hsort.
  - exfalso. apply Hne.
    assert (Hperm := sort_perm (Engine.ranksNoWorse evaluate) population).
    rewrite Hsort in Hperm. now apply Permutation_nil in Hperm.
  - exists h. split; [| now apply (ranking_head population Hsort)].
    destruct (Engine.eliteCount config); [lia | now left].
Qed.

Lemma initialPopulation_nonempty size n :
  1 <= size ->
  fst (Engine.initialPopulation random catalog size n) <> [].
Proof.
  destruct size as [| size]; [lia |]. intros _. cbn.
  destruct (Engine.randomCandidate random catalog n) as [c n1].
  destruct (Engine.initialPopulation random catalog size n1) as [cs n2].
  discriminate.
Qed.

Lemma generation_nonempty g :
  1 <= config.(Engine.eliteCount) -> 1 <= config.(Engine.populationSize) ->
  fst (Engine.generation evaluate random catalog config g) <> [].
Proof.
  intros He Hn. induction g as [| g IH].
  - now apply initialPopulation_nonempty.
  - cbn [Engine.generation].
    destruct (Engine.generation evaluate random catalog config g)
      as [population n]. cbn [fst] in IH.
    destruct (nextGeneration_elites population n) as [offspring ->].
    destruct (elites_head He IH) as (h & Hh & _).
    destruct (Engine.elites evaluate config population); [destruct Hh |].
    discriminate.
Qed.

End Elitism.

(** C6.  Elitism keeps the best fitness from getting worse.  With an
    elite count of at least 1 (and a population that is not empty), every
    generation has a best fitness report, and the one of generation
    [g + 1] ranks at least as good as the one of generation [g]. *)
Theorem C6_elitism_monotone :
  forall (evaluate : Engine.Candidate -> Engine.FitnessReport)
         (random : nat -> nat) (catalog : list Engine.RequiredClass)
         (config : Engine.GaConfig) (g : nat),
    1 <= config.(Engine.eliteCount) ->
    1 <= config.(Engine.populationSize) ->
    exists b b',
      Engine.bestFitness evaluate
        (fst (Engine.generation evaluate random catalog config g)) = Some b
      /\ Engine.bestFitness evaluate
           (fst (Engine.generation evaluate random catalog config (S g)))
         = Some b'
      /\ Engine.atLeastAsGood b' b = true.
Proof.
  intros evaluate random catalog config g He Hn.
  destruct (bestFitness_some evaluate
              (generation_nonempty evaluate random catalog config g He Hn))
    as [b Hb].
  destruct (bestFitness_some evaluate
              (generation_nonempty evaluate random catalog config (S g) He Hn))
    as [b' Hb'].
  exists b, b'. split; [exact Hb | split; [exact Hb' |]].
  assert (Hne := generation_nonempty evaluate random catalog config g He Hn).
  cbn [Engine.generation] in Hb'.
  destruct (Engine.generation evaluate random catalog config g)
    as [population n]. cbn [fst] in *.
  destruct (nextGeneration_elites evaluate random catalog config population n)
    as [offspring Hnext].
  rewrite Hnext in Hb'.
  destruct (elites_head evaluate config He Hne) as (h & Hh & Hbest).
  apply bestFitness_spec in Hb. destruct Hb as [(c & Hc & <-) _].
  apply bestFitness_spec in Hb'. destruct Hb' as [_ Hall].
  apply atLeastAsGood_trans with (b := evaluate h).
  - apply Hall. apply in_or_app. now left.
  - now apply Hbest.
Qed.

Lemma C6_elitism_monotone_witness :
  exists b b',
    Engine.bestFitness Sample.evaluate1
      (fst (Engine.generation Sample.evaluate1 Sample.random1 Sample.catalog1
                              Sample.config1 0)) = Some b
    /\ Engine.bestFitness Sample.evaluate1
         (fst (Engine.generation Sample.evaluate1 Sample.random1
                                 Sample.catalog1 Sample.config1 1)) = Some b'
    /\ Engine.atLeastAsGood b' b = true.
Proof.
  apply (@C6_elitism_monotone Sample.evaluate1 Sample.random1 Sample.catalog1
           Sample.config1 0); cbn; lia.
Defined.

(** ** Runs on the sample data *)

Example timeSlots_schedule2 :
  Grid.computeTimeSlots codeUnitCompare Sample.schedule2
  = ["09:00:00-10:00:00"; "10:00:00-11:00:00"; "13:00:00-14:00:00"].
Proof. reflexivity. Qed.

Example timeSlots_schedule1 :
  Grid.computeTimeSlots codeUnitCompare Sample.schedule1
  = ["09:00:00-10:00:00"; "13:00:00-13:45:00"].
Proof. reflexivity. Qed.

Example legend_schedule2 :
  Grid.computeLegend Sample.schedule2
  = [{| Grid.legend_course_id := "CS301"; Grid.legend_course := "Databases";
        Grid.instructors := ["Rao"; "Iyer"] |};
     {| Grid.legend_course_id := ""; Grid.legend_course := "Algebra";
        Grid.instructors := ["Rao"] |}].
Proof. reflexivity. Qed.

(** Before the effect has run the table has no row at all. *)
Example first_render :
  Grid.render Sample.props2 Grid.initialState
  = Normal {| Grid.view_title := None; Grid.view_rows := [];
              Grid.view_noClasses := true; Grid.view_legend := [] |}.
Proof. reflexivity. Qed.

(** The class put into the lunch slot on Wednesday is not shown. *)
Example lunch_row_schedule2 :
  exists view,
    Grid.display codeUnitCompare Sample.props2 = Normal view
    /\ nth_error view.(Grid.view_rows) 2
       = Some {| Grid.row_slot := "13:00:00-14:00:00";
                 Grid.row_label := "13:00 - 14:00";
                 Grid.row_lunch := true;
                 Grid.row_cells :=
                   [Grid.LunchBreak; Grid.LunchBreak; Grid.LunchBreak;
                    Grid.LunchBreak; Grid.LunchBreak] |}.
Proof. eexists. split; reflexivity. Qed.

(** A slot without a dash cannot be labelled. *)
Example slot_without_dash :
  Grid.display codeUnitCompare
    {| Grid.schedule := [("Monday", [("0900", [Sample.class1])])];
       Grid.title := None; Grid.editMode := false |}
  = ThrowsTypeError.
Proof. reflexivity. Qed.

Example sections_schedule2 :
  Page.processSections Sample.schedule2
  = Normal
      [{| Page.sd_section := "A";
          Page.sd_schedule :=
            [("Monday", [("10:00:00-11:00:00", [Sample.class1]);
                         ("09:00:00-10:00:00", [Sample.class3])])] |};
       {| Page.sd_section := "B";
          Page.sd_schedule :=
            [("Monday", [("10:00:00-11:00:00", [Sample.class2])]);
             ("Wednesday", [("13:00:00-14:00:00", [Sample.class2])]);
             ("Saturday", [("08:00:00-09:00:00", [Sample.class4])])] |}].
Proof. reflexivity. Qed.

(** Keys that name members of [Object.prototype] are outside the
    well-formed schedules. *)
Example inherited_day :
  Page.processSections
    [("constructor", [("09:00:00-10:00:00", [Sample.class1])])]
  = LeavesModel.
Proof. reflexivity. Qed.

Example inherited_slot :
  Page.processSections [("Monday", [("toString", [Sample.class1])])]
  = ThrowsTypeError.
Proof. reflexivity. Qed.

Example message_detail :
  Page.extractErrorMessage
    {| Page.response_data :=
         Some (VObj [("error", VStr ""); ("detail", VStr "Slot taken")]) |}
  = Normal (VStr "Slot taken").
Proof. reflexivity. Qed.

Example message_no_response :
  Page.extractErrorMessage {| Page.response_data := None |}
  = Normal (VStr "Failed to move class").
Proof. reflexivity. Qed.

Example message_conflicts_not_a_list :
  Page.extractErrorMessage
    {| Page.response_data := Some (VObj [("conflicts", VStr "busy")]) |}
  = ThrowsTypeError.
Proof. reflexivity. Qed.

(** A successful update asks for the timetable again and installs it. *)
Example update_succeeds :
  Page.handleSlotUpdate "7" Page.PatchOk
    (Page.GetOk {| Page.timetable_name := "T"; Page.fitness := 90%Z;
                   Page.td_schedule := Sample.schedule1 |})
    "c1" "Tuesday" "09:00:00-10:00:00" Page.initialState
  = Normal
      {| Page.run_state :=
           {| Page.timetable :=
                Some {| Page.timetable_name := "T"; Page.fitness := 90%Z;
                        Page.td_schedule := Sample.schedule1 |};
              Page.sections :=
                [{| Page.sd_section := "A";
                    Page.sd_schedule := Sample.schedule1 |}];
              Page.loading := false; Page.editMode := false |};
         Page.run_effects :=
           [ConsoleLog "Updating class slot:";
            ApiPatch "/classes/update_slot/" "c1" "Tuesday" "09:00:00-10:00:00";
            ConsoleLog "API call successful";
            ApiGet "/timetables/7/view_schedule/"];
         Page.run_completion := Page.Fulfilled |}.
Proof. reflexivity. Qed.

Example best_of_first_generations :
  map (fun g =>
         Engine.bestFitness Sample.evaluate1
           (fst (Engine.generation Sample.evaluate1 Sample.random1
                                   Sample.catalog1 Sample.config1 g)))
      [0; 1; 2]
  = [Some {| Engine.hardViolations := 0; Engine.softPenalty := 20 |};
     Some {| Engine.hardViolations := 0; Engine.softPenalty := 20 |};
     Some {| Engine.hardViolations := 0; Engine.softPenalty := 20 |}].
Proof. vm_compute. reflexivity. Qed.

(** * More of the two components *)

(** ** The rows of the grid *)

Lemma addSlots_NoDup (ks acc : list string) :
  NoDup acc ->
  NoDup (fold_left (fun acc timeSlot => setAdd timeSlot acc) ks acc).
Proof.
  revert acc. induction ks as [| k ks IH]; intros acc H; cbn; [exact H |].
  apply IH. now apply NoDup_setAdd.
Qed.

Lemma collectFrom_NoDup (schedule : Schedule) acc :
  NoDup acc -> NoDup (fold_left Grid.collectDay schedule acc).
Proof.
  revert acc. induction schedule as [| [d ds] schedule IH]; intros acc H;
    cbn [fold_left]; [exact H |].
  apply IH. unfold Grid.collectDay.
  destruct (negb (Grid.isDay d)); [exact H | now apply addSlots_NoDup].
Qed.

Lemma injectLunch_NoDup slots :
  NoDup slots -> NoDup (Grid.injectLunch slots).
Proof.
  intros H. unfold Grid.injectLunch.
  destruct (existsb Grid.isLunchSlot slots) eqn:E; cbn [negb]; [exact H |].
  apply NoDup_app; [exact H | repeat constructor; intros [] |].
  intros x Hx [<- | []].
  assert (existsb Grid.isLunchSlot slots = true); [| congruence].
  apply existsb_exists. exists "13:00:00-13:45:00". split; [exact Hx | reflexivity].
Qed.

Lemma computeTimeSlots_NoDup localeCompare (schedule : Schedule) :
  NoDup (Grid.computeTimeSlots localeCompare schedule).
Proof.
  unfold Grid.computeTimeSlots, Grid.sortSlots.
  eapply Permutation_NoDup; [symmetry; apply sort_perm |].
  apply injectLunch_NoDup, collectFrom_NoDup. constructor.
Qed.

Lemma hasLunch_false (schedule : Schedule) :
  existsb Grid.isLunchSlot (Grid.collectTimeSlots schedule) = false
  <-> forall day daySchedule slot,
        In (day, daySchedule) schedule -> In day Grid.days ->
        In slot (keys daySchedule) -> Grid.isLunchSlot slot = false.
Proof.
  split.
  - intros H day ds slot Hin Hday Hkey.
    destruct (Grid.isLunchSlot slot) eqn:E; [| reflexivity].
    assert (existsb Grid.isLunchSlot (Grid.collectTimeSlots schedule) = true);
      [| congruence].
    apply existsb_exists. exists slot. split; [| exact E].
    apply collectTimeSlots_In. exists day, ds. apply isDay_In in Hday. auto.
  - intros H.
    destruct (existsb Grid.isLunchSlot (Grid.collectTimeSlots schedule)) eqn:E;
      [| reflexivity].
    apply existsb_exists in E. destruct E as (slot & Hin & Hl).
    apply (proj1 (collectTimeSlots_In _ _)) in Hin.
    destruct Hin as (day & ds & Hin & Hday & Hkey). apply isDay_In in Hday.
    rewrite (H day ds slot Hin Hday Hkey) in Hl. discriminate.
Qed.

(** X1.  Every slot used on a weekday gets exactly one row, however many
    days use it, and the only other row there can be is the injected lunch
    row, present exactly when no weekday slot begins with "13:00". *)
Theorem X1_one_row_per_weekday_slot :
  forall (localeCompare : string -> string -> Z) (schedule : Schedule),
    NoDup (Grid.computeTimeSlots localeCompare schedule)
    /\ forall slot,
         In slot (Grid.computeTimeSlots localeCompare schedule)
         <-> (exists day daySchedule,
                 In (day, daySchedule) schedule /\ In day Grid.days
                 /\ In slot (keys daySchedule))
             \/ (slot = "13:00:00-13:45:00"
                 /\ forall day daySchedule timeSlot,
                      In (day, daySchedule) schedule -> In day Grid.days ->
                      In timeSlot (keys daySchedule) ->
                      Grid.isLunchSlot timeSlot = false).
Proof.
  intros lc schedule. split; [apply computeTimeSlots_NoDup |].
  intros slot. rewrite computeTimeSlots_In, In_injectLunch, hasLunch_false.
  rewrite collectTimeSlots_In. split.
  - intros [(day & ds & Hin & Hday & Hkey) | H]; [left | now right].
    exists day, ds. apply isDay_In in Hday. auto.
  - intros [(day & ds & Hin & Hday & Hkey) | H]; [left | now right].
    exists day, ds. apply isDay_In in Hday. auto.
Qed.

Lemma rows_rendered (schedule : Schedule) slots rows row :
  mapM (Grid.renderRow schedule) slots = Normal rows ->
  In row rows ->
  exists slot, In slot slots /\ Grid.renderRow schedule slot = Normal row.
Proof.
  intros H. apply mapM_Normal in H.
  induction H as [| s r ss rs Hr _ IH]; [contradiction |].
  intros [<- | Hrow].
  - exists s. split; [now left | exact Hr].
  - destruct (IH Hrow) as (slot & Hin & Hslot). exists slot.
    split; [now right | exact Hslot].
Qed.

Lemma computeTimeSlots_nonempty localeCompare (schedule : Schedule) :
  Grid.computeTimeSlots localeCompare schedule <> [].
Proof.
  intros E.
  pose proof (injectLunch_hasLunch (Grid.collectTimeSlots schedule)) as H.
  apply existsb_exists in H. destruct H as (slot & Hin & _).
  apply (proj2 (computeTimeSlots_In localeCompare schedule slot)) in Hin.
  rewrite E in Hin. destruct Hin.
Qed.

(** X2.  Once the effect has run the table is never empty and the "No
    classes scheduled" row is never shown, whatever the schedule. *)
Theorem X2_never_empty_after_effect :
  forall (localeCompare : string -> string -> Z) (props : Grid.Props)
         (view : Grid.View),
    Grid.display localeCompare props = Normal view ->
    view.(Grid.view_noClasses) = false /\ view.(Grid.view_rows) <> [].
Proof.
  intros lc props view Hview.
  pose proof (computeTimeSlots_nonempty lc props.(Grid.schedule)) as Hne.
  pose proof (render_rows _ _ Hview) as [Hrows _].
  apply rows_slots in Hrows. cbn [Grid.runEffect Grid.timeSlots] in Hrows.
  split.
  - unfold Grid.display, Grid.render in Hview.
    destruct (mapM _ _) as [rows | |]; cbn [bind] in Hview; try discriminate.
    injection Hview as <-. cbn [Grid.view_noClasses Grid.runEffect Grid.timeSlots].
    destruct (Grid.computeTimeSlots lc (Grid.schedule props));
      [congruence | reflexivity].
  - intros E. rewrite E in Hrows. cbn in Hrows. congruence.
Qed.

Lemma X2_never_empty_after_effect_witness :
  exists view,
    Grid.display codeUnitCompare Sample.props2 = Normal view
    /\ view.(Grid.view_noClasses) = false.
Proof.
  eexists. split; [reflexivity |].
  exact (proj1 (@X2_never_empty_after_effect codeUnitCompare Sample.props2 _
                  eq_refl)).
Defined.

Lemma no_weekday_slots (schedule : Schedule) :
  (forall day daySchedule,
      In (day, daySchedule) schedule -> In day Grid.days -> daySchedule = []) ->
  Grid.collectTimeSlots schedule = [] /\ Grid.weekdayClasses schedule = [].
Proof.
  intros H. split.
  - destruct (Grid.collectTimeSlots schedule) as [| slot slots] eqn:E;
      [reflexivity |].
    assert (Hin : In slot (Grid.collectTimeSlots schedule))
      by (rewrite E; now left).
    apply (proj1 (collectTimeSlots_In _ _)) in Hin.
    destruct Hin as (day & ds & Hin & Hday & Hkey). apply isDay_In in Hday.
    rewrite (H day ds Hin Hday) in Hkey. destruct Hkey.
  - destruct (Grid.weekdayClasses schedule) as [| c cs] eqn:E; [reflexivity |].
    assert (Hin : In c (Grid.weekdayClasses schedule)) by (rewrite E; now left).
    apply (proj1 (weekdayClasses_In _ _)) in Hin.
    destruct Hin as (day & ds & slot & classes & Hin & Hday & Hs & _).
    rewrite (H day ds Hin Hday) in Hs. destruct Hs.
Qed.

(** X3.  A schedule with no slot on Monday to Friday (an empty one, or
    one with classes on other days only) is shown as the single lunch row
    "13:00 - 13:45" with the lunch break in the five columns, and without
    legend. *)
Theorem X3_only_lunch_row_without_weekday_slots :
  forall (localeCompare : string -> string -> Z) (props : Grid.Props),
    (forall day daySchedule,
        In (day, daySchedule) props.(Grid.schedule) -> In day Grid.days ->
        daySchedule = []) ->
    exists view,
      Grid.display localeCompare props = Normal view
      /\ view.(Grid.view_rows)
         = [{| Grid.row_slot := "13:00:00-13:45:00";
               Grid.row_label := "13:00 - 13:45";
               Grid.row_lunch := true;
               Grid.row_cells :=
                 [Grid.LunchBreak; Grid.LunchBreak; Grid.LunchBreak;
                  Grid.LunchBreak; Grid.LunchBreak] |}]
      /\ view.(Grid.view_legend) = [].
Proof.
  intros lc props H. destruct (no_weekday_slots _ H) as [Hslots Hclasses].
  unfold Grid.display, Grid.runEffect, Grid.computeTimeSlots,
    Grid.computeLegend.
  rewrite buildLegendMap_flat, Hslots, Hclasses.
  eexists. split; [reflexivity | split; reflexivity].
Qed.

Lemma X3_only_lunch_row_without_weekday_slots_witness :
  exists view,
    Grid.display codeUnitCompare
      {| Grid.schedule := Sample.scheduleSaturday; Grid.title := None;
         Grid.editMode := false |} = Normal view
    /\ List.length view.(Grid.view_rows) = 1.
Proof.
  destruct (@X3_only_lunch_row_without_weekday_slots codeUnitCompare
              {| Grid.schedule := Sample.scheduleSaturday; Grid.title := None;
                 Grid.editMode := false |})
    as (view & Hview & Hrows & _).
  - intros day ds Hin Hday. cbn in Hin.
    destruct Hin as [Hin | [Hin | []]]; injection Hin as <- <-;
      [| reflexivity].
    cbn in Hday. repeat (destruct Hday as [Hday | Hday]; [discriminate |]).
    destruct Hday.
  - exists view. split; [exact Hview | now rewrite Hrows].
Defined.

(** X4.  What a row shows.  Every row has one cell per day, Monday to
    Friday in that order; it is a lunch row exactly when its slot begins
    with "13:00"; and a row that is not a lunch row shows, under each day,
    the classes the schedule holds for that day and slot (none when the
    day or the slot is absent). *)
Theorem X4_cells_show_the_schedule :
  forall (localeCompare : string -> string -> Z) (props : Grid.Props)
         (view : Grid.View) (row : Grid.Row),
    Grid.display localeCompare props = Normal view ->
    In row view.(Grid.view_rows) ->
    List.length row.(Grid.row_cells) = 5
    /\ row.(Grid.row_lunch) = Grid.isLunchSlot row.(Grid.row_slot)
    /\ (row.(Grid.row_lunch) = false ->
        row.(Grid.row_cells)
        = map (fun day =>
                 Grid.Classes (cellAt props.(Grid.schedule) day
                                      row.(Grid.row_slot)))
              Grid.days).
Proof.
  intros lc props view row Hview Hrow.
  apply render_rows in Hview. destruct Hview as [Hrows _].
  destruct (@rows_rendered _ _ _ _ Hrows Hrow) as (slot & _ & Hr).
  apply renderRow_inv in Hr. destruct Hr as (Hs & Hl & Hlunch & Hclasses).
  rewrite Hs, Hl. split; [| split; [reflexivity | exact Hclasses]].
  destruct (Grid.isLunchSlot slot) eqn:E.
  - now rewrite (Hlunch eq_refl).
  - now rewrite (Hclasses eq_refl).
Qed.

Lemma X4_cells_show_the_schedule_witness :
  exists view,
    Grid.display codeUnitCompare Sample.props2 = Normal view
    /\ forall row, In row view.(Grid.view_rows) ->
                   List.length row.(Grid.row_cells) = 5.
Proof.
  eexists. split; [reflexivity |].
  intros row Hrow.
  exact (proj1 (@X4_cells_show_the_schedule codeUnitCompare Sample.props2
                  _ row eq_refl Hrow)).
Defined.

(** ** formatTimeSlotLabel *)

(** X5.  The label of a slot.  For a slot written start, dash, end, the
    label is the first five characters of the start, " - ", and the first
    five characters of the end; anything after a second dash is ignored;
    and a slot without a dash cannot be labelled: the call throws. *)
Theorem X5_label_of_a_slot :
  forall start end_ rest : string,
    ~ In "-"%char (list_ascii_of_string start) ->
    ~ In "-"%char (list_ascii_of_string end_) ->
    Grid.formatTimeSlotLabel (start ++ "-" ++ end_)
    = Normal (String.substring 0 5 start ++ " - "
              ++ String.substring 0 5 end_)%string
    /\ Grid.formatTimeSlotLabel (start ++ "-" ++ end_ ++ "-" ++ rest)
       = Normal (String.substring 0 5 start ++ " - "
                 ++ String.substring 0 5 end_)%string
    /\ Grid.formatTimeSlotLabel start = ThrowsTypeError.
Proof.
  intros start end_ rest Hs He. unfold Grid.formatTimeSlotLabel.
  split; [| split].
  - change (start ++ "-" ++ end_)%string
      with (start ++ String "-" end_)%string.
    now rewrite (@splitDash_piece start end_ Hs), (@splitDash_plain end_ He).
  - change (start ++ "-" ++ end_ ++ "-" ++ rest)%string
      with (start ++ String "-" (end_ ++ String "-" rest))%string.
    now rewrite (@splitDash_piece start _ Hs), (@splitDash_piece end_ rest He).
  - now rewrite (@splitDash_plain start Hs).
Qed.

Lemma X5_label_of_a_slot_witness :
  Grid.formatTimeSlotLabel "09:00:00-10:30:00" = Normal "09:00 - 10:30".
Proof.
  refine (proj1 (@X5_label_of_a_slot "09:00:00" "10:30:00" "" _ _)).
  - cbn. intuition discriminate.
  - cbn. intuition discriminate.
Defined.

(** ** The order of rows that start together *)

Lemma insert_filter {A} (le : A -> A -> bool) (p : A -> bool) a l :
  (forall b, In b l -> p a = true -> p b = true -> le a b = true) ->
  filter p (Stable.insert le a l) = filter p (a :: l).
Proof.
  induction l as [| b l IH]; intros H; [reflexivity |].
  cbn [Stable.insert]. destruct (le a b) eqn:E; [reflexivity |].
  cbn [filter]. rewrite IH by (intros c Hc; apply H; now right).
  cbn [filter]. destruct (p a) eqn:Ea, (p b) eqn:Eb; try reflexivity.
  rewrite (H b (or_introl eq_refl) eq_refl Eb) in E. discriminate.
Qed.

Lemma sort_filter {A} (le : A -> A -> bool) (p : A -> bool) l :
  (forall a b, p a = true -> p b = true -> le a b = true) ->
  filter p (Stable.sort le l) = filter p l.
Proof.
  intros H. induction l as [| a l IH]; [reflexivity |].
  change (Stable.sort le (a :: l)) with (Stable.insert le a (Stable.sort le l)).
  rewrite insert_filter by (intros b _; apply H).
  cbn [filter]. now rewrite IH.
Qed.

(** X6.  Rows that start at the same time keep the order in which the
    schedule first mentions their slots: the sort by start time does not
    reorder them (for a [localeCompare] that finds a text equal to
    itself). *)
Theorem X6_rows_starting_together_keep_their_order :
  forall (localeCompare : string -> string -> Z) (schedule : Schedule)
         (start : string),
    (localeCompare start start <= 0)%Z ->
    filter (fun slot => String.eqb (Grid.startOf slot) start)
           (Grid.computeTimeSlots localeCompare schedule)
    = filter (fun slot => String.eqb (Grid.startOf slot) start)
             (Grid.injectLunch (Grid.collectTimeSlots schedule)).
Proof.
  intros lc schedule start Hrefl.
  unfold Grid.computeTimeSlots, Grid.sortSlots. apply sort_filter.
  intros a b Ha Hb. apply String.eqb_eq in Ha, Hb.
  unfold Grid.mayPrecede, Grid.compareSlots. rewrite Ha, Hb.
  now apply Z.leb_le.
Qed.

Lemma X6_rows_starting_together_keep_their_order_witness :
  filter (fun slot => String.eqb (Grid.startOf slot) "09:00:00")
         (Grid.computeTimeSlots codeUnitCompare Sample.schedule3)
  = ["09:00:00-11:00:00"; "09:00:00-10:00:00"].
Proof.
  rewrite (@X6_rows_starting_together_keep_their_order codeUnitCompare
             Sample.schedule3 "09:00:00"); [reflexivity |].
  vm_compute. discriminate.
Defined.

(** ** The order and the content of the legend *)

Lemma setHas_keys {V} k (o : Obj V) : setHas k (keys o) = mapHas k o.
Proof.
  destruct (mapHas k o) eqn:E.
  - apply setHas_In. now apply mapHas_In.
  - destruct (setHas k (keys o)) eqn:E'; [| reflexivity].
    apply setHas_In, mapHas_In in E'. congruence.
Qed.

Lemma keys_setProp_setAdd {V} k (v : V) (o : Obj V) :
  keys (setProp k v o) = setAdd k (keys o).
Proof. rewrite keys_setProp. unfold setAdd. now rewrite setHas_keys. Qed.

Lemma keys_legendAdd (m : Obj Grid.LegendEntry) c :
  keys (Grid.legendAdd m c) = setAdd (Grid.legendKey c) (keys m).
Proof.
  unfold Grid.legendAdd.
  destruct (own (Grid.legendKey c) m); apply keys_setProp_setAdd.
Qed.

Lemma setFrom_map {A V} (f : A -> string) (step : Obj V -> A -> Obj V)
  (l : list A) (m : Obj V) :
  (forall m a, keys (step m a) = setAdd (f a) (keys m)) ->
  keys (fold_left step l m)
  = fold_left (fun s x => setAdd x s) (map f l) (keys m).
Proof.
  intros H. revert m. induction l as [| a l IH]; intros m; [reflexivity |].
  cbn [fold_left map]. now rewrite IH, H.
Qed.

Lemma setFrom_snoc l x : setFrom (l ++ [x]) = setAdd x (setFrom l).
Proof. unfold setFrom. now rewrite fold_left_app. Qed.

(** X7.  The entries of the legend come in the order in which their
    course keys first occur on Monday to Friday, day by day and slot by
    slot as the schedule enumerates them. *)
Theorem X7_legend_in_order_of_first_occurrence :
  forall schedule : Schedule,
    map Grid.entryKey (Grid.computeLegend schedule)
    = setFrom (map Grid.legendKey (Grid.weekdayClasses schedule)).
Proof.
  intros schedule. rewrite computeLegend_keys, buildLegendMap_flat.
  unfold setFrom. apply (setFrom_map Grid.legendKey). apply keys_legendAdd.
Qed.

Lemma none_matches {A} (p : A -> bool) (l : list A) :
  (forall a, In a l -> p a = false) -> find p l = None /\ filter p l = [].
Proof.
  induction l as [| a l IH]; intros H; [split; reflexivity |].
  cbn. rewrite (H a (or_introl eq_refl)). apply IH.
  intros b Hb. apply H. now right.
Qed.

Lemma find_snoc {A} (p : A -> bool) (l : list A) x :
  find p (l ++ [x])
  = match find p l with
    | Some y => Some y
    | None => if p x then Some x else None
    end.
Proof.
  induction l as [| a l IH]; cbn; [reflexivity |].
  destruct (p a); [reflexivity | exact IH].
Qed.

(** What an entry of the legend map holds after the classes of [l] went
    in: the course of the first class with its key, and the instructors of
    the classes with its key in the order they first occur. *)
Lemma legendMap_first (l : list TimetableClass) :
  forall k e,
    own k (fold_left Grid.legendAdd l []) = Some e ->
    (exists cls,
        find (fun c => String.eqb (Grid.legendKey c) k) l = Some cls
        /\ e.(Grid.legend_course_id) = cls.(course_id)
        /\ e.(Grid.legend_course) = cls.(course))
    /\ e.(Grid.instructors)
       = setFrom (map instructor
                      (filter (fun c => String.eqb (Grid.legendKey c) k) l)).
Proof.
  induction l as [| x l IH] using rev_ind; [discriminate |].
  intros k e. rewrite fold_left_app. cbn [fold_left].
  set (m0 := fold_left Grid.legendAdd l []) in *.
  destruct (legendMap_invariant l) as (_ & Hkeys & _). fold m0 in Hkeys.
  rewrite find_snoc, filter_app, map_app. cbn [filter].
  assert (Hother : k <> Grid.legendKey x -> own k m0 = Some e ->
            (exists cls,
                match find (fun c => String.eqb (Grid.legendKey c) k) l with
                | Some y => Some y
                | None =>
                    if String.eqb (Grid.legendKey x) k then Some x else None
                end = Some cls
                /\ e.(Grid.legend_course_id) = cls.(course_id)
                /\ e.(Grid.legend_course) = cls.(course))
            /\ e.(Grid.instructors)
               = setFrom
                   (map instructor
                      (filter (fun c => String.eqb (Grid.legendKey c) k) l)
                    ++ map instructor
                         (if String.eqb (Grid.legendKey x) k then [x] else []))).
  { intros Hne He. destruct (IH k e He) as [(cls & Hfind & Hnames) Hins].
    destruct (String.eqb_spec (Grid.legendKey x) k) as [E | _];
      [congruence |].
    cbn [map]. rewrite app_nil_r. split; [| exact Hins].
    exists cls. now rewrite Hfind. }
  unfold Grid.legendAdd.
  destruct (own (Grid.legendKey x) m0) as [item |] eqn:Hitem.
  - destruct (String.eqb_spec k (Grid.legendKey x)) as [-> | Hne].
    + rewrite own_setProp_same. intros [= <-].
      destruct (IH _ _ Hitem) as [(cls & Hfind & Hnames) Hins].
      rewrite String.eqb_refl. cbn [map Grid.legend_course_id
        Grid.legend_course Grid.instructors].
      split; [exists cls; now rewrite Hfind |].
      now rewrite setFrom_snoc, Hins.
    + rewrite own_setProp_other by exact Hne. now apply Hother.
  - destruct (String.eqb_spec k (Grid.legendKey x)) as [-> | Hne].
    + rewrite own_setProp_same. intros [= <-].
      rewrite String.eqb_refl. cbn [map Grid.legend_course_id
        Grid.legend_course Grid.instructors].
      destruct (@none_matches _
                  (fun c => String.eqb (Grid.legendKey c) (Grid.legendKey x)) l)
        as [-> ->].
      * intros c Hc. apply String.eqb_neq. intros E.
        apply own_None in Hitem. apply Hitem, Hkeys. eauto.
      * split; [exists x; auto | reflexivity].
    + rewrite own_setProp_other by exact Hne. now apply Hother.
Qed.

Lemma legend_entry_own (schedule : Schedule) entry :
  In entry (Grid.computeLegend schedule) ->
  own (Grid.entryKey entry)
      (fold_left Grid.legendAdd (Grid.weekdayClasses schedule) [])
  = Some entry.
Proof.
  intros Hin. unfold Grid.computeLegend in Hin.
  rewrite buildLegendMap_flat in Hin.
  destruct (legendMap_invariant (Grid.weekdayClasses schedule))
    as (Hnd & _ & Hown).
  apply (In_values_own _ _ Hnd) in Hin. destruct Hin as [k Hk].
  destruct (Hown k entry Hk) as (<- & _). exact Hk.
Qed.

(** X8.  When classes with different course names or ids share a course
    key, the legend shows the id and the name of the first of them, in the
    order the weekday cells are enumerated. *)
Theorem X8_legend_shows_the_first_course :
  forall (schedule : Schedule) (entry : Grid.LegendEntry),
    In entry (Grid.computeLegend schedule) ->
    exists cls,
      find (fun c => String.eqb (Grid.legendKey c) (Grid.entryKey entry))
           (Grid.weekdayClasses schedule) = Some cls
      /\ entry.(Grid.legend_course_id) = cls.(course_id)
      /\ entry.(Grid.legend_course) = cls.(course).
Proof.
  intros schedule entry Hin.
  exact (proj1 (@legendMap_first _ _ _ (@legend_entry_own _ _ Hin))).
Qed.

(** X9.  The instructors of a legend entry are listed in the order in
    which they first occur with the course key on Monday to Friday. *)
Theorem X9_legend_instructors_in_order :
  forall (schedule : Schedule) (entry : Grid.LegendEntry),
    In entry (Grid.computeLegend schedule) ->
    entry.(Grid.instructors)
    = setFrom
        (map instructor
           (filter (fun c => String.eqb (Grid.legendKey c)
                                        (Grid.entryKey entry))
                   (Grid.weekdayClasses schedule))).
Proof.
  intros schedule entry Hin.
  exact (proj2 (@legendMap_first _ _ _ (@legend_entry_own _ _ Hin))).
Qed.

(** X10.  The legend is empty, and its block is hidden, exactly when no
    cell of Monday to Friday holds a class. *)
Theorem X10_legend_empty_without_weekday_classes :
  forall schedule : Schedule,
    Grid.computeLegend schedule = [] <-> Grid.weekdayClasses schedule = [].
Proof.
  intros schedule. split.
  - intros E.
    destruct (Grid.weekdayClasses schedule) as [| c cs] eqn:Hc; [reflexivity |].
    assert (Hk : In (Grid.legendKey c)
                    (map Grid.entryKey (Grid.computeLegend schedule))).
    { rewrite computeLegend_keys, buildLegendMap_flat.
      destruct (legendMap_invariant (Grid.weekdayClasses schedule))
        as (_ & Hkeys & _).
      apply Hkeys. exists c. split; [rewrite Hc; now left | reflexivity]. }
    rewrite E in Hk. destruct Hk.
  - intros E. unfold Grid.computeLegend.
    now rewrite buildLegendMap_flat, E.
Qed.

Lemma X8_legend_shows_the_first_course_witness :
  exists cls,
    find (fun c => String.eqb (Grid.legendKey c) "CS301")
         (Grid.weekdayClasses Sample.schedule4) = Some cls
    /\ "CS301" = cls.(course_id) /\ "Databases" = cls.(course).
Proof.
  apply (@X8_legend_shows_the_first_course Sample.schedule4
           {| Grid.legend_course_id := "CS301";
              Grid.legend_course := "Databases";
              Grid.instructors := ["Rao"; "Iyer"] |}).
  left. reflexivity.
Defined.

Lemma X9_legend_instructors_in_order_witness :
  ["Rao"; "Iyer"]
  = setFrom
      (map instructor
         (filter (fun c => String.eqb (Grid.legendKey c) "CS301")
                 (Grid.weekdayClasses Sample.schedule4))).
Proof.
  apply (@X9_legend_instructors_in_order Sample.schedule4
           {| Grid.legend_course_id := "CS301";
              Grid.legend_course := "Databases";
              Grid.instructors := ["Rao"; "Iyer"] |}).
  left. reflexivity.
Defined.

(** ** More on processSections *)

Lemma processSections_plain (schedule : Schedule) :
  Page.wellFormed schedule ->
  Page.processSections schedule
  = Normal
      (map Page.toSectionData
         (fold_left
            (fun m x => Page.place (fst (fst x)) (snd (fst x)) m (snd x))
            (Page.visits schedule) [])).
Proof.
  intros Hwf. unfold Page.processSections.
  now rewrite groupBySection_plain.
Qed.

Lemma visits_In (schedule : Schedule) d t c :
  In (d, t, c) (Page.visits schedule)
  <-> exists daySchedule classes,
        In (d, daySchedule) schedule /\ In (t, classes) daySchedule
        /\ In c classes.
Proof.
  unfold Page.visits. rewrite in_flat_map. split.
  - intros ([day ds] & Hday & H). apply in_flat_map in H.
    destruct H as ([slot classes] & Hslot & H). apply in_map_iff in H.
    destruct H as (c' & [= <- <- <-] & Hc). cbn [fst snd] in *. eauto.
  - intros (ds & classes & Hday & Hslot & Hc).
    exists (d, ds). split; [exact Hday |]. apply in_flat_map.
    exists (t, classes). split; [exact Hslot |]. apply in_map_iff.
    exists c. split; [reflexivity | exact Hc].
Qed.

Lemma In_setFrom x l : In x (setFrom l) <-> In x l.
Proof.
  unfold setFrom. rewrite addSlots_In. cbn. tauto.
Qed.

Lemma sections_in_order (l : list (string * string * TimetableClass)) :
  keys (fold_left (fun m x => Page.place (fst (fst x)) (snd (fst x)) m (snd x))
                  l [])
  = setFrom (map (fun x => (snd x).(section)) l).
Proof.
  unfold setFrom.
  apply (setFrom_map (fun x : string * string * TimetableClass =>
                        (snd x).(section))).
  intros m x. unfold Page.place. apply keys_setProp_setAdd.
Qed.

(** X11.  The sections, and so the grids of the page, come in the order
    in which the sections are first met when the schedule is walked day by
    day, slot by slot and class by class. *)
Theorem X11_sections_in_order_of_first_occurrence :
  forall schedule : Schedule,
    Page.wellFormed schedule ->
    exists sectionData,
      Page.processSections schedule = Normal sectionData
      /\ map Page.sd_section sectionData
         = setFrom (map (fun x => (snd x).(section)) (Page.visits schedule)).
Proof.
  intros schedule Hwf. eexists. split; [now apply processSections_plain |].
  rewrite sections_of_map. apply sections_in_order.
Qed.

Lemma wellFormed_schedule2 : Page.wellFormed Sample.schedule2.
Proof.
  split.
  - repeat constructor; cbn; intuition discriminate.
  - intros day ds Hin. cbn in Hin.
    repeat (destruct Hin as [Hin | Hin];
            [injection Hin as <- <-;
             split; [reflexivity |
                     split; [repeat constructor; cbn; intuition discriminate |
                             intros slot Hslot; cbn in Hslot;
                             repeat (destruct Hslot as [<- | Hslot];
                                     [reflexivity |]);
                             destruct Hslot]] |]).
    destruct Hin.
Qed.

Lemma X11_sections_in_order_of_first_occurrence_witness :
  exists sectionData,
    Page.processSections Sample.schedule2 = Normal sectionData
    /\ map Page.sd_section sectionData = ["A"; "B"].
Proof.
  exact (@X11_sections_in_order_of_first_occurrence Sample.schedule2
           wellFormed_schedule2).
Defined.

(** X12.  No section, and so no grid, comes out exactly when no cell of
    the schedule holds a class; empty days and empty cells are passed
    over. *)
Theorem X12_no_section_without_classes :
  forall schedule : Schedule,
    Page.wellFormed schedule ->
    Page.processSections schedule = Normal []
    <-> forall day daySchedule slot classes,
          In (day, daySchedule) schedule -> In (slot, classes) daySchedule ->
          classes = [].
Proof.
  intros schedule Hwf. rewrite (processSections_plain Hwf).
  set (m := fold_left
              (fun m x => Page.place (fst (fst x)) (snd (fst x)) m (snd x))
              (Page.visits schedule) []).
  split.
  - intros E day ds slot classes Hday Hslot.
    destruct classes as [| c classes]; [reflexivity |].
    assert (Hin : In c.(section) (keys m)).
    { subst m. rewrite sections_in_order. apply In_setFrom.
      apply (in_map (fun x : string * string * TimetableClass =>
                       (snd x).(section)) _ (day, slot, c)).
      apply visits_In. exists ds, (c :: classes).
      split; [exact Hday | split; [exact Hslot | now left]]. }
    injection E as E. destruct m; [destruct Hin | discriminate E].
  - intros H.
    assert (Hv : Page.visits schedule = []).
    { destruct (Page.visits schedule) as [| [[d t] c] l] eqn:E; [reflexivity |].
      assert (Hin : In (d, t, c) (Page.visits schedule))
        by (rewrite E; now left).
      apply visits_In in Hin. destruct Hin as (ds & classes & Hd & Ht & Hc).
      rewrite (H d ds t classes Hd Ht) in Hc. destruct Hc. }
    subst m. now rewrite Hv.
Qed.

Lemma X12_no_section_without_classes_witness :
  Page.processSections [("Monday", [("09:00:00-10:00:00", [])]); ("Tuesday", [])]
  = Normal [].
Proof.
  apply X12_no_section_without_classes.
  - split.
    + repeat constructor; cbn; intuition discriminate.
    + intros day ds Hin. cbn in Hin.
      destruct Hin as [Hin | [Hin | []]]; injection Hin as <- <-.
      * split; [reflexivity | split; [repeat constructor; intros [] |]].
        intros slot [<- | []]. reflexivity.
      * split; [reflexivity | split; [constructor | intros slot []]].
  - intros day ds slot classes Hday Hslot. cbn in Hday.
    destruct Hday as [Hday | [Hday | []]]; injection Hday as <- <-.
    + destruct Hslot as [Hslot | []]. now injection Hslot as <- <-.
    + destruct Hslot.
Defined.

Lemma setProp_nonempty {V} k (v : V) (o : Obj V) : setProp k v o <> [].
Proof.
  destruct o as [| [k' v'] o]; cbn; [discriminate |].
  destruct (String.eqb k k'); discriminate.
Qed.

(** [place] keeps the records of the sections without idle parts. *)
Lemma place_compact day slot (m : Page.SectionMap) c :
  (forall s sched, In (s, sched) m -> Page.compact s sched) ->
  forall s sched, In (s, sched) (Page.place day slot m c) ->
                  Page.compact s sched.
Proof.
  intros Hm s sched Hin. unfold Page.place in Hin.
  apply In_setProp in Hin. destruct Hin as [[-> ->] | Hin]; [| eauto].
  set (sched0 := Page.getOr [] (section c) m).
  assert (H0 : forall d ds,
             In (d, ds) sched0 ->
             ds <> []
             /\ forall t cl, In (t, cl) ds ->
                             cl <> [] /\ forall c', In c' cl ->
                                                    section c' = section c).
  { destruct (getOr_cases [] (section c) m) as [E | Hin].
    - subst sched0. rewrite E. intros ? ? [].
    - exact (proj2 (Hm _ _ Hin)). }
  set (ds0 := Page.getOr [] day sched0).
  assert (H1 : forall t cl, In (t, cl) ds0 ->
                            cl <> [] /\ forall c', In c' cl ->
                                                   section c' = section c).
  { destruct (getOr_cases [] day sched0) as [E | Hin].
    - subst ds0. rewrite E. intros ? ? [].
    - exact (proj2 (H0 _ _ Hin)). }
  assert (H2 : forall c', In c' (Page.getOr [] slot ds0) ->
                          section c' = section c).
  { destruct (getOr_cases [] slot ds0) as [E | Hin].
    - rewrite E. intros ? [].
    - exact (proj2 (H1 _ _ Hin)). }
  split; [apply setProp_nonempty |].
  intros d ds Hd. apply In_setProp in Hd.
  destruct Hd as [[-> ->] | Hd]; [| exact (H0 _ _ Hd)].
  split; [apply setProp_nonempty |].
  intros t cl Ht. apply In_setProp in Ht.
  destruct Ht as [[-> ->] | Ht]; [| exact (H1 _ _ Ht)].
  split; [now destruct (Page.getOr [] slot ds0) |].
  intros c' Hc'. apply in_app_or in Hc'.
  destruct Hc' as [Hc' | [<- | []]]; [now apply H2 | reflexivity].
Qed.

Lemma visits_compact (l : list (string * string * TimetableClass))
  (m : Page.SectionMap) :
  (forall s sched, In (s, sched) m -> Page.compact s sched) ->
  forall s sched,
    In (s, sched)
       (fold_left (fun m x => Page.place (fst (fst x)) (snd (fst x)) m (snd x))
                  l m) ->
    Page.compact s sched.
Proof.
  revert m. induction l as [| x l IH]; intros m Hm; cbn [fold_left];
    [exact Hm |].
  apply IH. now apply place_compact.
Qed.

(** X13.  A section's record has no idle part: it has at least one day,
    each of its days has at least one slot, each of its cells has at least
    one class, and every class in it names that section. *)
Theorem X13_section_records_are_compact :
  forall schedule : Schedule,
    Page.wellFormed schedule ->
    exists sectionData,
      Page.processSections schedule = Normal sectionData
      /\ forall sd, In sd sectionData ->
                    Page.compact sd.(Page.sd_section) sd.(Page.sd_schedule).
Proof.
  intros schedule Hwf. eexists. split; [now apply processSections_plain |].
  intros sd Hin. apply in_map_iff in Hin.
  destruct Hin as ([s sched] & <- & Hin).
  cbn [Page.toSectionData fst snd Page.sd_section Page.sd_schedule].
  refine (@visits_compact (Page.visits schedule) [] _ s sched Hin).
  intros ? ? [].
Qed.

Lemma X13_section_records_are_compact_witness :
  exists sectionData,
    Page.processSections Sample.schedule2 = Normal sectionData
    /\ forall sd, In sd sectionData ->
                  Page.compact sd.(Page.sd_section) sd.(Page.sd_schedule).
Proof.
  exact (@X13_section_records_are_compact Sample.schedule2
           wellFormed_schedule2).
Defined.

(** ** From the fetched schedule to the grids *)

Lemma section_cells (schedule : Schedule) s sched day slot :
  Page.wellFormed schedule ->
  In (s, sched)
     (fold_left (fun m x => Page.place (fst (fst x)) (snd (fst x)) m (snd x))
                (Page.visits schedule) []) ->
  cellAt sched day slot
  = filter (fun c => String.eqb s c.(section)) (cellAt schedule day slot).
Proof.
  intros Hwf Hin.
  assert (Hnd := @visits_keys (Page.visits schedule) [] (NoDup_nil _)).
  rewrite <- (hits_schedule s day slot Hwf).
  rewrite <- (getOr_own [] _ _ (In_own _ _ _ Hnd Hin)).
  now rewrite visits_cell.
Qed.

Lemma Forall2_map_keys {V B} (P : B -> string -> Prop) (h : string * V -> B)
  (m : Obj V) :
  (forall s v, In (s, v) m -> P (h (s, v)) s) ->
  Forall2 P (map h m) (keys m).
Proof.
  induction m as [| [s v] m IH]; intros H; cbn; constructor.
  - apply H. now left.
  - apply IH. intros s' v' Hin. apply H. now right.
Qed.

(** X14.  After a successful fetch the page shows the timetable with one
    grid per section, in the order the sections are first met; the grid of
    a section is titled "Timetable for" that section, gets the page's edit
    mode, and holds at every day and slot exactly the classes of the
    fetched schedule that name the section. *)
Theorem X14_one_grid_per_section_after_fetch :
  forall (id : string) (data : Page.TimetableData) (st : Page.State),
    Page.wellFormed data.(Page.td_schedule) ->
    exists st',
      Page.fetchTimetable id (Page.GetOk data) st
      = Normal (st', [ApiGet (Page.viewScheduleUrl id)])
      /\ Page.screen st'
         = Page.Timetable data.(Page.timetable_name) st.(Page.editMode)
                          (Page.grids st')
      /\ Forall2
           (fun (props : Grid.Props) (s : string) =>
              props.(Grid.title) = Some ("Timetable for " ++ s)%string
              /\ props.(Grid.editMode) = st.(Page.editMode)
              /\ forall day slot,
                   cellAt props.(Grid.schedule) day slot
                   = filter (fun c => String.eqb s c.(section))
                            (cellAt data.(Page.td_schedule) day slot))
           (Page.grids st')
           (setFrom (map (fun x => (snd x).(section))
                         (Page.visits data.(Page.td_schedule)))).
Proof.
  intros id data st Hwf. unfold Page.fetchTimetable.
  rewrite (processSections_plain Hwf).
  eexists. split; [reflexivity | split; [reflexivity |]].
  unfold Page.grids. cbn [Page.sections Page.editMode].
  rewrite map_map, <- sections_in_order.
  apply Forall2_map_keys. intros s sched Hin.
  cbn [Page.toSectionData fst snd Page.sd_section Page.sd_schedule
       Grid.title Grid.editMode Grid.schedule].
  split; [reflexivity | split; [reflexivity |]].
  intros day slot. now apply section_cells.
Qed.

Lemma X14_one_grid_per_section_after_fetch_witness :
  exists st',
    Page.fetchTimetable "7" (Page.GetOk Sample.data2) Page.initialState
    = Normal (st', [ApiGet "/timetables/7/view_schedule/"])
    /\ Page.screen st' = Page.Timetable "Autumn" false (Page.grids st').
Proof.
  destruct (@X14_one_grid_per_section_after_fetch "7" Sample.data2
              Page.initialState wellFormed_schedule2)
    as (st' & Hrun & Hscreen & _).
  exists st'. split; [exact Hrun | exact Hscreen].
Defined.

(** X15.  The first load.  With an id in the route the page asks for the
    schedule once; when that request fails it leaves the skeleton for the
    "Timetable not found" card and shows the error toast.  Without an id
    nothing is requested and the skeleton stays. *)
Theorem X15_first_load :
  forall (id : string) (reply : Page.GetReply),
    (id <> "" ->
     exists st',
       Page.mount id Page.GetFails Page.initialState
       = Normal (st', [ApiGet (Page.viewScheduleUrl id);
                       ToastError "Failed to fetch timetable details" None])
       /\ Page.screen st' = Page.NotFound)
    /\ (id = "" ->
        Page.mount id reply Page.initialState = Normal (Page.initialState, [])
        /\ Page.screen Page.initialState = Page.Skeleton).
Proof.
  intros id reply. unfold Page.mount. split.
  - intros Hid. apply String.eqb_neq in Hid. rewrite Hid. cbn [negb].
    eexists. split; reflexivity.
  - intros ->. split; reflexivity.
Qed.

(** X16.  A failed refresh changes nothing that is shown: once the first
    load is over, a fetch that fails leaves the state of the page, and so
    the screen with its grids, exactly as it was; the only trace is the
    error toast. *)
Theorem X16_failed_refresh_keeps_the_screen :
  forall (id : string) (st : Page.State),
    st.(Page.loading) = false ->
    Page.fetchTimetable id Page.GetFails st
    = Normal (st, [ApiGet (Page.viewScheduleUrl id);
                   ToastError "Failed to fetch timetable details" None]).
Proof.
  intros id [tt secs ld em] Hl. cbn in Hl. subst ld. reflexivity.
Qed.

Lemma X16_failed_refresh_keeps_the_screen_witness :
  Page.fetchTimetable "7" Page.GetFails
    {| Page.timetable := Some Sample.data2; Page.sections := [];
       Page.loading := false; Page.editMode := true |}
  = Normal ({| Page.timetable := Some Sample.data2; Page.sections := [];
               Page.loading := false; Page.editMode := true |},
            [ApiGet "/timetables/7/view_schedule/";
             ToastError "Failed to fetch timetable details" None]).
Proof.
  exact (@X16_failed_refresh_keeps_the_screen "7"
           {| Page.timetable := Some Sample.data2; Page.sections := [];
              Page.loading := false; Page.editMode := true |} eq_refl).
Defined.

(** X17.  Toggling the edit mode twice gives the state back; each toggle
    touches nothing but the edit mode, announces the mode it switches to,
    and every grid of the page is handed the new mode. *)
Theorem X17_toggle_edit_mode :
  forall st : Page.State,
    let once := Page.toggleEditMode st in
    fst (Page.toggleEditMode (fst once)) = st
    /\ (fst once).(Page.timetable) = st.(Page.timetable)
    /\ (fst once).(Page.sections) = st.(Page.sections)
    /\ (fst once).(Page.loading) = st.(Page.loading)
    /\ (fst once).(Page.editMode) = negb st.(Page.editMode)
    /\ snd once
       = [ToastSuccess
            (if (fst once).(Page.editMode)
             then "Edit mode enabled. Click on a class to select it, then click on an empty slot to move it."
             else "Edit mode disabled.")]
    /\ Forall (fun props : Grid.Props =>
                 props.(Grid.editMode) = negb st.(Page.editMode))
              (Page.grids (fst once)).
Proof.
  intros [tt secs ld em] once. subst once. cbn.
  repeat split.
  - now rewrite negb_involutive.
  - now destruct em.
  - apply Forall_forall. intros props Hin. apply in_map_iff in Hin.
    destruct Hin as (sd & <- & _). reflexivity.
Qed.

Lemma X15_first_load_witness :
  exists st',
    Page.mount "7" Page.GetFails Page.initialState
    = Normal (st', [ApiGet "/timetables/7/view_schedule/";
                    ToastError "Failed to fetch timetable details" None])
    /\ Page.screen st' = Page.NotFound.
Proof.
  apply (proj1 (@X15_first_load "7" Page.GetFails)). discriminate.
Defined.

(** ** The message and the requests of handleSlotUpdate *)

Lemma getField_object k fields :
  getField k (VObj fields) = Normal (Page.getOr VUndefined k fields).
Proof. unfold getField, Page.getOr. now destruct (own k fields). Qed.

(** X18.  Which message a rejected move carries.  For a response body
    that is an object, a truthy [error] field wins over everything else,
    malformed conflicts included; without it a truthy [detail] field is
    taken; the value taken is what [new Error] is given, so the run
    rejects with an [Error] whose message is the text of that value, or
    with the [TypeError] of turning it into text when it has none: a
    non-empty string is its own message, an object with a [toString]
    field of its own has no text.  When [error], [detail] and [conflicts]
    are all missing or falsy, or the body itself is falsy, or no response
    came back, the message is "Failed to move class". *)
Theorem X18_error_message_precedence :
  forall (id : string) (fields : list (string * Val))
         (getReply : Page.GetReply) (classId newDay newTime : string)
         (st : Page.State),
    let field := fun k => Page.getOr VUndefined k fields in
    let run := fun response =>
      Page.handleSlotUpdate id
        (Page.PatchFails {| Page.response_data := response |})
        getReply classId newDay newTime st in
    let rejected := fun reason =>
      Normal {| Page.run_state := st;
                Page.run_effects :=
                  [ConsoleLog "Updating class slot:";
                   ApiPatch "/classes/update_slot/" classId newDay newTime;
                   ConsoleError "Failed to update class slot:"];
                Page.run_completion := Page.Rejected reason |} in
    let raised := fun value =>
      match toString value with
      | Normal message => rejected (Page.ErrorObject message)
      | ThrowsTypeError => rejected Page.TypeError
      | LeavesModel => LeavesModel
      end in
    (truthy (field "error") = true ->
     run (Some (VObj fields)) = raised (field "error"))
    /\ (truthy (field "error") = false -> truthy (field "detail") = true ->
        run (Some (VObj fields)) = raised (field "detail"))
    /\ (forall message, field "error" = VStr message -> message <> "" ->
           run (Some (VObj fields)) = rejected (Page.ErrorObject message))
    /\ (forall message, truthy (field "error") = false ->
           field "detail" = VStr message -> message <> "" ->
           run (Some (VObj fields)) = rejected (Page.ErrorObject message))
    /\ (forall inner text, field "error" = VObj inner ->
           own "toString" inner = Some text ->
           run (Some (VObj fields)) = rejected Page.TypeError)
    /\ (forall inner, field "error" = VObj inner ->
           own "toString" inner = None ->
           run (Some (VObj fields))
           = rejected (Page.ErrorObject "[object Object]"))
    /\ (truthy (field "error") = false -> truthy (field "detail") = false ->
        truthy (field "conflicts") = false ->
        run (Some (VObj fields))
        = rejected (Page.ErrorObject "Failed to move class"))
    /\ (forall body, truthy body = false ->
          run (Some body) = rejected (Page.ErrorObject "Failed to move class"))
    /\ run None = rejected (Page.ErrorObject "Failed to move class").
Proof.
  intros id fields getReply classId newDay newTime st field run rejected
         raised.
  subst field run rejected raised.
  unfold Page.handleSlotUpdate, Page.extractErrorMessage.
  cbn [Page.response_data truthy]. rewrite !getField_object. cbn [bind].
  assert (Hfilled : forall message, message <> ""
                                    -> negb (String.eqb message "") = true).
  { intros message Hm. destruct (String.eqb_spec message ""); [contradiction |].
    reflexivity. }
  repeat split.
  - intros ->. cbn [bind]. now destruct (toString _).
  - intros -> He. cbn [bind]. rewrite He. cbn [bind].
    now destruct (toString _).
  - intros message -> Hm. cbn [truthy bind]. rewrite (Hfilled _ Hm).
    reflexivity.
  - intros message -> -> Hm. cbn [truthy bind]. rewrite (Hfilled _ Hm).
    reflexivity.
  - intros inner text -> Hown. cbn [truthy bind toString]. rewrite Hown.
    reflexivity.
  - intros inner -> Hown. cbn [truthy bind toString]. rewrite Hown.
    reflexivity.
  - intros -> -> Hc. cbn [bind]. rewrite Hc. reflexivity.
  - intros body ->. reflexivity.
Qed.

Lemma X18_error_message_precedence_witness :
  Page.handleSlotUpdate "7"
    (Page.PatchFails
       {| Page.response_data :=
            Some (VObj [("conflicts", VStr "busy");
                        ("error", VStr "Room R1 is taken")]) |})
    Page.GetFails "c1" "Tuesday" "09:00:00-10:00:00" Page.initialState
  = Normal {| Page.run_state := Page.initialState;
              Page.run_effects :=
                [ConsoleLog "Updating class slot:";
                 ApiPatch "/classes/update_slot/" "c1" "Tuesday"
                          "09:00:00-10:00:00";
                 ConsoleError "Failed to update class slot:"];
              Page.run_completion :=
                Page.Rejected (Page.ErrorObject "Room R1 is taken") |}
  /\ Page.handleSlotUpdate "7"
       (Page.PatchFails
          {| Page.response_data :=
               Some (VObj [("error", VObj [("toString", VStr "x")])]) |})
       Page.GetFails "c1" "Tuesday" "09:00:00-10:00:00" Page.initialState
     = Normal {| Page.run_state := Page.initialState;
                 Page.run_effects :=
                   [ConsoleLog "Updating class slot:";
                    ApiPatch "/classes/update_slot/" "c1" "Tuesday"
                             "09:00:00-10:00:00";
                    ConsoleError "Failed to update class slot:"];
                 Page.run_completion := Page.Rejected Page.TypeError |}.
Proof.
  split.
  - exact (proj1 (@X18_error_message_precedence "7"
                    [("conflicts", VStr "busy");
                     ("error", VStr "Room R1 is taken")]
                    Page.GetFails "c1" "Tuesday" "09:00:00-10:00:00"
                    Page.initialState) eq_refl).
  - exact (proj1 (proj2 (proj2 (proj2 (proj2
             (@X18_error_message_precedence "7"
                [("error", VObj [("toString", VStr "x")])]
                Page.GetFails "c1" "Tuesday" "09:00:00-10:00:00"
                Page.initialState)))))
             [("toString", VStr "x")] (VStr "x") eq_refl eq_refl).
Defined.

(** X19.  The requests of a move.  Every run sends the PATCH, once and
    first; it asks for the schedule again exactly when the PATCH
    succeeded; it is fulfilled exactly when the PATCH succeeded, whether
    or not the refresh then works; and a rejected run shows no toast of
    its own. *)
Theorem X19_requests_of_a_move :
  forall (id : string) (patchReply : Page.PatchReply)
         (getReply : Page.GetReply) (classId newDay newTime : string)
         (st : Page.State) (r : Page.Run),
    Page.handleSlotUpdate id patchReply getReply classId newDay newTime st
    = Normal r ->
    match patchReply with
    | Page.PatchOk =>
        filter Page.isRequest r.(Page.run_effects)
        = [ApiPatch "/classes/update_slot/" classId newDay newTime;
           ApiGet (Page.viewScheduleUrl id)]
        /\ r.(Page.run_completion) = Page.Fulfilled
    | Page.PatchFails _ =>
        filter Page.isRequest r.(Page.run_effects)
        = [ApiPatch "/classes/update_slot/" classId newDay newTime]
        /\ (exists reason, r.(Page.run_completion) = Page.Rejected reason)
        /\ filter Page.isToast r.(Page.run_effects) = []
    end.
Proof.
  intros id [| error] getReply classId newDay newTime st r Hrun.
  - unfold Page.handleSlotUpdate, Page.fetchTimetable in Hrun.
    destruct getReply as [data |].
    + destruct (Page.processSections (Page.td_schedule data));
        cbn [bind] in Hrun; try discriminate Hrun;
        injection Hrun as <-; split; reflexivity.
    + cbn [bind] in Hrun. injection Hrun as <-. split; reflexivity.
  - destruct (handleSlotUpdate_failure id error getReply classId newDay
                                       newTime st) as [reason Hfail].
    rewrite Hfail in Hrun. injection Hrun as <-.
    split; [reflexivity | split; [now exists reason | reflexivity]].
Qed.

Lemma X19_requests_of_a_move_witness :
  exists r,
    Page.handleSlotUpdate "7" Page.PatchOk Page.GetFails
                          "c1" "Tuesday" "09:00:00-10:00:00"
                          Page.initialState = Normal r
    /\ r.(Page.run_completion) = Page.Fulfilled.
Proof.
  eexists. split; [reflexivity |].
  exact (proj2 (@X19_requests_of_a_move "7" Page.PatchOk Page.GetFails
                  "c1" "Tuesday" "09:00:00-10:00:00" Page.initialState _
                  eq_refl)).
Defined.

(** ** The exports *)

(** X20.  The file an export saves is named after the timetable, or
    "timetable" when there is none or its name is empty, followed by
    ".pdf" or ".xlsx"; and an export whose request fails saves nothing: it
    creates no anchor and sets no file name. *)
Theorem X20_export_file_name :
  forall (id : string) (st : Page.State),
    Page.exportBaseName st <> ""
    /\ (forall t, st.(Page.timetable) = Some t ->
                  t.(Page.timetable_name) <> "" ->
                  Page.exportBaseName st = t.(Page.timetable_name))
    /\ (forall t, st.(Page.timetable) = Some t ->
                  t.(Page.timetable_name) = "" ->
                  Page.exportBaseName st = "timetable")
    /\ (st.(Page.timetable) = None -> Page.exportBaseName st = "timetable")
    /\ (forall name,
           In (Page.SetDownload name) (Page.exportPDF id true st)
           <-> name = (Page.exportBaseName st ++ ".pdf")%string)
    /\ (forall name,
           In (Page.SetDownload name) (Page.exportExcel id true st)
           <-> name = (Page.exportBaseName st ++ ".xlsx")%string)
    /\ (forall step,
           In step (Page.exportPDF id false st)
           \/ In step (Page.exportExcel id false st) ->
           step <> Page.CreateAnchor
           /\ forall name, step <> Page.SetDownload name).
Proof.
  intros id st. unfold Page.exportBaseName. repeat split.
  - destruct (Page.timetable st) as [t |]; [| discriminate].
    destruct (String.eqb_spec (Page.timetable_name t) "") as [E | E];
      [discriminate | exact E].
  - intros t -> Hname. apply String.eqb_neq in Hname. now rewrite Hname.
  - intros t -> ->. reflexivity.
  - intros ->. reflexivity.
  - cbn. intros H. repeat (destruct H as [H | H]; try discriminate H).
    + now injection H as <-.
    + destruct H.
  - intros ->. cbn. tauto.
  - cbn. intros H. repeat (destruct H as [H | H]; try discriminate H).
    + now injection H as <-.
    + destruct H.
  - intros ->. cbn. tauto.
  - cbn in H. intros ->.
    destruct H as [[H | [H | []]] | [H | [H | []]]]; discriminate H.
  - cbn in H. intros name ->.
    destruct H as [[H | [H | []]] | [H | [H | []]]]; discriminate H.
Qed.

Lemma X20_export_file_name_witness :
  In (Page.SetDownload "timetable.pdf")
     (Page.exportPDF "7" true Page.initialState)
  /\ In (Page.SetDownload "Autumn.xlsx")
        (Page.exportExcel "7" true
           {| Page.timetable := Some Sample.data2; Page.sections := [];
              Page.loading := false; Page.editMode := false |}).
Proof.
  split.
  - apply (proj2 (proj1 (proj2 (proj2 (proj2 (proj2
             (@X20_export_file_name "7" Page.initialState))))) _)).
    now rewrite (proj1 (proj2 (proj2 (proj2
             (@X20_export_file_name "7" Page.initialState)))) eq_refl).
  - apply (proj2 (proj1 (proj2 (proj2 (proj2 (proj2 (proj2
             (@X20_export_file_name "7" _)))))) _)).
    rewrite (proj1 (proj2
               (@X20_export_file_name "7"
                  {| Page.timetable := Some Sample.data2; Page.sections := [];
                     Page.loading := false; Page.editMode := false |}))
               Sample.data2 eq_refl);
      [reflexivity | discriminate].
Defined.

(** ** The legend and the lunch slot *)

(** X21.  The legend does not leave out the lunch slot: a class put on a
    weekday is in the legend with its instructor, whatever its slot, also
    when the slot begins with "13:00" and the table hides the class behind
    the lunch break. *)
Theorem X21_legend_counts_lunch_classes :
  forall (schedule : Schedule) (day slot : string)
         (daySchedule : DaySchedule) (classes : list TimetableClass)
         (cls : TimetableClass),
    In (day, daySchedule) schedule -> In day Grid.days ->
    In (slot, classes) daySchedule -> In cls classes ->
    exists entry,
      In entry (Grid.computeLegend schedule)
      /\ Grid.entryKey entry = Grid.legendKey cls
      /\ In cls.(instructor) entry.(Grid.instructors).
Proof.
  intros schedule day slot ds classes cls Hday Hwd Hslot Hcls.
  assert (Hin : In cls (Grid.weekdayClasses schedule)).
  { apply weekdayClasses_In. exists day, ds, slot, classes. auto. }
  destruct (legendMap_invariant (Grid.weekdayClasses schedule))
    as (Hnd & Hkeys & Hown).
  assert (Hk : In (Grid.legendKey cls)
                  (keys (fold_left Grid.legendAdd
                                   (Grid.weekdayClasses schedule) [])))
    by (apply Hkeys; eauto).
  apply mapHas_In in Hk. unfold mapHas in Hk.
  destruct (own (Grid.legendKey cls) _) as [entry |] eqn:E; [| discriminate].
  destruct (Hown _ _ E) as (Hkey & _ & Hins & _).
  exists entry. split; [| split; [exact Hkey |]].
  - unfold Grid.computeLegend. rewrite buildLegendMap_flat.
    apply own_In in E. unfold values. now apply (in_map snd) in E.
  - apply Hins. eauto.
Qed.

Lemma X21_legend_counts_lunch_classes_witness :
  Grid.isLunchSlot "13:00:00-14:00:00" = true
  /\ exists entry,
       In entry (Grid.computeLegend Sample.schedule2)
       /\ Grid.entryKey entry = "CS301"
       /\ In "Iyer" entry.(Grid.instructors).
Proof.
  split; [reflexivity |].
  apply (@X21_legend_counts_lunch_classes Sample.schedule2 "Wednesday"
           "13:00:00-14:00:00" [("13:00:00-14:00:00", [Sample.class2])]
           [Sample.class2] Sample.class2).
  - right. left. reflexivity.
  - right. right. left. reflexivity.
  - left. reflexivity.
  - left. reflexivity.
Defined.
